(** * Wealth-Arc: session and token lifecycle

    A shallow embedding of the backend's session/token core
    ([config/auth.ts] TokenService, [services/SessionManager.ts],
    [services/auth.ts], [middleware/auth.ts], [controllers/auth.ts],
    [controllers/sessions.ts]) and the properties of its specification.

    Modelling conventions.
    - The PostgreSQL tables are lists of rows, in insertion order.
    - Every [await query(...)] is one [statement]: it may fail (a storage
      error, a lock that is not available, a relation that does not
      exist) and then throws.  Which statements fail is decided by the
      fault plan carried in the world: an empty plan is a healthy store.
    - [BEGIN]/[COMMIT]/[ROLLBACK] are statements too and may fail like
      any other; when served they act on a snapshot of the tables: a
      [BEGIN] inside a transaction and a [ROLLBACK] outside one change
      nothing.  The pool hands the statements of one sequential call to
      the connection released last, so one call sees one connection.
    - A statement the server rejects whatever the tables hold (a bind
      parameter in [SET]) throws on every call.
    - Calls of one process interleave at their [await]s.
    - [NOW()] and [Date.now()] of one call are the instant [now] the call
      is given, in milliseconds.
    - [uuidv4()] and [uuid_generate_v4()] draw from a counter.
    - [jsonwebtoken] is modelled by its documented behaviour: [sign]
      stamps [iat] and [exp] in seconds, [verify] checks the signature,
      then the expiry; [TokenExpiredError] is a subclass of
      [JsonWebTokenError]. *)

From Stdlib Require Import ZArith NArith List String Bool Lia.
From Stdlib Require Import Sorted Permutation.
Import ListNotations.

Local Open Scope string_scope.
Local Open Scope Z_scope.

(** ** Data model *)

Definition Uuid := N.
Bind Scope N_scope with Uuid.
Definition Timestamp := Z.

Module DeviceInfo.
Record t := mk {
  type : string;
  name : string;
  browser : string;
  os : string;
  ip : option string
}.
End DeviceInfo.

(** A row of [user_of_wa], reduced to the columns the login path reads. *)
Module User.
Record t := mk {
  id : Z;
  username : string;
  password_hash : string;
  is_active : bool
}.
End User.

(** A row of [user_sessions_wa] (migrations/create_sessions.sql). *)
Module Session.
Record t := mk {
  id : Uuid;
  user_id : Z;
  token_id : Uuid;
  device_type : string;
  device_name : string;
  browser : string;
  os : string;
  last_active : Timestamp;
  created_at : Timestamp;
  is_marked_for_deletion : bool;
  marked_at : option Timestamp;
  activity_count : Z;
  last_ip : option string
}.

Definition set_last_active (ts : Timestamp) (s : t) : t :=
  mk (id s) (user_id s) (token_id s) (device_type s) (device_name s)
     (browser s) (os s) ts (created_at s) (is_marked_for_deletion s)
     (marked_at s) (activity_count s) (last_ip s).

Definition mark (ts : Timestamp) (s : t) : t :=
  mk (id s) (user_id s) (token_id s) (device_type s) (device_name s)
     (browser s) (os s) (last_active s) (created_at s) true
     (Some ts) (activity_count s) (last_ip s).
End Session.

(** A row of [refresh_tokens_wa] (migrations/create_refresh_tokens.sql). *)
Module RefreshToken.
Record t := mk {
  id : Uuid;
  token_id : Uuid;
  user_id : Z;
  expires_at : Timestamp;
  is_revoked : bool;
  created_at : Timestamp
}.

Definition revoke (r : t) : t :=
  mk (id r) (token_id r) (user_id r) (expires_at r) true (created_at r).
End RefreshToken.

Record TokenPayload := mkPayload {
  userId : Z;
  tokenId : Uuid
}.

(** A bearer string: a compact JWS signed with [key] carrying a payload
    and its [iat]/[exp] claims (seconds), or any other text. *)
Inductive Token :=
| Jws (key : string) (payload : TokenPayload) (iat exp : Z)
| NotJws (text : N).

Record TokenResponse := mkTokenResponse {
  token : Token;
  refreshToken : Token;
  sessionId : Uuid
}.

(** [AUTH_CONFIG]; the lifetimes are what [ms(...)] makes of them. *)
Record AuthConfig := mkConfig {
  JWT_SECRET : string;
  TOKEN_EXPIRATION : Z;
  REFRESH_TOKEN_EXPIRATION : Z;
  MAX_SESSIONS_PER_USER : Z
}.

(** The fallbacks of [requireEnvVar]: '1h', '7d', '3'. *)
Definition default_config (secret : string) : AuthConfig :=
  mkConfig secret 3600000 604800000 3.

(** ** Errors *)

Inductive Error :=
| AuthError (message : string) (status : Z)
| MaxSessionsError (sessions : list Session.t) (userId : Z)
| SessionTerminationError (message : string) (code : string) (statusCode : Z)
| JsonWebTokenError (message : string)
| TokenExpiredError (message : string)
| PlainError (message : string)
| DatabaseError (message : string).

Definition error_message (e : Error) : string :=
  match e with
  | AuthError m _ => m
  | MaxSessionsError _ _ => "Maximum number of sessions reached"
  | SessionTerminationError m _ _ => m
  | JsonWebTokenError m => m
  | TokenExpiredError m => m
  | PlainError m => m
  | DatabaseError m => m
  end.

(** [error instanceof AuthError] *)
Definition instanceof_AuthError (e : Error) : bool :=
  match e with AuthError _ _ => true | _ => false end.

(** [error instanceof jwt.JsonWebTokenError]: the library derives
    [TokenExpiredError] from [JsonWebTokenError]. *)
Definition instanceof_JsonWebTokenError (e : Error) : bool :=
  match e with
  | JsonWebTokenError _ | TokenExpiredError _ => true
  | _ => false
  end.

(** [error instanceof jwt.TokenExpiredError] *)
Definition instanceof_TokenExpiredError (e : Error) : bool :=
  match e with TokenExpiredError _ => true | _ => false end.

Definition instanceof_SessionTerminationError (e : Error) : bool :=
  match e with SessionTerminationError _ _ _ => true | _ => false end.

Definition instanceof_MaxSessionsError (e : Error) : bool :=
  match e with MaxSessionsError _ _ => true | _ => false end.

(** [error instanceof AuthError ? error.status : 401] *)
Definition status_or_401 (e : Error) : Z :=
  match e with AuthError _ st => st | _ => 401 end.

Definition SESSION_NOT_FOUND : string := "SESSION_NOT_FOUND".
Definition SERVER_ERROR : string := "SERVER_ERROR".

(** ** The world: storage, transaction, id supply, fault plan, logs *)

Record Db := mkDb {
  user_of_wa : list User.t;
  user_sessions_wa : list Session.t;
  refresh_tokens_wa : list RefreshToken.t;
  (** the relation named [refresh_tokens]: no migration creates it *)
  refresh_tokens : option (list RefreshToken.t)
}.

Inductive LogLevel := L_info | L_error | L_warn | L_auth | L_session.

Record World := mkWorld {
  db : Db;
  txn : option Db;
  next_uuid : N;
  faults : list bool;
  log : list (LogLevel * string)
}.

Definition with_db (d : Db) (w : World) : World :=
  mkWorld d (txn w) (next_uuid w) (faults w) (log w).
Definition with_txn (t : option Db) (w : World) : World :=
  mkWorld (db w) t (next_uuid w) (faults w) (log w).
Definition with_faults (f : list bool) (w : World) : World :=
  mkWorld (db w) (txn w) (next_uuid w) f (log w).

Definition with_sessions (l : list Session.t) (d : Db) : Db :=
  mkDb (user_of_wa d) l (refresh_tokens_wa d) (refresh_tokens d).
Definition with_refresh_wa (l : list RefreshToken.t) (d : Db) : Db :=
  mkDb (user_of_wa d) (user_sessions_wa d) l (refresh_tokens d).
Definition with_refresh_legacy (l : list RefreshToken.t) (d : Db) : Db :=
  mkDb (user_of_wa d) (user_sessions_wa d) (refresh_tokens_wa d) (Some l).

(** ** A state-and-exception monad for [async] code *)

Inductive Outcome (A : Type) :=
| Return (a : A)
| Throw (e : Error).
Arguments Return {A} a.
Arguments Throw {A} e.

Definition M (A : Type) := World -> Outcome A * World.

Definition ret {A} (a : A) : M A := fun w => (Return a, w).
Definition throw {A} (e : Error) : M A := fun w => (Throw e, w).
Definition bind {A B} (m : M A) (k : A -> M B) : M B := fun w =>
  match m w with
  | (Return a, w') => k a w'
  | (Throw e, w') => (Throw e, w')
  end.
(** [try { m } catch (error) { h error }] *)
Definition try_catch {A} (m : M A) (h : Error -> M A) : M A := fun w =>
  match m w with
  | (Return a, w') => (Return a, w')
  | (Throw e, w') => h e w'
  end.
Definition lift {A} (o : Outcome A) : M A := fun w => (o, w).

Notation "x <- m ;; k" := (bind m (fun x => k))
  (at level 61, m at next level, right associativity).
Notation "m ;;; k" := (bind m (fun _ => k))
  (at level 61, right associativity).

Definition when (b : bool) (m : M unit) : M unit := if b then m else ret tt.

(** One [await query(text, params)]. *)
Definition statement {A} (sql : Db -> Outcome A * Db) : M A := fun w =>
  match faults w with
  | true :: rest =>
      (Throw (DatabaseError "statement failed"), with_faults rest w)
  | false :: rest =>
      let (r, d) := sql (db w) in (r, with_db d (with_faults rest w))
  | [] =>
      let (r, d) := sql (db w) in (r, with_db d w)
  end.

(** [await query('BEGIN')], [await query('COMMIT')] and
    [await query('ROLLBACK')] are statements like any other: each uses
    one entry of the fault plan and throws when it fails, and then the
    transaction state is as it was. *)
Definition transaction_command (f : World -> World) : M unit := fun w =>
  match faults w with
  | true :: rest =>
      (Throw (DatabaseError "statement failed"), with_faults rest w)
  | false :: rest => (Return tt, f (with_faults rest w))
  | [] => (Return tt, f w)
  end.

Definition BEGIN : M unit :=
  transaction_command (fun w =>
    match txn w with
    | None => with_txn (Some (db w)) w
    | Some _ => w
    end).
Definition COMMIT : M unit := transaction_command (with_txn None).
Definition ROLLBACK : M unit :=
  transaction_command (fun w =>
    match txn w with
    | Some d => with_txn None (with_db d w)
    | None => w
    end).

(** A statement the server rejects on every call, whatever the tables
    hold (a syntax error, a column that does not exist): the query is
    sent, so it uses one entry of the fault plan, and it throws. *)
Definition rejected_statement {A} (message : string) : M A := fun w =>
  match faults w with
  | true :: rest =>
      (Throw (DatabaseError "statement failed"), with_faults rest w)
  | false :: rest => (Throw (DatabaseError message), with_faults rest w)
  | [] => (Throw (DatabaseError message), w)
  end.

Definition uuidv4 : M Uuid := fun w =>
  (Return (next_uuid w),
   mkWorld (db w) (txn w) (N.succ (next_uuid w)) (faults w) (log w)).

Definition Logger (lvl : LogLevel) (message : string) : M unit := fun w =>
  (Return tt,
   mkWorld (db w) (txn w) (next_uuid w) (faults w) (log w ++ [(lvl, message)])).

(** ** SQL building blocks *)

Definition select_sessions (p : Session.t -> bool) : M (list Session.t) :=
  statement (fun d => (Return (filter p (user_sessions_wa d)), d)).

(** [DELETE FROM user_sessions_wa WHERE p RETURNING *] *)
Definition delete_sessions (p : Db -> Session.t -> bool) : M (list Session.t) :=
  statement (fun d =>
    (Return (filter (p d) (user_sessions_wa d)),
     with_sessions (filter (fun s => negb (p d s)) (user_sessions_wa d)) d)).

(** [UPDATE user_sessions_wa SET f WHERE p RETURNING *] *)
Definition update_sessions (p : Session.t -> bool) (f : Session.t -> Session.t)
  : M (list Session.t) :=
  statement (fun d =>
    (Return (filter p (user_sessions_wa d)),
     with_sessions (map (fun s => if p s then f s else s) (user_sessions_wa d)) d)).

Definition insert_session (row : Session.t) : M unit :=
  statement (fun d => (Return tt, with_sessions (user_sessions_wa d ++ [row]) d)).

Definition select_refresh_wa (p : RefreshToken.t -> bool) : M (list RefreshToken.t) :=
  statement (fun d => (Return (filter p (refresh_tokens_wa d)), d)).

Definition update_refresh_wa (p : RefreshToken.t -> bool)
  (f : RefreshToken.t -> RefreshToken.t) : M (list RefreshToken.t) :=
  statement (fun d =>
    (Return (filter p (refresh_tokens_wa d)),
     with_refresh_wa (map (fun r => if p r then f r else r) (refresh_tokens_wa d)) d)).

Definition insert_refresh_wa (row : RefreshToken.t) : M unit :=
  statement (fun d => (Return tt, with_refresh_wa (refresh_tokens_wa d ++ [row]) d)).

(** [DELETE FROM refresh_tokens WHERE p]: fails when the relation is absent. *)
Definition delete_refresh_legacy (p : RefreshToken.t -> bool) : M unit :=
  statement (fun d =>
    match refresh_tokens d with
    | None => (Throw (DatabaseError "relation does not exist"), d)
    | Some rows =>
        (Return tt, with_refresh_legacy (filter (fun r => negb (p r)) rows) d)
    end).

(** [NOT is_revoked AND expires_at > NOW()] *)
Definition usable (now : Timestamp) (r : RefreshToken.t) : bool :=
  negb (RefreshToken.is_revoked r) && (now <? RefreshToken.expires_at r).

(** [is_revoked = true OR expires_at < NOW()] *)
Definition dead (now : Timestamp) (r : RefreshToken.t) : bool :=
  RefreshToken.is_revoked r || (RefreshToken.expires_at r <? now).

(** [SELECT id FROM user_sessions_wa WHERE user_id = $1
     ORDER BY last_active ASC LIMIT 1]; among equal timestamps the row
    stored first is taken. *)
Fixpoint least_recently_active (rows : list Session.t) : option Session.t :=
  match rows with
  | [] => None
  | s :: rest =>
      match least_recently_active rest with
      | None => Some s
      | Some m =>
          if Session.last_active s <=? Session.last_active m
          then Some s else Some m
      end
  end.

(** ** jsonwebtoken *)

Definition jwt_sign (payload : TokenPayload) (secret : string)
  (expiresIn : Z) (now : Timestamp) : Token :=
  let iat := now / 1000 in
  Jws secret payload iat (iat + expiresIn / 1000).

Definition jwt_verify (t : Token) (secret : string) (now : Timestamp)
  : Outcome TokenPayload :=
  match t with
  | NotJws _ => Throw (JsonWebTokenError "jwt malformed")
  | Jws key payload _ exp =>
      if negb (String.eqb key secret)
      then Throw (JsonWebTokenError "invalid signature")
      else if exp <=? now / 1000
      then Throw (TokenExpiredError "jwt expired")
      else Return payload
  end.

Definition jwt_decode (t : Token) : option TokenPayload :=
  match t with
  | NotJws _ => None
  | Jws _ payload _ _ => Some payload
  end.

(** ** HTTP-facing values *)

Record HttpResponse := mkResponse {
  status : Z;
  success : option bool;
  error : option string;
  message : option string;
  remainingSessions : option Z
}.

Inductive Handled :=
| Next (user : TokenPayload)
| Responded (r : HttpResponse).

Record AuthResult := mkAuthResult {
  ar_success : bool;
  ar_token : option Token;
  ar_refreshToken : option Token;
  ar_user : option (Z * string);
  ar_message : option string;
  ar_error : option string
}.

Record CleanupMetrics := mkCleanupMetrics {
  expiredTokens : Z;
  expiredSessions : Z;
  inactiveSessions : Z;
  markedSessions : Z
}.

Definition count {A} (rows : list A) : Z := Z.of_nat (List.length rows).

Definition eqN (a b : Uuid) : bool := N.eqb a b.

Section Services.

Variable cfg : AuthConfig.
(** [bcrypt.compare(password, hash)] and [String.trim().toLowerCase()] *)
Variable bcrypt_compare : string -> string -> bool.
Variable sanitizeInput : string -> string.

(** *** UserModel (models/User.ts) *)

Definition findByUsername (username : string) : M (option User.t) :=
  try_catch
    (let sanitizedUsername := sanitizeInput username in
     rows <- statement (fun d =>
       (Return (filter (fun u => String.eqb (User.username u) sanitizedUsername)
                       (user_of_wa d)), d)) ;;
     match rows with
     | [] => ret None
     | u :: _ => ret (Some u)
     end)
    (fun error =>
       Logger L_error "Failed to find user by username" ;;; throw error).

Definition verifyPassword (user : User.t) (password : string) : M bool :=
  ret (bcrypt_compare password (User.password_hash user)).

(** *** TokenService (config/auth.ts) *)

Definition enforceSessionLimit (userId : Z) : M unit :=
  result <- select_sessions (fun s => Session.user_id s =? userId) ;;
  let sessionCount := count result in
  when (MAX_SESSIONS_PER_USER cfg <=? sessionCount)
    (delete_sessions (fun d s =>
       match least_recently_active
               (filter (fun x => Session.user_id x =? userId)
                       (user_sessions_wa d)) with
       | Some oldest => eqN (Session.id s) (Session.id oldest)
       | None => false
       end) ;;; ret tt).

Definition createSession (now : Timestamp) (userId : Z)
  (deviceInfo : DeviceInfo.t) (tokenId : option Uuid) : M Uuid :=
  enforceSessionLimit userId ;;;
  sessionTokenId <- match tokenId with
                    | Some t => ret t
                    | None => uuidv4
                    end ;;
  rowId <- uuidv4 ;;
  insert_session
    (Session.mk rowId userId sessionTokenId
       (DeviceInfo.type deviceInfo) (DeviceInfo.name deviceInfo)
       (DeviceInfo.browser deviceInfo) (DeviceInfo.os deviceInfo)
       now now false None 0 (DeviceInfo.ip deviceInfo)) ;;;
  ret sessionTokenId.

Definition generateTokens (now : Timestamp) (userId : Z)
  (deviceInfo : DeviceInfo.t) : M TokenResponse :=
  tokenId <- createSession now userId deviceInfo None ;;
  let accessToken :=
    jwt_sign (mkPayload userId tokenId) (JWT_SECRET cfg)
             (TOKEN_EXPIRATION cfg) now in
  let refreshToken :=
    jwt_sign (mkPayload userId tokenId) (JWT_SECRET cfg)
             (REFRESH_TOKEN_EXPIRATION cfg) now in
  rowId <- uuidv4 ;;
  insert_refresh_wa
    (RefreshToken.mk rowId tokenId userId
       (now + REFRESH_TOKEN_EXPIRATION cfg) false now) ;;;
  ret (mkTokenResponse accessToken refreshToken tokenId).

Definition updateSessionActivity (now : Timestamp) (tokenId : Uuid) : M unit :=
  try_catch
    (update_sessions (fun s => eqN (Session.token_id s) tokenId)
                     (Session.set_last_active now) ;;; ret tt)
    (fun _ => Logger L_error "Failed to update session activity").

Definition verifyToken (now : Timestamp) (token : Token) : M TokenPayload :=
  try_catch
    (decoded <- lift (jwt_verify token (JWT_SECRET cfg) now) ;;
     session <- select_sessions (fun s =>
       eqN (Session.token_id s) (tokenId decoded)
       && (Session.user_id s =? userId decoded)) ;;
     match session with
     | [] => throw (AuthError "Session not found" 401)
     | _ :: _ =>
         updateSessionActivity now (tokenId decoded) ;;;
         ret decoded
     end)
    (fun error =>
       if instanceof_JsonWebTokenError error
       then throw (AuthError "Invalid token" 401)
       else if instanceof_TokenExpiredError error
       then throw (AuthError "Token expired" 401)
       else throw error).

Definition isSessionValid (tokenId : Uuid) : M bool :=
  try_catch
    (rows <- select_sessions (fun s => eqN (Session.token_id s) tokenId) ;;
     ret (0 <? count rows))
    (fun _ => ret false).

Definition getActiveSessions (userId : Z) : M Z :=
  rows <- select_sessions (fun s =>
    (Session.user_id s =? userId)
    && negb (Session.is_marked_for_deletion s)) ;;
  ret (count rows).

Definition isRefreshTokenValid (now : Timestamp) (refreshToken : Token) : M bool :=
  try_catch
    (decoded <- lift (jwt_verify refreshToken (JWT_SECRET cfg) now) ;;
     rows <- select_refresh_wa (fun r =>
       eqN (RefreshToken.token_id r) (tokenId decoded) && usable now r) ;;
     ret (0 <? count rows))
    (fun _ => ret false).

Definition rotateTokens (now : Timestamp) (refreshToken : Token) : M TokenResponse :=
  BEGIN ;;;
  try_catch
    (decoded <- lift (jwt_verify refreshToken (JWT_SECRET cfg) now) ;;
     tokenValid <- isRefreshTokenValid now refreshToken ;;
     when (negb tokenValid) (throw (AuthError "Invalid refresh token" 401)) ;;;
     sessionResult <- select_sessions (fun s =>
       eqN (Session.token_id s) (tokenId decoded)) ;;
     match sessionResult with
     | [] => throw (AuthError "Session not found" 401)
     | row :: _ =>
         let deviceInfo :=
           DeviceInfo.mk (Session.device_type row) (Session.device_name row)
                         (Session.browser row) (Session.os row)
                         (Session.last_ip row) in
         newTokens <- generateTokens now (userId decoded) deviceInfo ;;
         update_refresh_wa
           (fun r => eqN (RefreshToken.token_id r) (tokenId decoded))
           RefreshToken.revoke ;;;
         COMMIT ;;;
         ret newTokens
     end)
    (fun error =>
       ROLLBACK ;;;
       if instanceof_AuthError error
       then throw error
       else throw (AuthError "Failed to rotate tokens" 401)).

(** The same call cut at the [await] of its session lookup.  Node runs
    one call until it awaits, and another call of the same process may
    run in between: [rotateTokens_reads] is the call up to the row the
    lookup resolves to, [rotateTokens_writes] is the call from there
    on; both stand inside the [try] of [rotateTokens] and fail into its
    [catch]. *)
Definition rotateTokens_catch {A} (error : Error) : M A :=
  ROLLBACK ;;;
  if instanceof_AuthError error
  then throw error
  else throw (AuthError "Failed to rotate tokens" 401).

Definition rotateTokens_reads (now : Timestamp) (refreshToken : Token)
  : M (TokenPayload * Session.t) :=
  BEGIN ;;;
  try_catch
    (decoded <- lift (jwt_verify refreshToken (JWT_SECRET cfg) now) ;;
     tokenValid <- isRefreshTokenValid now refreshToken ;;
     when (negb tokenValid) (throw (AuthError "Invalid refresh token" 401)) ;;;
     sessionResult <- select_sessions (fun s =>
       eqN (Session.token_id s) (tokenId decoded)) ;;
     match sessionResult with
     | [] => throw (AuthError "Session not found" 401)
     | row :: _ => ret (decoded, row)
     end)
    rotateTokens_catch.

Definition rotateTokens_writes (now : Timestamp)
  (read : TokenPayload * Session.t) : M TokenResponse :=
  let (decoded, row) := read in
  try_catch
    (let deviceInfo :=
       DeviceInfo.mk (Session.device_type row) (Session.device_name row)
                     (Session.browser row) (Session.os row)
                     (Session.last_ip row) in
     newTokens <- generateTokens now (userId decoded) deviceInfo ;;
     update_refresh_wa
       (fun r => eqN (RefreshToken.token_id r) (tokenId decoded))
       RefreshToken.revoke ;;;
     COMMIT ;;;
     ret newTokens)
    rotateTokens_catch.

(** Two calls of one process: the first runs up to an [await], the
    second runs up to its own, then each runs to its end. *)
Definition interleaved {A B C D} (head1 : M A) (tail1 : A -> M B)
  (head2 : M C) (tail2 : C -> M D) : M (B * D) :=
  a <- head1 ;;
  c <- head2 ;;
  b <- tail1 a ;;
  d <- tail2 c ;;
  ret (b, d).

Definition refreshAccessToken (now : Timestamp) (refreshToken : Token)
  : M TokenResponse :=
  try_catch
    (tokenValid <- isRefreshTokenValid now refreshToken ;;
     when (negb tokenValid) (throw (AuthError "Invalid refresh token" 401)) ;;;
     rotateTokens now refreshToken)
    (fun error =>
       if instanceof_TokenExpiredError error
       then throw (AuthError "Refresh token expired" 401)
       else throw error).

(** [!verifyRevoked.rows[0]?.is_revoked] *)
Definition first_not_revoked (rows : list RefreshToken.t) : bool :=
  match rows with
  | [] => true
  | r :: _ => negb (RefreshToken.is_revoked r)
  end.

Definition TokenService_logout (userId : Z) (tokenId : Uuid) : M unit :=
  try_catch
    (Logger L_auth "Starting logout process" ;;;
     BEGIN ;;;
     delete_sessions (fun _ s =>
       (Session.user_id s =? userId) && eqN (Session.token_id s) tokenId) ;;;
     update_refresh_wa (fun r =>
       (RefreshToken.user_id r =? userId)
       && eqN (RefreshToken.token_id r) tokenId) RefreshToken.revoke ;;;
     verifyRevoked <- select_refresh_wa (fun r =>
       eqN (RefreshToken.token_id r) tokenId) ;;
     when (first_not_revoked verifyRevoked)
          (throw (PlainError "Failed to revoke refresh token")) ;;;
     COMMIT ;;;
     Logger L_auth "Logout successful")
    (fun error =>
       ROLLBACK ;;;
       Logger L_error "Logout failed" ;;;
       throw error).

Definition handleExpiredToken (now : Timestamp) (tokenId : Uuid) : M unit :=
  try_catch
    (BEGIN ;;;
     update_sessions (fun s => eqN (Session.token_id s) tokenId)
                     (Session.mark now) ;;;
     update_refresh_wa (fun r => eqN (RefreshToken.token_id r) tokenId)
                       RefreshToken.revoke ;;;
     refreshTokenValid <- select_refresh_wa (fun r =>
       eqN (RefreshToken.token_id r) tokenId && usable now r) ;;
     when (negb (0 <? count refreshTokenValid))
          (delete_sessions (fun _ s => eqN (Session.token_id s) tokenId) ;;;
           ret tt) ;;;
     COMMIT ;;;
     Logger L_auth "Token expired - Session handled")
    (fun _ =>
       ROLLBACK ;;;
       Logger L_error "Failed to handle expired token").

(** *** SessionManager (services/SessionManager.ts) *)

Definition token_in (rows : list RefreshToken.t) (s : Session.t) : bool :=
  existsb (fun r => eqN (RefreshToken.token_id r) (Session.token_id s)) rows.

Definition cleanup (now : Timestamp) : M CleanupMetrics :=
  try_catch
    (BEGIN ;;;
     markedResult <- delete_sessions (fun _ s =>
       Session.is_marked_for_deletion s) ;;
     expiredTokensResult <- update_refresh_wa (fun r =>
       (RefreshToken.expires_at r <? now)
       && negb (RefreshToken.is_revoked r)) RefreshToken.revoke ;;
     expiredSessionsResult <- delete_sessions (fun d s =>
       token_in (filter (dead now) (refresh_tokens_wa d)) s) ;;
     COMMIT ;;;
     ret (mkCleanupMetrics (count expiredTokensResult)
                           (count expiredSessionsResult)
                           0
                           (count markedResult)))
    (fun error => ROLLBACK ;;; throw error).

Definition markSessionForDeletion (now : Timestamp) (sessionId : Uuid)
  (userId : Z) : M unit :=
  update_sessions (fun s =>
    eqN (Session.id s) sessionId && (Session.user_id s =? userId))
    (Session.mark now) ;;; ret tt.

(** [ORDER BY last_active DESC]: insertion into a list kept descending,
    equal timestamps in table order. *)
Fixpoint insert_desc (s : Session.t) (l : list Session.t) : list Session.t :=
  match l with
  | [] => [s]
  | x :: rest =>
      if Session.last_active x <=? Session.last_active s
      then s :: l
      else x :: insert_desc s rest
  end.

Definition order_by_last_active_desc (l : list Session.t) : list Session.t :=
  fold_right insert_desc [] l.

Definition getUserSessions (userId : Z) : M (list Session.t) :=
  try_catch
    (rows <- select_sessions (fun s =>
       (Session.user_id s =? userId)
       && negb (Session.is_marked_for_deletion s)) ;;
     ret (order_by_last_active_desc rows))
    (fun error => Logger L_error "Failed to get user sessions" ;;; throw error).

(** *** services/auth.ts *)

Definition failed_with_message (m : string) : AuthResult :=
  mkAuthResult false None None None (Some m) None.

Definition authenticateUser (now : Timestamp) (username password : string)
  (deviceInfo : DeviceInfo.t) : M AuthResult :=
  try_catch
    (user <- findByUsername username ;;
     match user with
     | None => ret (failed_with_message "Invalid credentials")
     | Some user =>
         isValid <- verifyPassword user password ;;
         if negb isValid
         then ret (failed_with_message "Invalid credentials")
         else
           activeSessionCount <- getActiveSessions (User.id user) ;;
           if MAX_SESSIONS_PER_USER cfg <=? activeSessionCount
           then
             Logger L_warn "Max sessions reached" ;;;
             throw (MaxSessionsError [] (User.id user))
           else
             tokens <- generateTokens now (User.id user) deviceInfo ;;
             ret (mkAuthResult true (Some (token tokens))
                    (Some (refreshToken tokens))
                    (Some (User.id user, User.username user)) None None)
     end)
    (fun error =>
       Logger L_error "Authentication failed" ;;;
       ret (mkAuthResult false None None None None
              (Some (error_message error)))).

Definition AuthService_login (now : Timestamp) (username password : string)
  (deviceInfo : DeviceInfo.t) : M TokenResponse :=
  try_catch
    (user <- findByUsername username ;;
     match user with
     | None => throw (AuthError "Invalid credentials" 401)
     | Some user =>
         when (negb (User.is_active user))
              (throw (AuthError "Invalid credentials" 401)) ;;;
         isValid <- verifyPassword user password ;;
         when (negb isValid) (throw (AuthError "Invalid credentials" 401)) ;;;
         activeSessionCount <- getActiveSessions (User.id user) ;;
         when (MAX_SESSIONS_PER_USER cfg <=? activeSessionCount)
              (Logger L_warn "Max sessions reached" ;;;
               throw (MaxSessionsError [] (User.id user))) ;;;
         generateTokens now (User.id user) deviceInfo
     end)
    (fun error => Logger L_error "Login failed" ;;; throw error).

(** *** middleware/auth.ts *)

Definition authenticateToken (now : Timestamp) (bearer : option Token) : M Handled :=
  try_catch
    (match bearer with
     | None => throw (AuthError "No token provided" 401)
     | Some token =>
         try_catch
           (decoded <- verifyToken now token ;;
            ret (Next decoded))
           (fun error =>
              if instanceof_TokenExpiredError error
              then
                match jwt_decode token with
                | Some decoded => handleExpiredToken now (tokenId decoded)
                | None => ret tt
                end ;;;
                throw (AuthError "Token expired" 401)
              else throw (AuthError "Invalid token" 401))
     end)
    (fun error =>
       Logger L_error "Authentication failed" ;;;
       ret (Responded (mkResponse (status_or_401 error) None
                         (Some (error_message error)) None None))).

(** *** controllers/auth.ts *)

Definition handleLogout (now : Timestamp) (user : option TokenPayload)
  : M HttpResponse :=
  let reject :=
    Logger L_warn "Logout attempted without valid session" ;;;
    ret (mkResponse 401 None (Some "UNAUTHORIZED")
           (Some "No valid session found") None) in
  try_catch
    (match user with
     | None => reject
     | Some u =>
         if userId u =? 0 then reject
         else
           sessionExists <- isSessionValid (tokenId u) ;;
           Logger L_auth "Session verification for logout" ;;;
           TokenService_logout (userId u) (tokenId u) ;;;
           sessionStillExists <- isSessionValid (tokenId u) ;;
           tokenStillValid <- isRefreshTokenValid now (NotJws (tokenId u)) ;;
           when (sessionStillExists || tokenStillValid)
                (Logger L_error "Cleanup verification failed") ;;;
           Logger L_auth "Logout successful" ;;;
           ret (mkResponse 200 (Some true) None
                  (Some "Logged out successfully") None)
     end)
    (fun _ =>
       Logger L_error "Logout handler error" ;;;
       ret (mkResponse 500 None (Some "INTERNAL_ERROR")
              (Some "Failed to logout") None)).

(** *** controllers/sessions.ts *)

(** [await query('SET LOCAL lock_timeout = $1', [TERMINATION_LOCK_TIMEOUT])]:
    PostgreSQL takes no bind parameter in [SET], so the server answers
    this statement with a syntax error on every call. *)
Definition SET_LOCAL_lock_timeout : M unit :=
  rejected_statement "syntax error at or near $1".

Definition terminatePreLoginSession (userId : Z) (sessionId : Uuid)
  : M HttpResponse :=
  let owned := fun s : Session.t =>
    eqN (Session.id s) sessionId && (Session.user_id s =? userId) in
  try_catch
    (Logger L_session "Session termination started" ;;;
     BEGIN ;;;
     SET_LOCAL_lock_timeout ;;;
     try_catch
       (sessionResult <- select_sessions owned ;;
        Logger L_session "Session lock acquired" ;;;
        match sessionResult with
        | [] =>
            ROLLBACK ;;;
            throw (SessionTerminationError
                     "Session not found or already terminated"
                     SESSION_NOT_FOUND 404)
        | row :: _ =>
            delete_refresh_legacy (fun r =>
              eqN (RefreshToken.token_id r) (Session.token_id row)) ;;;
            deleteResult <- delete_sessions (fun _ => owned) ;;
            remaining <- select_sessions (fun s => Session.user_id s =? userId) ;;
            Logger L_session "Session termination successful" ;;;
            COMMIT ;;;
            ret (mkResponse 200 (Some true) None
                   (Some "Session terminated successfully")
                   (Some (count remaining)))
        end)
       (fun error => ROLLBACK ;;; throw error))
    (fun error =>
       Logger L_session "Session termination failed" ;;;
       match error with
       | SessionTerminationError m code st =>
           ret (mkResponse st (Some false) (Some code) (Some m) None)
       | _ =>
           ret (mkResponse 500 (Some false) (Some SERVER_ERROR)
                  (Some "Failed to terminate session") None)
       end).

End Services.

(** ** Further operations of the same modules *)

Section MoreServices.

Variable cfg : AuthConfig.

(** *** UserModel.findById (models/User.ts) *)

Definition findById (id : Z) : M (option User.t) :=
  try_catch
    (rows <- statement (fun d =>
       (Return (filter (fun u => (User.id u =? id) && User.is_active u)
                       (user_of_wa d)), d)) ;;
     ret (hd_error rows))
    (fun error =>
       Logger L_error "Failed to find user by ID" ;;; throw error).

(** *** TokenService (config/auth.ts) *)

Definition validateSession (tokenId : Uuid) : M bool :=
  rows <- select_sessions (fun s => eqN (Session.token_id s) tokenId) ;;
  ret (0 <? count rows).

Definition invalidateSession (tokenId : Uuid) : M unit :=
  delete_sessions (fun _ s => eqN (Session.token_id s) tokenId) ;;; ret tt.

Definition invalidateAllUserSessions (userId : Z) : M unit :=
  delete_sessions (fun _ s => Session.user_id s =? userId) ;;; ret tt.

Definition TokenService_terminateSession (now : Timestamp) (userId : Z)
  (sessionId : Uuid) : M unit :=
  try_catch
    (markSessionForDeletion now sessionId userId)
    (fun error => Logger L_error "Failed to terminate session" ;;; throw error).

(** [marked_at < NOW() - INTERVAL '5 minutes']; a NULL [marked_at]
    never satisfies it. *)
Definition marked_long_ago (now : Timestamp) (s : Session.t) : bool :=
  Session.is_marked_for_deletion s
  && match Session.marked_at s with
     | Some m => m <? now - 300000
     | None => false
     end.

Definition cleanupExpiredSessions (now : Timestamp) : M unit :=
  try_catch
    (BEGIN ;;;
     delete_sessions (fun _ s => marked_long_ago now s) ;;;
     statement (fun d =>
       (Return tt,
        with_refresh_wa
          (map (fun r =>
                  if negb (existsb (fun s => eqN (Session.token_id s)
                                                 (RefreshToken.token_id r))
                                   (user_sessions_wa d))
                  then RefreshToken.revoke r else r)
               (refresh_tokens_wa d)) d)) ;;;
     COMMIT)
    (fun _ =>
       ROLLBACK ;;;
       Logger L_error "Failed to cleanup sessions").

(** *** services/auth.ts *)

Definition logout (userId : Z) (tokenId : Uuid) : M unit :=
  try_catch
    (TokenService_logout userId tokenId)
    (fun error => Logger L_error "Logout failed" ;;; throw error).

Definition AuthService_logout (now : Timestamp) (sessionId : Uuid) (userId : Z)
  : M bool :=
  let owned := fun s : Session.t =>
    eqN (Session.id s) sessionId && (Session.user_id s =? userId) in
  BEGIN ;;;
  try_catch
    (sessionResult <- select_sessions owned ;;
     match sessionResult with
     | [] => throw (AuthError "Session not found" 404)
     | row :: _ =>
         update_sessions owned (Session.mark now) ;;;
         update_refresh_wa
           (fun r => eqN (RefreshToken.token_id r) (Session.token_id row))
           RefreshToken.revoke ;;;
         COMMIT ;;;
         ret true
     end)
    (fun error => ROLLBACK ;;; throw error).

Definition AuthService_verifyToken (now : Timestamp) (token : Token)
  : M TokenPayload :=
  try_catch
    (verifyToken cfg now token)
    (fun error => Logger L_error "Token verification failed" ;;; throw error).


(** *** middleware/auth.ts *)

(** The value is [req.user] when [next()] is called. *)
Definition optionalAuthenticateToken (now : Timestamp) (bearer : option Token)
  : M (option TokenPayload) :=
  try_catch
    (match bearer with
     | Some token =>
         decoded <- verifyToken cfg now token ;;
         user <- findById (userId decoded) ;;
         match user with
         | Some _ => ret (Some decoded)
         | None => ret None
         end
     | None => ret None
     end)
    (fun _ => ret None).

(** *** controllers/auth.ts *)

(** [error instanceof AppError]: [AuthError] is the only one thrown here. *)
Definition instanceof_AppError (e : Error) : bool := instanceof_AuthError e.

Definition terminateSession (now : Timestamp) (user : option TokenPayload)
  (sessionId : Uuid) : M HttpResponse :=
  try_catch
    (match user with
     | Some u =>
         if userId u =? 0
         then throw (AuthError "User not authenticated" 401)
         else
           TokenService_terminateSession now (userId u) sessionId ;;;
           ret (mkResponse 200 None None
                  (Some "Session terminated successfully") None)
     | None => throw (AuthError "User not authenticated" 401)
     end)
    (fun error =>
       Logger L_error "Session termination failed" ;;;
       if instanceof_AppError error
       then ret (mkResponse (status_or_401 error) None (Some "AUTH_ERROR")
                   (Some (error_message error)) None)
       else ret (mkResponse 500 None (Some "INTERNAL_ERROR")
                   (Some "Failed to terminate session") None)).

End MoreServices.

(** ** The login route (routes/auth.ts) *)

(** What [POST /login] answers: [res.json(result)] or
    [res.status(401).json(result)]; the 400 [MAX_SESSIONS_REACHED] body
    with the sessions of the error; or a bare error body. *)
Inductive LoginAnswer :=
| LoginResult (status : Z) (result : AuthResult)
| LoginMaxSessions (sessions : list Session.t)
| LoginError (status : Z) (error : string).

Definition login_route (cfg : AuthConfig)
  (bcrypt_compare : string -> string -> bool) (sanitizeInput : string -> string)
  (now : Timestamp) (username password : string) (deviceInfo : DeviceInfo.t)
  : M LoginAnswer :=
  try_catch
    (if String.eqb username "" || String.eqb password ""
     then ret (LoginError 400 "Missing credentials")
     else
       try_catch
         (result <- authenticateUser cfg bcrypt_compare sanitizeInput now
                                     username password deviceInfo ;;
          if ar_success result
          then ret (LoginResult 200 result)
          else ret (LoginResult 401 result))
         (fun error =>
            match error with
            | MaxSessionsError sessions _ => ret (LoginMaxSessions sessions)
            | _ => throw error
            end))
    (fun _ => ret (LoginError 500 "Internal server error")).

(** * Properties *)

Local Open Scope list_scope.

(** ** Sample data for the closed instances *)

Definition sample_config : AuthConfig := default_config "0123456789abcdef0123456789abcdef".
Definition sample_device : DeviceInfo.t :=
  DeviceInfo.mk "desktop" "office" "Firefox" "Linux" (Some "10.0.0.7").
Definition sample_users : list User.t := [User.mk 7 "ann" "hash-of-pw" true].
(** A stand-in for bcrypt: the hash of [p] is ["hash-of-" ++ p]. *)
Definition sample_compare (password hash : string) : bool :=
  String.eqb ("hash-of-" ++ password)%string hash.
Definition sample_sanitize (s : string) : string := s.

Definition empty_world : World :=
  mkWorld (mkDb sample_users [] [] None) None 100 [] [].

Definition exec {A} (m : M A) (w : World) : World := snd (m w).

Definition sample_login (now : Timestamp) : M TokenResponse :=
  AuthService_login sample_config sample_compare sample_sanitize now
                    "ann" "pw" sample_device.

(** One, two and three logins of user 7, at 5 s, 6 s and 7 s. *)
Definition world_1 : World :=
  Eval vm_compute in exec (sample_login 5000) empty_world.
Definition world_2 : World :=
  Eval vm_compute in exec (sample_login 6000) world_1.
Definition world_3 : World :=
  Eval vm_compute in exec (sample_login 7000) world_2.

Definition sessions_of (w : World) : list Session.t := user_sessions_wa (db w).
Definition refresh_of (w : World) : list RefreshToken.t := refresh_tokens_wa (db w).

(** The sessions that count against the limit: [NOT is_marked_for_deletion]. *)
Definition active_sessions (userId : Z) (w : World) : list Session.t :=
  filter (fun s => (Session.user_id s =? userId)
                   && negb (Session.is_marked_for_deletion s))
         (sessions_of w).

(** ** Reasoning about runs *)

Lemma bind_Return_inv {A B} (m : M A) (k : A -> M B) w b w' :
  bind m k w = (Return b, w') ->
  exists a w1, m w = (Return a, w1) /\ k a w1 = (Return b, w').
Proof.
  unfold bind. destruct (m w) as [[a|e] w1]; intros H.
  - exists a, w1. auto.
  - discriminate.
Qed.

Lemma bind_run {A B} (m : M A) (k : A -> M B) w a w1 :
  m w = (Return a, w1) -> bind m k w = k a w1.
Proof. unfold bind. intros ->. reflexivity. Qed.

Lemma try_catch_inv {A} (m : M A) (h : Error -> M A) w o w' :
  try_catch m h w = (o, w') ->
  (exists a, m w = (Return a, w') /\ o = Return a)
  \/ (exists e w1, m w = (Throw e, w1) /\ h e w1 = (o, w')).
Proof.
  unfold try_catch. destruct (m w) as [[a|e] w1]; intros H.
  - left. exists a. inversion H; subst; auto.
  - right. exists e, w1. auto.
Qed.

(** A statement that returns changed the tables as its SQL says and
    nothing else but the fault plan. *)
Lemma statement_Return_inv {A} (sql : Db -> Outcome A * Db) w a w' :
  statement sql w = (Return a, w') ->
  sql (db w) = (Return a, db w')
  /\ txn w' = txn w /\ next_uuid w' = next_uuid w /\ log w' = log w
  /\ faults w' = tl (faults w).
Proof.
  unfold statement. destruct w as [d t n f l]; simpl.
  destruct f as [|[|] rest]; simpl.
  - destruct (sql d) as [r d'] eqn:E. intros H; inversion H; subst; simpl. auto.
  - discriminate.
  - destruct (sql d) as [r d'] eqn:E. intros H; inversion H; subst; simpl. auto.
Qed.

(** ** Lists of rows *)

Lemma filter_nil_iff {A} (p : A -> bool) (l : list A) :
  filter p l = [] <-> (forall x, In x l -> p x = false).
Proof.
  induction l as [|a l IH]; simpl.
  - split; [intros _ x []| reflexivity].
  - destruct (p a) eqn:E.
    + split; [discriminate|]. intros H. rewrite (H a) in E by auto. discriminate.
    + rewrite IH. split.
      * intros H x [->|Hx]; auto.
      * intros H x Hx. apply H. auto.
Qed.

Lemma filter_all {A} (p : A -> bool) (l : list A) :
  (forall x, In x l -> p x = true) -> filter p l = l.
Proof.
  induction l as [|a l IH]; simpl; intros H; [reflexivity|].
  rewrite (H a) by auto. f_equal. apply IH. intros x Hx. apply H. auto.
Qed.

Lemma map_unchanged {A} (f : A -> A) (l : list A) :
  (forall x, In x l -> f x = x) -> map f l = l.
Proof.
  induction l as [|a l IH]; simpl; intros H; [reflexivity|].
  rewrite (H a) by auto. f_equal. apply IH. intros x Hx. apply H. auto.
Qed.

Lemma token_in_false_iff rows s :
  token_in rows s = false <->
  (forall r, In r rows -> eqN (RefreshToken.token_id r) (Session.token_id s) = false).
Proof.
  unfold token_in. induction rows as [|r rows IH]; simpl.
  - split; [intros _ x []|reflexivity].
  - rewrite orb_false_iff, IH. split.
    + intros [H1 H2] x [->|Hx]; auto.
    + intros H. split; [apply H; auto|]. intros x Hx. apply H; auto.
Qed.

(** ** C5: cleanup *)

Section Cleanup.

Variable now : Timestamp.

Definition expired_unrevoked (r : RefreshToken.t) : bool :=
  (RefreshToken.expires_at r <? now) && negb (RefreshToken.is_revoked r).

Definition revoke_expired (rows : list RefreshToken.t) : list RefreshToken.t :=
  map (fun r => if expired_unrevoked r then RefreshToken.revoke r else r) rows.

Definition unmarked (rows : list Session.t) : list Session.t :=
  filter (fun s => negb (Session.is_marked_for_deletion s)) rows.

(** What one pass over a healthy store returns and leaves behind. *)
Lemma cleanup_healthy w :
  faults w = [] ->
  cleanup now w =
    (let R1 := revoke_expired (refresh_of w) in
     let S1 := unmarked (sessions_of w) in
     (Return (mkCleanupMetrics
                (count (filter expired_unrevoked (refresh_of w)))
                (count (filter (token_in (filter (dead now) R1)) S1))
                0
                (count (filter Session.is_marked_for_deletion (sessions_of w)))),
      mkWorld (mkDb (user_of_wa (db w))
                    (filter (fun s => negb (token_in (filter (dead now) R1) s)) S1)
                    R1 (refresh_tokens (db w)))
              None (next_uuid w) [] (log w))).
Proof.
  destruct w as [[U S R L] t n f l]; simpl; intros ->.
  unfold cleanup, try_catch, bind, BEGIN, transaction_command, COMMIT, transaction_command, delete_sessions,
    update_refresh_wa, statement, ret.
  destruct t; reflexivity.
Qed.

Lemma revoke_expired_In rows r1 :
  In r1 (revoke_expired rows) ->
  exists r, In r rows
    /\ RefreshToken.expires_at r1 = RefreshToken.expires_at r
    /\ RefreshToken.token_id r1 = RefreshToken.token_id r
    /\ ((RefreshToken.expires_at r <? now) = true -> RefreshToken.is_revoked r1 = true).
Proof.
  unfold revoke_expired. rewrite in_map_iff. intros [r [Hr Hin]].
  exists r. split; [assumption|]. unfold expired_unrevoked in Hr.
  destruct (RefreshToken.expires_at r <? now) eqn:E; simpl in Hr.
  - destruct (RefreshToken.is_revoked r) eqn:V; simpl in Hr; subst r1; simpl; auto.
  - subst r1. repeat split; auto. discriminate.
Qed.

End Cleanup.

Lemma revoke_expired_stable now now' rows :
  (forall r, In r rows ->
     RefreshToken.expires_at r < now' -> RefreshToken.expires_at r < now) ->
  filter (expired_unrevoked now') (revoke_expired now rows) = []
  /\ revoke_expired now' (revoke_expired now rows) = revoke_expired now rows.
Proof.
  intros Hold.
  assert (Hnone : forall r1, In r1 (revoke_expired now rows) ->
                             expired_unrevoked now' r1 = false).
  { intros r1 Hin. destruct (revoke_expired_In _ _ _ Hin) as (r & Hr & He & _ & Hrev).
    unfold expired_unrevoked. destruct (RefreshToken.expires_at r1 <? now') eqn:E; [|reflexivity].
    apply Z.ltb_lt in E. rewrite He in E. apply Hold in E; [|assumption].
    rewrite Hrev by (apply Z.ltb_lt; assumption). reflexivity. }
  split.
  - apply filter_nil_iff. assumption.
  - unfold revoke_expired at 1. apply map_unchanged.
    intros r1 Hin. rewrite (Hnone r1 Hin). reflexivity.
Qed.

Lemma dead_later_is_dead_now now now' rows r1 :
  (forall r, In r rows ->
     RefreshToken.expires_at r < now' -> RefreshToken.expires_at r < now) ->
  In r1 (revoke_expired now rows) ->
  dead now' r1 = true -> dead now r1 = true.
Proof.
  intros Hold Hin. destruct (revoke_expired_In _ _ _ Hin) as (r & Hr & He & _ & _).
  unfold dead. rewrite !orb_true_iff. intros [H|H]; [left; assumption|].
  right. apply Z.ltb_lt. apply Z.ltb_lt in H. rewrite He in *. auto.
Qed.

(** C5. Idempotence of [SessionManager.cleanup]: on a healthy store, a
    second pass that follows a first one with no write in between and
    no refresh token crossing its expiry in between returns
    [expiredTokens = 0], [expiredSessions = 0], [markedSessions = 0]
    and leaves every table as the first pass left it. *)
Theorem cleanup_idempotent (now now' : Timestamp) (w : World) :
  faults w = [] ->
  (forall r, In r (refresh_of w) ->
     RefreshToken.expires_at r < now' -> RefreshToken.expires_at r < now) ->
  exists m1 w1 w2,
    cleanup now w = (Return m1, w1)
    /\ cleanup now' w1 = (Return (mkCleanupMetrics 0 0 0 0), w2)
    /\ db w2 = db w1.
Proof.
  intros Hf Hold.
  rewrite (cleanup_healthy now w Hf). cbv zeta.
  set (R1 := revoke_expired now (refresh_of w)).
  set (S1 := unmarked (sessions_of w)).
  set (S2 := filter (fun s => negb (token_in (filter (dead now) R1) s)) S1).
  eexists _, _, _. split; [reflexivity|].
  rewrite cleanup_healthy by reflexivity. cbv zeta.
  unfold refresh_of, sessions_of. simpl.
  destruct (revoke_expired_stable now now' (refresh_of w) Hold) as [Hnone Hsame].
  fold R1 in Hnone, Hsame. rewrite Hnone, Hsame.
  assert (HS2 : forall s, In s S2 ->
            Session.is_marked_for_deletion s = false
            /\ token_in (filter (dead now') R1) s = false).
  { intros s Hs. unfold S2 in Hs. apply filter_In in Hs. destruct Hs as [Hs Hlive].
    unfold S1, unmarked in Hs. apply filter_In in Hs. destruct Hs as [_ Hm].
    apply negb_true_iff in Hm, Hlive. split; [assumption|].
    rewrite token_in_false_iff in *. intros r Hr. apply filter_In in Hr.
    destruct Hr as [Hr Hd]. apply Hlive. apply filter_In. split; [assumption|].
    eapply dead_later_is_dead_now; eauto. }
  assert (Hmarked : filter Session.is_marked_for_deletion S2 = []).
  { apply filter_nil_iff. intros s Hs. apply HS2. assumption. }
  assert (Hunm : unmarked S2 = S2).
  { apply filter_all. intros s Hs. apply negb_true_iff. apply HS2. assumption. }
  assert (Hnodead : filter (token_in (filter (dead now') R1)) S2 = []).
  { apply filter_nil_iff. intros s Hs. apply HS2. assumption. }
  assert (Hkeep : filter (fun s => negb (token_in (filter (dead now') R1) s)) S2 = S2).
  { apply filter_all. intros s Hs. apply negb_true_iff. apply HS2. assumption. }
  rewrite Hmarked, Hunm, Hnodead, Hkeep. split; reflexivity.
Qed.

(** Three sessions, the second one marked for deletion; the first
    refresh token (expiring at 604805000) is past its expiry at both
    passes, the other two are not. *)
Definition cleanup_world : World :=
  Eval vm_compute in exec (markSessionForDeletion 8000 104%N 7) world_3.

Lemma cleanup_idempotent_witness :
  exists m1 w1 w2,
    cleanup 604805500 cleanup_world = (Return m1, w1)
    /\ cleanup 604805600 w1 = (Return (mkCleanupMetrics 0 0 0 0), w2)
    /\ db w2 = db w1.
Proof.
  apply (cleanup_idempotent 604805500 604805600 cleanup_world).
  - reflexivity.
  - intros r Hin. vm_compute in Hin.
    destruct Hin as [<-|[<-|[<-|[]]]]; cbn [RefreshToken.expires_at]; lia.
Defined.

(** The first pass of that run does remove rows: one marked session,
    one expired token, one session of an expired token. *)
Example cleanup_first_pass :
  fst (cleanup 604805500 cleanup_world) = Return (mkCleanupMetrics 1 1 0 1).
Proof. vm_compute. reflexivity. Qed.

(** ** C4: an expired access token *)

(** [jwt.verify] rejects a well-signed token past its [exp] before any
    row is read, and [verifyToken] tests [JsonWebTokenError] first:
    the expiry is reported as "Invalid token". *)
Lemma verifyToken_expired cfg now p iat exp w :
  exp <= now / 1000 ->
  verifyToken cfg now (Jws (JWT_SECRET cfg) p iat exp) w
  = (Throw (AuthError "Invalid token" 401), w).
Proof.
  intros Hexp. unfold verifyToken, try_catch, bind, lift, jwt_verify.
  rewrite String.eqb_refl. simpl.
  apply Z.leb_le in Hexp. rewrite Hexp. reflexivity.
Qed.

(** The middleware then answers 401 "Invalid token"; it never reaches
    [handleExpiredToken], so no table changes. *)
Lemma authenticateToken_expired cfg now p iat exp w :
  exp <= now / 1000 ->
  exists w',
    authenticateToken cfg now (Some (Jws (JWT_SECRET cfg) p iat exp)) w
    = (Return (Responded (mkResponse 401 None (Some "Invalid token") None None)), w')
    /\ db w' = db w.
Proof.
  intros Hexp. unfold authenticateToken, try_catch at 1 2, bind at 1.
  rewrite verifyToken_expired by assumption. simpl.
  eexists. split; reflexivity.
Qed.

(** No error leaves [verifyToken] as a [TokenExpiredError], whatever the
    token and the store: the middleware's expired-token branch, the only
    caller of [handleExpiredToken], is never taken. *)
Lemma verifyToken_never_throws_TokenExpiredError cfg now t w e w' :
  verifyToken cfg now t w = (Throw e, w') ->
  instanceof_TokenExpiredError e = false.
Proof.
  unfold verifyToken. intros H. apply try_catch_inv in H.
  destruct H as [(a & _ & Habs)|(e0 & w1 & _ & H)]; [discriminate|].
  destruct e0; simpl in H; unfold throw in H; inversion H; reflexivity.
Qed.

(** The token pair of the first sample login (issued at 5 s). *)
Definition tokens_1 : TokenResponse :=
  Eval vm_compute in
  match fst (sample_login 5000 empty_world) with
  | Return t => t
  | Throw _ => mkTokenResponse (NotJws 0) (NotJws 0) 0%N
  end.

Definition is_marked (tokenId : Uuid) (w : World) : bool :=
  existsb (fun s => eqN (Session.token_id s) tokenId
                    && Session.is_marked_for_deletion s) (sessions_of w).

(** C4. The access token of session 100, presented one hour after it was
    issued (its embedded expiry has passed): [verifyToken] fails with
    "Invalid token" and not "Token expired"; the middleware answers 401
    "Invalid token"; the session row is still there, unchanged and not
    marked for deletion. *)
Theorem expired_token_reported_invalid :
  let late := 5000 + TOKEN_EXPIRATION sample_config in
  token tokens_1 = Jws (JWT_SECRET sample_config) (mkPayload 7 100%N) 5 3605
  /\ fst (verifyToken sample_config late (token tokens_1) world_1)
     = Throw (AuthError "Invalid token" 401)
  /\ fst (authenticateToken sample_config late (Some (token tokens_1)) world_1)
     = Return (Responded (mkResponse 401 None (Some "Invalid token") None None))
  /\ sessions_of (exec (authenticateToken sample_config late (Some (token tokens_1))) world_1)
     = sessions_of world_1
  /\ is_marked 100%N
       (exec (authenticateToken sample_config late (Some (token tokens_1))) world_1)
     = false.
Proof. vm_compute. repeat split; reflexivity. Qed.

(** Had the middleware reached [handleExpiredToken], the session would
    not be left marked either: the handler revokes the refresh rows of
    the token id, then finds none usable and deletes the session row. *)
Example handleExpiredToken_deletes :
  map Session.token_id (sessions_of world_3) = [100; 103; 106]%N
  /\ map Session.token_id
       (sessions_of (exec (handleExpiredToken 3605000 100) world_3))
     = [103; 106]%N
  /\ map (fun r => (RefreshToken.token_id r, RefreshToken.is_revoked r))
         (refresh_of (exec (handleExpiredToken 3605000 100) world_3))
     = [(100, true); (103, false); (106, false)]%N.
Proof. vm_compute. repeat split; reflexivity. Qed.

(** ** C1: the limit check inside [createSession] *)

(** The rows [enforceSessionLimit] leaves: at or above the limit, the
    user's least recently active row is gone. *)
Definition after_limit (cfg : AuthConfig) (userId : Z) (rows : list Session.t)
  : list Session.t :=
  let mine := filter (fun s => Session.user_id s =? userId) rows in
  if MAX_SESSIONS_PER_USER cfg <=? count mine
  then filter (fun s => negb match least_recently_active mine with
                             | Some oldest => eqN (Session.id s) (Session.id oldest)
                             | None => false
                             end) rows
  else rows.

Lemma enforceSessionLimit_healthy cfg userId w :
  faults w = [] ->
  enforceSessionLimit cfg userId w
  = (Return tt, with_db (with_sessions (after_limit cfg userId (sessions_of w)) (db w)) w).
Proof.
  destruct w as [[U S R L] t n f l]; simpl; intros ->.
  unfold enforceSessionLimit, after_limit, bind, select_sessions, delete_sessions,
    statement, when, sessions_of. simpl.
  destruct (MAX_SESSIONS_PER_USER cfg <=? _); reflexivity.
Qed.

Lemma least_recently_active_In rows o :
  least_recently_active rows = Some o -> In o rows.
Proof.
  revert o. induction rows as [|s rows IH]; simpl; intros o H; [discriminate|].
  destruct (least_recently_active rows) as [m|].
  - destruct (Session.last_active s <=? Session.last_active m);
      inversion H; subst; auto.
  - inversion H; auto.
Qed.

(** At or above the limit the check deletes: the user's least recently
    active session is no longer stored afterwards. *)
Lemma enforceSessionLimit_evicts cfg userId w oldest :
  faults w = [] ->
  MAX_SESSIONS_PER_USER cfg
    <= count (filter (fun s => Session.user_id s =? userId) (sessions_of w)) ->
  least_recently_active
    (filter (fun s => Session.user_id s =? userId) (sessions_of w)) = Some oldest ->
  In oldest (sessions_of w)
  /\ ~ In oldest (sessions_of (exec (enforceSessionLimit cfg userId) w)).
Proof.
  intros Hf Hmax Hold. split.
  - apply least_recently_active_In in Hold. apply filter_In in Hold. tauto.
  - unfold exec. rewrite enforceSessionLimit_healthy by assumption.
    unfold sessions_of at 1. simpl. unfold after_limit.
    apply Z.leb_le in Hmax. rewrite Hmax, Hold.
    rewrite filter_In. intros [_ H]. unfold eqN in H.
    rewrite N.eqb_refl in H. discriminate.
Qed.

(** C1. User 7 holds three sessions (the limit); creating a session runs
    the limit check, which reports nothing and deletes the session that
    was active least recently (row 101, token 100); the new session is
    then stored in its place. *)
Theorem session_limit_check_evicts :
  map Session.id (sessions_of world_3) = [101; 104; 107]%N
  /\ fst (enforceSessionLimit sample_config 7 world_3) = Return tt
  /\ map Session.id (sessions_of (exec (enforceSessionLimit sample_config 7) world_3))
     = [104; 107]%N
  /\ fst (createSession sample_config 8000 7 sample_device None world_3)
     = Return 109%N
  /\ map Session.id
       (sessions_of (exec (createSession sample_config 8000 7 sample_device None) world_3))
     = [104; 107; 110]%N.
Proof. vm_compute. repeat split; reflexivity. Qed.

(** ** C3: a login at the limit *)

(** The user [findByUsername] returns: the first stored row whose name
    is the sanitized one. *)
Definition stored_user (sanitizeInput : string -> string) (username : string)
  (w : World) : option User.t :=
  match filter (fun u => String.eqb (User.username u) (sanitizeInput username))
               (user_of_wa (db w)) with
  | [] => None
  | u :: _ => Some u
  end.

Lemma findByUsername_healthy sanitizeInput username w :
  faults w = [] ->
  findByUsername sanitizeInput username w
  = (Return (stored_user sanitizeInput username w), w).
Proof.
  destruct w as [[U S R L] t n f l]; simpl; intros ->.
  unfold findByUsername, stored_user, try_catch, bind, statement, ret. simpl.
  destruct (filter _ U); reflexivity.
Qed.

Lemma getActiveSessions_healthy userId w :
  faults w = [] ->
  getActiveSessions userId w = (Return (count (active_sessions userId w)), w).
Proof.
  destruct w as [[U S R L] t n f l]; simpl; intros ->. reflexivity.
Qed.

Definition add_log (entries : list (LogLevel * string)) (w : World) : World :=
  mkWorld (db w) (txn w) (next_uuid w) (faults w) (log w ++ entries).

(** A user with valid credentials whose non-marked sessions are at or
    above [MAX_SESSIONS_PER_USER] logs in on a healthy store:
    [AuthService.login] throws [MaxSessionsError] with an empty session
    list, [authenticateUser] catches its own [MaxSessionsError] and
    returns the failure "Maximum number of sessions reached", and
    neither adds, removes or changes a row of any table (only log lines
    are written). *)
Lemma login_at_limit cfg bcrypt_compare sanitizeInput now username password
  deviceInfo w user :
  faults w = [] ->
  stored_user sanitizeInput username w = Some user ->
  User.is_active user = true ->
  bcrypt_compare password (User.password_hash user) = true ->
  MAX_SESSIONS_PER_USER cfg <= count (active_sessions (User.id user) w) ->
  AuthService_login cfg bcrypt_compare sanitizeInput now username password deviceInfo w
  = (Throw (MaxSessionsError [] (User.id user)),
     add_log [(L_warn, "Max sessions reached"); (L_error, "Login failed")] w)
  /\ authenticateUser cfg bcrypt_compare sanitizeInput now username password deviceInfo w
     = (Return (mkAuthResult false None None None None
                  (Some "Maximum number of sessions reached")),
        add_log [(L_warn, "Max sessions reached");
                 (L_error, "Authentication failed")] w).
Proof.
  intros Hf Hu Hact Hpw Hmax. apply Z.leb_le in Hmax.
  unfold AuthService_login, authenticateUser, try_catch, bind.
  rewrite findByUsername_healthy by assumption. rewrite Hu.
  unfold when, verifyPassword, ret, throw. rewrite Hact, Hpw. simpl.
  rewrite getActiveSessions_healthy by assumption. rewrite Hmax.
  unfold Logger, add_log. simpl. rewrite <- !app_assoc. simpl.
  split; reflexivity.
Qed.

Lemma login_at_limit_witness :
  sample_login 8000 world_3
  = (Throw (MaxSessionsError [] 7),
     add_log [(L_warn, "Max sessions reached"); (L_error, "Login failed")] world_3)
  /\ authenticateUser sample_config sample_compare sample_sanitize 8000
       "ann" "pw" sample_device world_3
     = (Return (mkAuthResult false None None None None
                  (Some "Maximum number of sessions reached")),
        add_log [(L_warn, "Max sessions reached");
                 (L_error, "Authentication failed")] world_3).
Proof.
  apply (login_at_limit sample_config sample_compare sample_sanitize 8000
           "ann" "pw" sample_device world_3 (User.mk 7 "ann" "hash-of-pw" true)).
  - reflexivity.
  - reflexivity.
  - reflexivity.
  - reflexivity.
  - vm_compute. discriminate.
Defined.

(** [authenticateUser] never throws: its [catch] turns every error,
    its own [MaxSessionsError] included, into a failed result. *)
Lemma authenticateUser_returns cfg bcrypt_compare sanitizeInput now username
  password deviceInfo w :
  exists result w',
    authenticateUser cfg bcrypt_compare sanitizeInput now username password
                     deviceInfo w = (Return result, w').
Proof.
  unfold authenticateUser, try_catch.
  match goal with
  | |- context [match ?m w with _ => _ end] => destruct (m w) as [[r|e] w1]
  end.
  - eauto.
  - unfold bind, Logger, ret. eauto.
Qed.

(** So the branch of the route that answers [MAX_SESSIONS_REACHED] with
    the sessions of the error is never taken, whatever the request and
    the store. *)
Lemma login_route_never_lists_sessions cfg bcrypt_compare sanitizeInput now
  username password deviceInfo w sessions w' :
  login_route cfg bcrypt_compare sanitizeInput now username password deviceInfo w
  <> (Return (LoginMaxSessions sessions), w').
Proof.
  unfold login_route, try_catch at 1.
  destruct (String.eqb username "" || String.eqb password ""); [discriminate|].
  unfold try_catch at 1, bind at 1.
  destruct (authenticateUser_returns cfg bcrypt_compare sanitizeInput now
              username password deviceInfo w) as (result & w1 & Hrun).
  rewrite Hrun. destruct (ar_success result); discriminate.
Qed.

(** C3. User 7 holds three non-marked sessions, the limit, and logs in
    again with valid credentials on a store that serves every
    statement.  [AuthService.login] throws [MaxSessionsError] with an
    empty session list, not the three current sessions;
    [authenticateUser] catches the error it has thrown and returns a
    failed result that carries the message only; the login route
    therefore answers 401 with that result, not [MAX_SESSIONS_REACHED]
    with a session list.  No table changes. *)
Theorem login_at_limit_lists_no_sessions :
  let failed := mkAuthResult false None None None None
                  (Some "Maximum number of sessions reached") in
  map Session.id (active_sessions 7 world_3) = [101; 104; 107]%N
  /\ fst (sample_login 8000 world_3) = Throw (MaxSessionsError [] 7)
  /\ fst (authenticateUser sample_config sample_compare sample_sanitize 8000
            "ann" "pw" sample_device world_3) = Return failed
  /\ fst (login_route sample_config sample_compare sample_sanitize 8000
            "ann" "pw" sample_device world_3) = Return (LoginResult 401 failed)
  /\ db (exec (login_route sample_config sample_compare sample_sanitize 8000
                 "ann" "pw" sample_device) world_3) = db world_3.
Proof. vm_compute. repeat split; reflexivity. Qed.

(** ** Issuing a token pair on a healthy store *)

Definition new_session (now : Timestamp) (userId : Z) (deviceInfo : DeviceInfo.t)
  (n : N) : Session.t :=
  Session.mk (N.succ n) userId n
    (DeviceInfo.type deviceInfo) (DeviceInfo.name deviceInfo)
    (DeviceInfo.browser deviceInfo) (DeviceInfo.os deviceInfo)
    now now false None 0 (DeviceInfo.ip deviceInfo).

Definition new_refresh (cfg : AuthConfig) (now : Timestamp) (userId : Z) (n : N)
  : RefreshToken.t :=
  RefreshToken.mk (N.succ (N.succ n)) n userId
    (now + REFRESH_TOKEN_EXPIRATION cfg) false now.

Definition issued (cfg : AuthConfig) (now : Timestamp) (userId : Z) (n : N)
  : TokenResponse :=
  mkTokenResponse
    (jwt_sign (mkPayload userId n) (JWT_SECRET cfg) (TOKEN_EXPIRATION cfg) now)
    (jwt_sign (mkPayload userId n) (JWT_SECRET cfg) (REFRESH_TOKEN_EXPIRATION cfg) now)
    n.

Lemma generateTokens_healthy cfg now userId deviceInfo w :
  faults w = [] ->
  generateTokens cfg now userId deviceInfo w
  = (Return (issued cfg now userId (next_uuid w)),
     mkWorld
       (mkDb (user_of_wa (db w))
             (after_limit cfg userId (sessions_of w)
                ++ [new_session now userId deviceInfo (next_uuid w)])
             (refresh_of w ++ [new_refresh cfg now userId (next_uuid w)])
             (refresh_tokens (db w)))
       (txn w) (N.succ (N.succ (N.succ (next_uuid w)))) [] (log w)).
Proof.
  intros Hf. unfold generateTokens, createSession, bind at 1 2.
  rewrite enforceSessionLimit_healthy by assumption.
  destruct w as [[U S R L] t n f l]; simpl in *; subst f.
  reflexivity.
Qed.

(** ** C6: issue, then verify *)

Lemma jwt_sign_verifies cfg p lifetime now now' :
  now' / 1000 < now / 1000 + lifetime / 1000 ->
  jwt_verify (jwt_sign p (JWT_SECRET cfg) lifetime now) (JWT_SECRET cfg) now'
  = Return p.
Proof.
  intros H. unfold jwt_verify, jwt_sign. rewrite String.eqb_refl. simpl.
  destruct (now / 1000 + lifetime / 1000 <=? now' / 1000) eqn:E; [|reflexivity].
  apply Z.leb_le in E. lia.
Qed.

Lemma filter_last_nonempty {A} (p : A -> bool) (l : list A) (x : A) :
  p x = true -> exists y rest, filter p (l ++ [x]) = y :: rest.
Proof.
  intros Hx. rewrite filter_app. simpl. rewrite Hx.
  destruct (filter p l) as [|y rest]; simpl; eauto.
Qed.

(** C6. Round trip: on a healthy store, [generateTokens] for any user
    and device returns a pair, and [verifyToken] on the returned access
    token, with nothing in between and before the token's lifetime is
    over, returns the user id and the token id the session was created
    with. *)
Theorem issue_then_verify cfg (now now' : Timestamp) (userId : Z)
  (deviceInfo : DeviceInfo.t) (w : World) :
  faults w = [] ->
  now' / 1000 < now / 1000 + TOKEN_EXPIRATION cfg / 1000 ->
  exists tokens w1,
    generateTokens cfg now userId deviceInfo w = (Return tokens, w1)
    /\ fst (verifyToken cfg now' (token tokens) w1)
       = Return (mkPayload userId (sessionId tokens))
    /\ In (sessionId tokens) (map Session.token_id (sessions_of w1)).
Proof.
  intros Hf Hlife. rewrite generateTokens_healthy by assumption.
  eexists _, _. split; [reflexivity|]. split.
  - unfold verifyToken, try_catch, bind at 1, lift. simpl token.
    rewrite jwt_sign_verifies by assumption.
    unfold bind at 1, select_sessions, statement. simpl.
    destruct (filter_last_nonempty
                (fun s => eqN (Session.token_id s) (next_uuid w)
                          && (Session.user_id s =? userId))
                (after_limit cfg userId (sessions_of w))
                (new_session now userId deviceInfo (next_uuid w)))
      as (y & rest & Hfound).
    { simpl. unfold eqN. rewrite N.eqb_refl, Z.eqb_refl. reflexivity. }
    rewrite Hfound. unfold bind, updateSessionActivity, try_catch, update_sessions,
      statement, ret. simpl. reflexivity.
  - unfold sessions_of. simpl. rewrite map_app, in_app_iff. right. simpl. auto.
Qed.

Lemma issue_then_verify_witness :
  exists tokens w1,
    generateTokens sample_config 8000 7 sample_device world_2 = (Return tokens, w1)
    /\ fst (verifyToken sample_config 8000 (token tokens) w1)
       = Return (mkPayload 7 (sessionId tokens))
    /\ In (sessionId tokens) (map Session.token_id (sessions_of w1)).
Proof.
  apply (issue_then_verify sample_config 8000 8000 7 sample_device world_2).
  - reflexivity.
  - vm_compute. reflexivity.
Defined.

(** ** C9: what a successful verify does to the session *)



Lemma filter_found {A} (p : A -> bool) (l : list A) (x : A) :
  In x l -> p x = true -> exists y rest, filter p l = y :: rest.
Proof.
  intros Hin Hp. destruct (filter p l) as [|y rest] eqn:E; eauto.
  rewrite filter_nil_iff in E. rewrite (E x Hin) in Hp. discriminate.
Qed.





(** ** C7: logout *)

Section Logout.

Variable cfg : AuthConfig.
Variable now : Timestamp.
Variable u : TokenPayload.

Definition own_session (s : Session.t) : bool :=
  (Session.user_id s =? userId u) && eqN (Session.token_id s) (tokenId u).

Definition own_refresh (r : RefreshToken.t) : bool :=
  (RefreshToken.user_id r =? userId u) && eqN (RefreshToken.token_id r) (tokenId u).

Definition sessions_after_logout (w : World) : list Session.t :=
  filter (fun s => negb (own_session s)) (sessions_of w).

Definition refresh_after_logout (w : World) : list RefreshToken.t :=
  map (fun r => if own_refresh r then RefreshToken.revoke r else r) (refresh_of w).

(** The check inside the transaction: the first refresh row carrying the
    token id must be revoked. *)
Definition revocation_seen (w : World) : bool :=
  negb (first_not_revoked
          (filter (fun r => eqN (RefreshToken.token_id r) (tokenId u))
                  (refresh_after_logout w))).

(** The controller's double check: is a session with the token id left? *)
Definition session_left (w : World) : bool :=
  0 <? count (filter (fun s => eqN (Session.token_id s) (tokenId u))
                     (sessions_after_logout w)).

(** C7, as the code has it. On a healthy store, outside a transaction,
    [handleLogout] for a verified user does one of two things.  When the
    first refresh-token row of the token id is revoked after the update,
    the transaction commits: the user's session rows with that token id
    are removed from the table (not marked), the user's refresh-token
    rows with that token id are revoked, the answer is 200 success, and
    if the double check still finds a session with the token id an error
    is logged without changing the answer.  Otherwise the transaction is
    rolled back, every table is as before and the answer is 500. *)
Theorem logout_hard_deletes (w : World) :
  faults w = [] ->
  txn w = None ->
  userId u <> 0 ->
  exists w',
    handleLogout cfg now (Some u) w
    = (Return (if revocation_seen w
               then mkResponse 200 (Some true) None
                      (Some "Logged out successfully") None
               else mkResponse 500 None (Some "INTERNAL_ERROR")
                      (Some "Failed to logout") None), w')
    /\ (revocation_seen w = true ->
        sessions_of w' = sessions_after_logout w
        /\ refresh_of w' = refresh_after_logout w
        /\ (forall s, In s (sessions_of w') -> own_session s = false)
        /\ (session_left w = true ->
            In (L_error, "Cleanup verification failed") (log w')))
    /\ (revocation_seen w = false -> db w' = db w).
Proof.
  intros Hf Ht Hu. apply Z.eqb_neq in Hu.
  destruct w as [[U S R L] tx n f l]. simpl in Hf, Ht. subst f tx.
  unfold handleLogout, try_catch at 1. rewrite Hu.
  unfold revocation_seen, session_left, sessions_after_logout, refresh_after_logout,
    sessions_of, refresh_of, own_session, own_refresh. simpl.
  unfold bind at 1, isSessionValid, try_catch at 1, bind at 1, select_sessions,
    statement at 1. simpl.
  unfold bind at 1. unfold Logger at 1. simpl.
  unfold bind at 1, TokenService_logout, try_catch at 1.
  unfold bind at 1. unfold Logger at 1. simpl.
  unfold bind at 1, BEGIN, transaction_command. simpl.
  unfold bind at 1, delete_sessions, statement at 1. simpl.
  unfold bind at 1, update_refresh_wa, statement at 1. simpl.
  unfold bind at 1, select_refresh_wa, statement at 1. simpl.
  destruct (first_not_revoked _) eqn:Hseen; simpl.
  - eexists. split; [reflexivity|]. split; [discriminate|]. reflexivity.
  - unfold bind at 1 2 3, isRefreshTokenValid, try_catch, select_sessions,
      statement, lift, when, ret. simpl.
    destruct (0 <? count _) eqn:Hleft; simpl.
    + eexists. split; [reflexivity|]. simpl. split; [|discriminate].
      intros _. repeat split.
      * intros s Hs. apply filter_In in Hs. destruct Hs as [_ Hs].
        apply negb_true_iff in Hs. exact Hs.
      * intros _. rewrite <- !app_assoc. simpl.
        apply in_or_app. right. simpl. auto 10.
    + eexists. split; [reflexivity|]. simpl. split; [|discriminate].
      intros _. repeat split.
      * intros s Hs. apply filter_In in Hs. destruct Hs as [_ Hs].
        apply negb_true_iff in Hs. exact Hs.
      * discriminate.
Qed.

End Logout.

Lemma logout_hard_deletes_witness :
  exists w',
    handleLogout sample_config 9000 (Some (mkPayload 7 100%N)) world_3
    = (Return (if revocation_seen (mkPayload 7 100%N) world_3
               then mkResponse 200 (Some true) None
                      (Some "Logged out successfully") None
               else mkResponse 500 None (Some "INTERNAL_ERROR")
                      (Some "Failed to logout") None), w')
    /\ (revocation_seen (mkPayload 7 100%N) world_3 = true ->
        sessions_of w' = sessions_after_logout (mkPayload 7 100%N) world_3
        /\ refresh_of w' = refresh_after_logout (mkPayload 7 100%N) world_3
        /\ (forall s, In s (sessions_of w') -> own_session (mkPayload 7 100%N) s = false)
        /\ (session_left (mkPayload 7 100%N) world_3 = true ->
            In (L_error, "Cleanup verification failed") (log w')))
    /\ (revocation_seen (mkPayload 7 100%N) world_3 = false -> db w' = db world_3).
Proof.
  apply (logout_hard_deletes sample_config 9000 (mkPayload 7 100%N) world_3).
  - reflexivity.
  - reflexivity.
  - simpl. lia.
Defined.

(** Logging user 7 out of session 100 answers 200 and revokes the
    refresh token, but no session row with token id 100 is left to
    carry a deletion mark: the row is gone from the table. *)
Lemma logout_leaves_no_marked_row :
  let after := exec (handleLogout sample_config 9000 (Some (mkPayload 7 100%N))) world_3 in
  fst (handleLogout sample_config 9000 (Some (mkPayload 7 100%N)) world_3)
  = Return (mkResponse 200 (Some true) None (Some "Logged out successfully") None)
  /\ map Session.token_id (sessions_of world_3) = [100; 103; 106]%N
  /\ map Session.token_id (sessions_of after) = [103; 106]%N
  /\ ~ (exists s, In s (sessions_of after)
                  /\ Session.token_id s = 100%N
                  /\ Session.is_marked_for_deletion s = true).
Proof.
  vm_compute. repeat split; try reflexivity.
  intros [s [[<-|[<-|[]]] [H _]]]; discriminate.
Qed.

(** Both answers of [handleLogout] occur.  A token id without a
    refresh-token row: the check inside the transaction fails, the
    deletion of the session is rolled back, the answer is 500. *)
Example logout_without_refresh_row :
  let w := with_db (with_refresh_wa [] (db world_1)) world_1 in
  fst (handleLogout sample_config 9000 (Some (mkPayload 7 100%N)) w)
  = Return (mkResponse 500 None (Some "INTERNAL_ERROR") (Some "Failed to logout") None)
  /\ db (exec (handleLogout sample_config 9000 (Some (mkPayload 7 100%N))) w) = db w.
Proof. vm_compute. split; reflexivity. Qed.

(** A second user's session stored under the same token id: the double
    check finds it, an error is logged, the answer is still 200. *)
Example logout_double_check_alert :
  let other := new_session 5500 8 sample_device 100 in
  let w := with_db (with_sessions (sessions_of world_1 ++ [other]) (db world_1)) world_1 in
  fst (handleLogout sample_config 9000 (Some (mkPayload 7 100%N)) w)
  = Return (mkResponse 200 (Some true) None (Some "Logged out successfully") None)
  /\ In (L_error, "Cleanup verification failed")
        (log (exec (handleLogout sample_config 9000 (Some (mkPayload 7 100%N))) w)).
Proof. vm_compute. split; [reflexivity|]. auto 20. Qed.

(** ** C8: pre-login termination *)

Definition termination_failed : HttpResponse :=
  mkResponse 500 (Some false) (Some SERVER_ERROR)
             (Some "Failed to terminate session") None.

(** The statement that sets the lock timeout comes before the lookup and
    is rejected on every call, outside the inner [try]: the handler goes
    straight to its outer [catch], which answers 500 and does not roll
    back.  No call reaches the lookup, the two deletes or the commit. *)
Lemma terminatePreLoginSession_run userId sessionId w :
  exists w',
    terminatePreLoginSession userId sessionId w = (Return termination_failed, w')
    /\ db w' = db w
    /\ (txn w' = txn w \/ txn w = None /\ txn w' = Some (db w)).
Proof.
  destruct w as [d [t|] n f l]; destruct f as [|[|] [|[|] f]];
    unfold terminatePreLoginSession, SET_LOCAL_lock_timeout, rejected_statement,
      BEGIN, transaction_command, Logger, ret, try_catch, bind; simpl;
    (eexists; split; [reflexivity|]; simpl; auto).
Qed.


(** ** C10: what a successful rotation does to the tables *)

Definition device_of (row : Session.t) : DeviceInfo.t :=
  DeviceInfo.mk (Session.device_type row) (Session.device_name row)
                (Session.browser row) (Session.os row) (Session.last_ip row).

Definition revoke_token (tokenId : Uuid) (r : RefreshToken.t) : RefreshToken.t :=
  if eqN (RefreshToken.token_id r) tokenId then RefreshToken.revoke r else r.

Lemma BEGIN_run w :
  faults w = [] ->
  BEGIN w
  = (Return tt,
     with_txn (Some match txn w with Some d => d | None => db w end) w).
Proof. destruct w as [d [tx|] n f l]; simpl; intros ->; reflexivity. Qed.

Lemma count_cons_pos {A} (x : A) (l : list A) : (0 <? count (x :: l)) = true.
Proof. unfold count. simpl List.length. apply Z.ltb_lt. lia. Qed.

Lemma isRefreshTokenValid_healthy cfg now t w p :
  faults w = [] ->
  jwt_verify t (JWT_SECRET cfg) now = Return p ->
  isRefreshTokenValid cfg now t w
  = (Return (0 <? count (filter (fun r => eqN (RefreshToken.token_id r) (tokenId p)
                                          && usable now r) (refresh_of w))), w).
Proof.
  destruct w as [[U S R L] tx n f l]; simpl; intros -> Hjwt.
  unfold isRefreshTokenValid, try_catch, bind, lift. rewrite Hjwt. reflexivity.
Qed.

(** C10, as the code has it. A rotation succeeds on a healthy store when
    the token passes [jwt.verify], a usable refresh row and a session
    row carry its token id.  If the user then holds fewer session rows
    than [MAX_SESSIONS_PER_USER], the rotation appends one new session
    row under a token id taken from the id supply, keeps every stored
    session row as it was (the one bound to the old token is neither
    deleted nor marked), revokes the refresh rows of the old token id
    and appends a usable one for the new token id: the user's count of
    non-marked sessions grows by one. *)
Theorem rotation_below_limit_adds_a_session cfg (now : Timestamp) (t : Token)
  (w : World) (p : TokenPayload) (row : Session.t) (rest : list Session.t) :
  faults w = [] ->
  jwt_verify t (JWT_SECRET cfg) now = Return p ->
  (exists r, In r (refresh_of w)
             /\ RefreshToken.token_id r = tokenId p /\ usable now r = true) ->
  filter (fun s => eqN (Session.token_id s) (tokenId p)) (sessions_of w)
  = row :: rest ->
  count (filter (fun s => Session.user_id s =? userId p) (sessions_of w))
  < MAX_SESSIONS_PER_USER cfg ->
  (forall s, In s (sessions_of w) -> Session.token_id s <> next_uuid w) ->
  exists w',
    rotateTokens cfg now t w
    = (Return (issued cfg now (userId p) (next_uuid w)), w')
    /\ sessions_of w'
       = sessions_of w ++ [new_session now (userId p) (device_of row) (next_uuid w)]
    /\ refresh_of w'
       = map (revoke_token (tokenId p)) (refresh_of w)
         ++ [new_refresh cfg now (userId p) (next_uuid w)]
    /\ count (active_sessions (userId p) w')
       = count (active_sessions (userId p) w) + 1.
Proof.
  intros Hf Hjwt (r & Hr & Htok & Huse) Hsel Hbelow Hfresh.
  assert (Hold : tokenId p <> next_uuid w).
  { assert (Hin : In row (filter (fun s => eqN (Session.token_id s) (tokenId p))
                                 (sessions_of w))) by (rewrite Hsel; left; reflexivity).
    apply filter_In in Hin. destruct Hin as [Hin Heq].
    apply N.eqb_eq in Heq. rewrite <- Heq. apply Hfresh. assumption. }
  destruct (filter_found
              (fun x => eqN (RefreshToken.token_id x) (tokenId p) && usable now x)
              (refresh_of w) r Hr) as (y & others & Hvalid).
  { rewrite Htok, Huse. unfold eqN. rewrite N.eqb_refl. reflexivity. }
  destruct w as [[U S R L] tx n f l].
  unfold sessions_of, refresh_of, active_sessions in *. simpl in *. subst f.
  apply Z.ltb_lt in Hbelow. rewrite Z.ltb_antisym in Hbelow.
  apply negb_true_iff in Hbelow.
  unfold rotateTokens, bind at 1. rewrite BEGIN_run by reflexivity. simpl.
  unfold try_catch, bind at 1, lift. rewrite Hjwt.
  unfold bind at 1.
  rewrite (isRefreshTokenValid_healthy cfg now t _ p) by (reflexivity || exact Hjwt).
  unfold refresh_of. simpl. rewrite Hvalid, count_cons_pos. simpl negb. unfold when at 1.
  unfold bind at 1, ret at 1.
  unfold bind at 1, select_sessions, statement at 1. simpl. rewrite Hsel.
  unfold bind at 1. rewrite generateTokens_healthy by reflexivity.
  unfold after_limit, sessions_of. simpl. rewrite Hbelow.
  unfold bind, update_refresh_wa, statement, COMMIT, transaction_command, ret. simpl.
  eexists. split; [reflexivity|]. simpl.
  split; [reflexivity|]. split.
  - rewrite map_app. simpl. unfold refresh_of. simpl.
    unfold eqN at 2. destruct (N.eqb_spec n (tokenId p)) as [E|E]; [congruence|].
    reflexivity.
  - rewrite filter_app. simpl. rewrite Z.eqb_refl. simpl.
    unfold count. rewrite length_app. simpl. lia.
Qed.

Lemma rotation_below_limit_adds_a_session_witness :
  exists w',
    rotateTokens sample_config 9000 (refreshToken tokens_1) world_1
    = (Return (issued sample_config 9000 7 (next_uuid world_1)), w')
    /\ sessions_of w'
       = sessions_of world_1
         ++ [new_session 9000 7 (device_of (new_session 5000 7 sample_device 100))
                         (next_uuid world_1)]
    /\ refresh_of w'
       = map (revoke_token 100) (refresh_of world_1)
         ++ [new_refresh sample_config 9000 7 (next_uuid world_1)]
    /\ count (active_sessions 7 w') = count (active_sessions 7 world_1) + 1.
Proof.
  apply (rotation_below_limit_adds_a_session sample_config 9000
           (refreshToken tokens_1) world_1 (mkPayload 7 100%N)
           (new_session 5000 7 sample_device 100) []).
  - reflexivity.
  - vm_compute. reflexivity.
  - eexists. split; [vm_compute; left; reflexivity|]. split; reflexivity.
  - vm_compute. reflexivity.
  - vm_compute. reflexivity.
  - intros s Hin. vm_compute in Hin. destruct Hin as [<-|[]]. discriminate.
Defined.

(** User 7 holds three sessions and rotates the refresh token of the
    first one: the rotation succeeds, the count of non-marked sessions
    is 3 before and 3 after (not 4), and the session row bound to the
    old token id 100 has been deleted. *)
Lemma rotation_at_limit_evicts :
  let after := exec (rotateTokens sample_config 9000 (refreshToken tokens_1)) world_3 in
  fst (rotateTokens sample_config 9000 (refreshToken tokens_1) world_3)
  = Return (issued sample_config 9000 7 109)
  /\ count (active_sessions 7 after) <> count (active_sessions 7 world_3) + 1
  /\ In 100%N (map Session.token_id (sessions_of world_3))
  /\ ~ In 100%N (map Session.token_id (sessions_of after)).
Proof.
  vm_compute. repeat split; try reflexivity; try discriminate.
  - auto.
  - intros [H|[H|[H|[]]]]; discriminate.
Qed.

(** ** C2: a refresh token rotates at most once *)

(** The refresh rows [isRefreshTokenValid] accepts for a token. *)
Definition usable_rows (now : Timestamp) (t : Token) (w : World)
  : list RefreshToken.t :=
  match jwt_decode t with
  | Some p => filter (fun r => eqN (RefreshToken.token_id r) (tokenId p)
                               && usable now r) (refresh_of w)
  | None => []
  end.

(** The message [rotateTokens] fails with when no row is usable. *)
Definition rejection (cfg : AuthConfig) (now : Timestamp) (t : Token) : string :=
  match jwt_verify t (JWT_SECRET cfg) now with
  | Return _ => "Invalid refresh token"
  | Throw _ => "Failed to rotate tokens"
  end.

Lemma jwt_verify_decode t secret now p :
  jwt_verify t secret now = Return p -> jwt_decode t = Some p.
Proof.
  destruct t as [key q iat exp|text]; simpl; [|discriminate].
  destruct (negb (String.eqb key secret)); [discriminate|].
  destruct (exp <=? now / 1000); [discriminate|].
  intros H; inversion H; reflexivity.
Qed.

Lemma jwt_verify_never_AuthError t secret now e :
  jwt_verify t secret now = Throw e -> instanceof_AuthError e = false.
Proof.
  destruct t as [key q iat exp|text]; simpl.
  - destruct (negb (String.eqb key secret)); [intros H; inversion H; reflexivity|].
    destruct (exp <=? now / 1000); intros H; inversion H; reflexivity.
  - intros H; inversion H; reflexivity.
Qed.

(** On a healthy store a token without a usable row is rejected with
    an [AuthError] 401 and the tables are left as they were. *)
Lemma rotateTokens_rejects_stale cfg now t w :
  faults w = [] ->
  usable_rows now t w = [] ->
  exists w',
    rotateTokens cfg now t w = (Throw (AuthError (rejection cfg now t) 401), w')
    /\ (txn w = None -> db w' = db w).
Proof.
  intros Hf Hnone. unfold rotateTokens, bind at 1. rewrite BEGIN_run by assumption.
  unfold rejection, try_catch at 1, bind at 1, lift.
  destruct (jwt_verify t (JWT_SECRET cfg) now) as [p|e] eqn:Hjwt.
  - unfold usable_rows in Hnone. rewrite (jwt_verify_decode _ _ _ _ Hjwt) in Hnone.
    unfold bind at 1, isRefreshTokenValid, try_catch, bind at 1, lift. rewrite Hjwt.
    destruct w as [[U S R L] tx n f l]. unfold refresh_of in Hnone. simpl in *.
    subst f.
    unfold bind, select_refresh_wa, statement, when, throw, ROLLBACK,
      transaction_command, ret. simpl.
    rewrite Hnone. simpl.
    eexists. split; [reflexivity|]. simpl. intros ->. reflexivity.
  - destruct w as [d tx n f l]. simpl in *. subst f.
    unfold bind, ROLLBACK, transaction_command, throw. simpl.
    rewrite (jwt_verify_never_AuthError _ _ _ _ Hjwt).
    eexists. split; [reflexivity|]. simpl.
    intros ->. reflexivity.
Qed.

Lemma try_catch_rethrow_inv {A} (m : M A) (h : Error -> M A) w a w' :
  (forall e w0, exists e' w1, h e w0 = (Throw e', w1)) ->
  try_catch m h w = (Return a, w') -> m w = (Return a, w').
Proof.
  intros Hh H. apply try_catch_inv in H.
  destruct H as [(b & Hm & Hb)|(e & w1 & _ & Hthrow)].
  - inversion Hb; subst. assumption.
  - destruct (Hh e w1) as (e' & w2 & Heq). rewrite Heq in Hthrow. discriminate.
Qed.

Lemma when_throw_inv (b : bool) (e : Error) w w' :
  when b (throw e) w = (Return tt, w') -> b = false /\ w' = w.
Proof.
  destruct b; simpl; unfold throw, ret; intros H; inversion H; auto.
Qed.

Lemma revoke_token_revokes tokenId rows x :
  In x (map (revoke_token tokenId) rows) ->
  RefreshToken.token_id x = tokenId -> RefreshToken.is_revoked x = true.
Proof.
  rewrite in_map_iff. intros (r & Hx & _) Htok. unfold revoke_token, eqN in Hx.
  destruct (N.eqb_spec (RefreshToken.token_id r) tokenId) as [E|E].
  - subst x. reflexivity.
  - subst x. contradiction.
Qed.

Lemma transaction_command_Return_inv f w w' :
  transaction_command f w = (Return tt, w') ->
  w' = f w \/ exists rest, faults w = false :: rest /\ w' = f (with_faults rest w).
Proof.
  unfold transaction_command. destruct (faults w) as [|[|] rest]; intros H.
  - inversion H. auto.
  - discriminate.
  - inversion H. eauto.
Qed.

Lemma rotateTokens_catch_throws {A} (e : Error) (w : World) :
  exists e' w', @rotateTokens_catch A e w = (Throw e', w').
Proof.
  unfold rotateTokens_catch, bind, throw.
  destruct (ROLLBACK w) as [[[]|e0] w0]; [|eauto].
  destruct (instanceof_AuthError e); eauto.
Qed.

(** A rotation that returns has committed the revocation of every
    refresh row under the old token id, whatever the fault plan was. *)
Lemma rotateTokens_success_revokes cfg now t w tokens w1 :
  rotateTokens cfg now t w = (Return tokens, w1) ->
  txn w1 = None
  /\ exists p, jwt_decode t = Some p
       /\ forall x, In x (refresh_of w1) ->
            RefreshToken.token_id x = tokenId p -> RefreshToken.is_revoked x = true.
Proof.
  unfold rotateTokens. intros H.
  apply bind_Return_inv in H. destruct H as ([] & w0 & _ & H).
  apply try_catch_rethrow_inv in H.
  2:{ intros e wx. apply (@rotateTokens_catch_throws TokenResponse e wx). }
  apply bind_Return_inv in H. destruct H as (p & wa & Hjwt & H).
  unfold lift in Hjwt. injection Hjwt as Hp Hwa. subst wa.
  apply bind_Return_inv in H. destruct H as (valid & wb & _ & H).
  apply bind_Return_inv in H. destruct H as ([] & wc & _ & H).
  apply bind_Return_inv in H. destruct H as (found & wd & _ & H).
  destruct found as [|row others]; [discriminate|].
  apply bind_Return_inv in H. destruct H as (nt & we & _ & H).
  apply bind_Return_inv in H. destruct H as (revoked & wf & Hupd & H).
  apply bind_Return_inv in H. destruct H as ([] & wg & Hcommit & H).
  unfold ret in H. inversion H; subst. clear H.
  apply statement_Return_inv in Hupd. destruct Hupd as (Hsql & _).
  injection Hsql as _ Hdb.
  assert (Hw1 : txn w1 = None /\ db w1 = db wf).
  { apply transaction_command_Return_inv in Hcommit.
    destruct Hcommit as [->|(rest & _ & ->)]; split; reflexivity. }
  destruct Hw1 as [Htxn Hdb1].
  split; [exact Htxn|]. exists p. split; [eapply jwt_verify_decode; eassumption|].
  intros x Hx Htok. unfold refresh_of in Hx. rewrite Hdb1, <- Hdb in Hx.
  simpl in Hx. apply (revoke_token_revokes (tokenId p) (refresh_tokens_wa (db we)) x Hx Htok).
Qed.

Lemma revoked_rows_unusable now t w :
  (forall p, jwt_decode t = Some p ->
     forall x, In x (refresh_of w) ->
       RefreshToken.token_id x = tokenId p -> RefreshToken.is_revoked x = true) ->
  usable_rows now t w = [].
Proof.
  intros H. unfold usable_rows. destruct (jwt_decode t) as [p|]; [|reflexivity].
  apply filter_nil_iff. intros x Hx. unfold usable, eqN.
  destruct (N.eqb_spec (RefreshToken.token_id x) (tokenId p)) as [E|E]; [|reflexivity].
  rewrite (H p eq_refl x Hx E). reflexivity.
Qed.

(** One call after the other, the guarantee holds: on a store that
    serves every statement of the second call, a rotation that comes
    after one that returned fails with an [AuthError] 401 and changes
    no table. *)
Lemma rotation_after_rotation_fails cfg (now later : Timestamp) (t : Token)
  (w w1 : World) (tokens : TokenResponse) :
  rotateTokens cfg now t w = (Return tokens, w1) ->
  exists w2,
    rotateTokens cfg later t (with_faults [] w1)
    = (Throw (AuthError (rejection cfg later t) 401), w2)
    /\ db w2 = db w1.
Proof.
  intros Hfirst.
  apply rotateTokens_success_revokes in Hfirst.
  destruct Hfirst as (Htxn & p & Hp & Hrev).
  destruct (rotateTokens_rejects_stale cfg later t (with_faults [] w1))
    as (w2 & Hrun & Hdb).
  { reflexivity. }
  { apply revoked_rows_unusable. intros q Hq x Hx Htok.
    rewrite Hp in Hq. inversion Hq; subst q.
    apply Hrev; assumption. }
  exists w2. split; [assumption|]. apply Hdb. assumption.
Qed.

(** World 1 after the refresh token of session 100 was rotated at 9 s. *)
Definition rotated_world_1 : World :=
  Eval vm_compute in
  exec (rotateTokens sample_config 9000 (refreshToken tokens_1)) world_1.

(** The second rotation of an already rotated token, while the token
    still verifies, fails with "Invalid refresh token". *)
Example second_rotation_invalid :
  fst (rotateTokens sample_config 9000 (refreshToken tokens_1) world_1)
  = Return (issued sample_config 9000 7 103)
  /\ fst (rotateTokens sample_config 9500 (refreshToken tokens_1) rotated_world_1)
     = Throw (AuthError "Invalid refresh token" 401).
Proof. vm_compute. split; reflexivity. Qed.

(** The two parts, run one after the other with nothing in between, are
    [rotateTokens]: for every token and every store, failing statements
    included. *)
Lemma rotateTokens_in_two_parts cfg now t w :
  rotateTokens cfg now t w
  = (read <- rotateTokens_reads cfg now t ;; rotateTokens_writes cfg now read) w.
Proof.
  unfold rotateTokens, rotateTokens_reads, rotateTokens_writes, rotateTokens_catch,
    try_catch, bind, lift, when, throw, ret.
  destruct (BEGIN w) as [[[]|e0] w0]; [|reflexivity].
  destruct (jwt_verify t (JWT_SECRET cfg) now) as [p|e].
  2:{ destruct (ROLLBACK w0) as [[[]|e3] w3]; [|reflexivity].
      destruct (instanceof_AuthError e); reflexivity. }
  destruct (isRefreshTokenValid cfg now t w0) as [[[|]|e] w1]; simpl.
  3:{ destruct (ROLLBACK w1) as [[[]|e3] w3]; [|reflexivity].
      destruct (instanceof_AuthError e); reflexivity. }
  2:{ destruct (ROLLBACK w1) as [[[]|e3] w3]; reflexivity. }
  destruct (select_sessions _ w1) as [[[|row others]|e] w2]; simpl.
  - destruct (ROLLBACK w2) as [[[]|e3] w3]; reflexivity.
  - reflexivity.
  - destruct (ROLLBACK w2) as [[[]|e3] w3]; [|reflexivity].
    destruct (instanceof_AuthError e); reflexivity.
Qed.

(** On a store that serves every statement: the first part of a
    rotation of a token that passes [jwt.verify], has a usable refresh
    row and a session row, returns the payload and the row and changes
    no table; the second part returns a new pair whatever the tables
    hold by then. *)
Lemma rotateTokens_reads_healthy cfg now t w p row rest :
  faults w = [] ->
  jwt_verify t (JWT_SECRET cfg) now = Return p ->
  (exists r, In r (refresh_of w)
             /\ RefreshToken.token_id r = tokenId p /\ usable now r = true) ->
  filter (fun s => eqN (Session.token_id s) (tokenId p)) (sessions_of w)
  = row :: rest ->
  exists w',
    rotateTokens_reads cfg now t w = (Return (p, row), w')
    /\ db w' = db w /\ faults w' = [] /\ next_uuid w' = next_uuid w.
Proof.
  intros Hf Hjwt (r & Hr & Htok & Huse) Hsel.
  destruct (filter_found
              (fun x => eqN (RefreshToken.token_id x) (tokenId p) && usable now x)
              (refresh_of w) r Hr) as (y & others & Hvalid).
  { rewrite Htok, Huse. unfold eqN. rewrite N.eqb_refl. reflexivity. }
  unfold rotateTokens_reads, bind at 1. rewrite BEGIN_run by assumption.
  set (w0 := with_txn _ w).
  assert (Hf0 : faults w0 = []) by (destruct w; exact Hf).
  unfold try_catch, bind at 1, lift. rewrite Hjwt.
  unfold bind at 1.
  rewrite (isRefreshTokenValid_healthy cfg now t w0 p Hf0 Hjwt).
  replace (refresh_of w0) with (refresh_of w) by (destruct w; reflexivity).
  rewrite Hvalid, count_cons_pos. simpl negb. unfold when.
  unfold bind at 1, ret at 1.
  destruct w as [[U S R L] tx n f l]. unfold sessions_of in Hsel. simpl in *.
  subst f. unfold bind, select_sessions, statement, ret. simpl. rewrite Hsel.
  eexists. split; [reflexivity|]. simpl. auto.
Qed.

Lemma rotateTokens_writes_healthy cfg now p row w :
  faults w = [] ->
  exists w',
    rotateTokens_writes cfg now (p, row) w
    = (Return (issued cfg now (userId p) (next_uuid w)), w')
    /\ faults w' = []
    /\ next_uuid w' = N.succ (N.succ (N.succ (next_uuid w))).
Proof.
  intros Hf. unfold rotateTokens_writes, try_catch, bind at 1.
  rewrite generateTokens_healthy by assumption.
  unfold bind, update_refresh_wa, statement, COMMIT, transaction_command, ret.
  simpl. eexists. split; [reflexivity|]. simpl. auto.
Qed.

(** Any refresh token that can be rotated can be rotated twice: on a
    store that serves every statement, two calls for one token, each run
    up to its session lookup before either goes on, both return a new
    token pair. *)
Lemma interleaved_rotations_both_return cfg now t w p row rest :
  faults w = [] ->
  jwt_verify t (JWT_SECRET cfg) now = Return p ->
  (exists r, In r (refresh_of w)
             /\ RefreshToken.token_id r = tokenId p /\ usable now r = true) ->
  filter (fun s => eqN (Session.token_id s) (tokenId p)) (sessions_of w)
  = row :: rest ->
  exists w',
    interleaved (rotateTokens_reads cfg now t) (rotateTokens_writes cfg now)
                (rotateTokens_reads cfg now t) (rotateTokens_writes cfg now) w
    = (Return (issued cfg now (userId p) (next_uuid w),
               issued cfg now (userId p)
                      (N.succ (N.succ (N.succ (next_uuid w))))), w').
Proof.
  intros Hf Hjwt Hrow Hsel.
  destruct (rotateTokens_reads_healthy cfg now t w p row rest Hf Hjwt Hrow Hsel)
    as (w1 & Hrun1 & Hdb1 & Hf1 & Hn1).
  destruct (rotateTokens_reads_healthy cfg now t w1 p row rest Hf1 Hjwt)
    as (w2 & Hrun2 & Hdb2 & Hf2 & Hn2).
  { unfold refresh_of. rewrite Hdb1. exact Hrow. }
  { unfold sessions_of. rewrite Hdb1. exact Hsel. }
  destruct (rotateTokens_writes_healthy cfg now p row w2 Hf2)
    as (w3 & Hrun3 & Hf3 & Hn3).
  destruct (rotateTokens_writes_healthy cfg now p row w3 Hf3)
    as (w4 & Hrun4 & _ & _).
  exists w4. unfold interleaved.
  rewrite (bind_run _ _ _ _ _ Hrun1), (bind_run _ _ _ _ _ Hrun2),
    (bind_run _ _ _ _ _ Hrun3), (bind_run _ _ _ _ _ Hrun4).
  rewrite Hn3, Hn2, Hn1. reflexivity.
Qed.

(** C2. One refresh token, two rotations of it in one process on a
    store that serves every statement.  The first call runs up to its
    session lookup, the second call does the same, then each runs to
    its end.  Both calls have read the refresh row before either revoked
    it, and nothing locks the row or checks it again: both return a
    token pair (token ids 103 and 106), both new refresh tokens are
    accepted afterwards, and the user holds a session for each.  The
    token was rotated twice. *)
Theorem refresh_token_rotates_twice_when_interleaved :
  let t := refreshToken tokens_1 in
  let run :=
    interleaved (rotateTokens_reads sample_config 9000 t)
                (rotateTokens_writes sample_config 9000)
                (rotateTokens_reads sample_config 9000 t)
                (rotateTokens_writes sample_config 9000) world_1 in
  fst run = Return (issued sample_config 9000 7 103, issued sample_config 9000 7 106)
  /\ map Session.token_id (sessions_of (snd run)) = [100; 103; 106]%N
  /\ map (fun r => (RefreshToken.token_id r, RefreshToken.is_revoked r))
         (refresh_of (snd run))
     = [(100, true); (103, false); (106, false)]%N
  /\ fst (isRefreshTokenValid sample_config 9500
            (refreshToken (issued sample_config 9000 7 103)) (snd run))
     = Return true
  /\ fst (isRefreshTokenValid sample_config 9500
            (refreshToken (issued sample_config 9000 7 106)) (snd run))
     = Return true.
Proof. vm_compute. repeat split; reflexivity. Qed.

(** The refresh token of session 100 seven days after it was issued:
    its stored row is not revoked but has expired, and [rotateTokens]
    fails with "Failed to rotate tokens", not "Invalid refresh token". *)
Example expired_refresh_token_fails_otherwise :
  let late := 5000 + REFRESH_TOKEN_EXPIRATION sample_config in
  map (fun r => (RefreshToken.token_id r, RefreshToken.is_revoked r,
                 late <? RefreshToken.expires_at r)) (refresh_of world_1)
  = [(100%N, false, false)]
  /\ fst (rotateTokens sample_config late (refreshToken tokens_1) world_1)
     = Throw (AuthError "Failed to rotate tokens" 401)
  /\ fst (rotateTokens sample_config late (refreshToken tokens_1) world_1)
     <> Throw (AuthError "Invalid refresh token" 401).
Proof. vm_compute. repeat split; try reflexivity. discriminate. Qed.

(** * Further properties *)

(** ** SessionManager.getUserSessions *)

Definition more_recent (a b : Session.t) : Prop :=
  Session.last_active b <= Session.last_active a.

Lemma insert_desc_perm s l : Permutation (insert_desc s l) (s :: l).
Proof.
  induction l as [|x rest IH]; simpl; [reflexivity|].
  destruct (Session.last_active x <=? Session.last_active s); [reflexivity|].
  rewrite IH. apply perm_swap.
Qed.

Lemma insert_desc_sorted s l :
  StronglySorted more_recent l -> StronglySorted more_recent (insert_desc s l).
Proof.
  induction l as [|x rest IH]; simpl; intros Hs.
  - constructor; constructor.
  - inversion Hs as [|? ? Hrest Hall]; subst.
    destruct (Session.last_active x <=? Session.last_active s) eqn:E.
    + apply Z.leb_le in E. constructor; [assumption|].
      constructor; [exact E|].
      rewrite Forall_forall in *. intros y Hy. unfold more_recent in *.
      specialize (Hall y Hy). lia.
    + apply Z.leb_gt in E. constructor; [apply IH; assumption|].
      rewrite Forall_forall in *. intros y Hy.
      apply (Permutation_in _ (insert_desc_perm s rest)) in Hy.
      destruct Hy as [<-|Hy]; [unfold more_recent; lia|auto].
Qed.

Lemma order_by_last_active_desc_perm l :
  Permutation (order_by_last_active_desc l) l.
Proof.
  unfold order_by_last_active_desc.
  induction l as [|x rest IH]; simpl; [reflexivity|].
  rewrite insert_desc_perm. constructor. assumption.
Qed.

Lemma order_by_last_active_desc_sorted l :
  StronglySorted more_recent (order_by_last_active_desc l).
Proof.
  unfold order_by_last_active_desc.
  induction l as [|x rest IH]; simpl; [constructor|].
  apply insert_desc_sorted. assumption.
Qed.


Lemma getUserSessions_healthy_run userId w :
  faults w = [] ->
  exists l,
    getUserSessions userId w = (Return l, w)
    /\ Permutation l (active_sessions userId w).
Proof.
  destruct w as [[U S R L] tx n f l0]. simpl. intros ->.
  eexists. split; [reflexivity|]. apply order_by_last_active_desc_perm.
Qed.

(** X1. On a healthy store [getUserSessions] changes nothing and returns
    the user's non-marked sessions, each exactly once, the most recently
    active first. *)
Theorem getUserSessions_lists_active_most_recent_first (userId : Z) (w : World) :
  faults w = [] ->
  exists l,
    getUserSessions userId w = (Return l, w)
    /\ Permutation l (active_sessions userId w)
    /\ StronglySorted more_recent l.
Proof.
  destruct w as [[U S R L] tx n f l0]. simpl. intros ->.
  eexists. split; [reflexivity|]. split.
  - apply order_by_last_active_desc_perm.
  - apply order_by_last_active_desc_sorted.
Qed.

Lemma getUserSessions_lists_active_most_recent_first_witness :
  exists l,
    getUserSessions 7 world_3 = (Return l, world_3)
    /\ Permutation l (active_sessions 7 world_3)
    /\ StronglySorted more_recent l.
Proof.
  apply (getUserSessions_lists_active_most_recent_first 7 world_3).
  reflexivity.
Defined.

(** ** SessionManager.markSessionForDeletion *)

Definition owned_by (sessionId : Uuid) (userId : Z) (s : Session.t) : bool :=
  eqN (Session.id s) sessionId && (Session.user_id s =? userId).

Lemma markSessionForDeletion_healthy now sessionId userId w :
  faults w = [] ->
  markSessionForDeletion now sessionId userId w
  = (Return tt,
     with_db (with_sessions
                (map (fun s => if owned_by sessionId userId s
                               then Session.mark now s else s) (sessions_of w))
                (db w)) w).
Proof.
  destruct w as [[U S R L] tx n f l]. simpl. intros ->. reflexivity.
Qed.

Lemma filter_map_others {A} (p : A -> bool) (f : A -> A) (l : list A) :
  (forall x, p (f x) = p x) ->
  filter (fun x => negb (p x)) (map (fun x => if p x then f x else x) l)
  = filter (fun x => negb (p x)) l.
Proof.
  intros Hp. induction l as [|x l IH]; simpl; [reflexivity|].
  destruct (p x) eqn:E; simpl.
  - rewrite Hp, E. simpl. exact IH.
  - rewrite E. simpl. f_equal. exact IH.
Qed.

(** X2. Ownership is part of the update: on a healthy store
    [markSessionForDeletion] returns normally whether or not a row
    matches, keeps the number of session rows, leaves every row that
    does not carry both the session id and the user id exactly as it
    was (in particular the rows of every other user), and never clears
    a mark that was set. *)
Theorem markSessionForDeletion_touches_only_owned_rows (now : Timestamp)
  (sessionId : Uuid) (userId : Z) (w : World) :
  faults w = [] ->
  exists w',
    markSessionForDeletion now sessionId userId w = (Return tt, w')
    /\ List.length (sessions_of w') = List.length (sessions_of w)
    /\ filter (fun s => negb (owned_by sessionId userId s)) (sessions_of w')
       = filter (fun s => negb (owned_by sessionId userId s)) (sessions_of w)
    /\ map Session.is_marked_for_deletion (sessions_of w')
       = map (fun s => Session.is_marked_for_deletion s
                       || owned_by sessionId userId s) (sessions_of w)
    /\ refresh_of w' = refresh_of w.
Proof.
  destruct w as [[U S R L] tx n f l]. simpl. intros ->.
  eexists. split; [reflexivity|].
  unfold sessions_of, refresh_of. simpl. repeat split.
  - apply length_map.
  - apply filter_map_others. intros s. reflexivity.
  - rewrite map_map. apply map_ext. intros s. unfold owned_by.
    destruct (eqN (Session.id s) sessionId && (Session.user_id s =? userId));
      simpl; [rewrite orb_true_r|rewrite orb_false_r]; reflexivity.
Qed.

Lemma markSessionForDeletion_touches_only_owned_rows_witness :
  exists w',
    markSessionForDeletion 8000 104 8 world_3 = (Return tt, w')
    /\ List.length (sessions_of w') = List.length (sessions_of world_3)
    /\ filter (fun s => negb (owned_by 104 8 s)) (sessions_of w')
       = filter (fun s => negb (owned_by 104 8 s)) (sessions_of world_3)
    /\ map Session.is_marked_for_deletion (sessions_of w')
       = map (fun s => Session.is_marked_for_deletion s || owned_by 104 8 s)
             (sessions_of world_3)
    /\ refresh_of w' = refresh_of world_3.
Proof.
  apply (markSessionForDeletion_touches_only_owned_rows 8000 104 8 world_3).
  reflexivity.
Defined.

(** X3. A session marked by its owner disappears from the owner's
    listing and from the count of active sessions, at once: on a
    healthy store, after [markSessionForDeletion] neither
    [getUserSessions] nor the rows [getActiveSessions] counts contain a
    row with that session id. *)
Theorem marked_session_is_not_listed (now : Timestamp) (sessionId : Uuid)
  (userId : Z) (w : World) :
  faults w = [] ->
  exists w' l,
    markSessionForDeletion now sessionId userId w = (Return tt, w')
    /\ getUserSessions userId w' = (Return l, w')
    /\ (forall s, In s l -> Session.id s <> sessionId)
    /\ (forall s, In s (active_sessions userId w') -> Session.id s <> sessionId).
Proof.
  intros Hf.
  rewrite markSessionForDeletion_healthy by assumption.
  set (w' := with_db _ w).
  assert (Hact : forall s, In s (active_sessions userId w') ->
                           Session.id s <> sessionId).
  { intros s Hs. unfold active_sessions, sessions_of, w' in Hs. simpl in Hs.
    apply filter_In in Hs. destruct Hs as [Hin Hp].
    apply in_map_iff in Hin. destruct Hin as (s0 & Hs0 & _).
    apply andb_true_iff in Hp. destruct Hp as [Hu Hm].
    intros Hid. destruct (owned_by sessionId userId s0) eqn:E.
    - subst s. simpl in Hm. discriminate.
    - subst s. unfold owned_by, eqN in E. apply N.eqb_eq in Hid.
      rewrite Hid, Hu in E. discriminate. }
  destruct (getUserSessions_healthy_run userId w') as (l1 & Hrun & Hperm).
  { destruct w; assumption. }
  exists w', l1. split; [reflexivity|]. split; [assumption|].
  split; [|exact Hact].
  intros s Hs. apply Hact. eapply Permutation_in; eassumption.
Qed.

Lemma marked_session_is_not_listed_witness :
  exists w' l,
    markSessionForDeletion 8000 104 7 world_3 = (Return tt, w')
    /\ getUserSessions 7 w' = (Return l, w')
    /\ (forall s, In s l -> Session.id s <> 104%N)
    /\ (forall s, In s (active_sessions 7 w') -> Session.id s <> 104%N).
Proof.
  apply (marked_session_is_not_listed 8000 104 7 world_3). reflexivity.
Defined.

(** ** SessionManager.cleanup *)

(** X4. What a pass leaves behind on a healthy store: no session is
    marked, no session's token id has a revoked or expired refresh row,
    every expired refresh row is revoked; no refresh row is removed and
    none that was revoked becomes usable; every session row kept is a
    row that was there, unchanged. *)
Theorem cleanup_leaves_only_live_sessions (now : Timestamp) (w : World) :
  faults w = [] ->
  exists m w',
    cleanup now w = (Return m, w')
    /\ (forall s, In s (sessions_of w') ->
          In s (sessions_of w)
          /\ Session.is_marked_for_deletion s = false
          /\ forall r, In r (refresh_of w') ->
               RefreshToken.token_id r = Session.token_id s ->
               RefreshToken.is_revoked r = false
               /\ now <= RefreshToken.expires_at r)
    /\ (forall r, In r (refresh_of w') ->
          RefreshToken.expires_at r < now -> RefreshToken.is_revoked r = true)
    /\ map RefreshToken.id (refresh_of w') = map RefreshToken.id (refresh_of w)
    /\ (forall r, In r (refresh_of w) ->
          RefreshToken.is_revoked r = true -> In r (refresh_of w')).
Proof.
  intros Hf. rewrite cleanup_healthy by assumption. cbv zeta.
  eexists _, _. split; [reflexivity|].
  unfold sessions_of, refresh_of. simpl.
  set (R := refresh_tokens_wa (db w)). set (S := user_sessions_wa (db w)).
  split; [|split; [|split]].
  - intros s Hs. apply filter_In in Hs. destruct Hs as [Hs Hlive].
    apply filter_In in Hs. destruct Hs as [Hs Hm].
    apply negb_true_iff in Hm, Hlive. rewrite token_in_false_iff in Hlive.
    split; [assumption|]. split; [assumption|].
    intros r Hr Htok.
    assert (Hnd : dead now r = false).
    { destruct (dead now r) eqn:Hd; [|reflexivity].
      assert (Hin : In r (filter (dead now) (revoke_expired now R)))
        by (apply filter_In; auto).
      apply Hlive in Hin. unfold eqN in Hin.
      rewrite Htok, N.eqb_refl in Hin. discriminate. }
    unfold dead in Hnd. apply orb_false_iff in Hnd. destruct Hnd as [H1 H2].
    split; [assumption|]. apply Z.ltb_ge. assumption.
  - intros r Hr Hexp. destruct (revoke_expired_In _ _ _ Hr) as (r0 & _ & He & _ & Hrev).
    apply Hrev. apply Z.ltb_lt. rewrite <- He. exact Hexp.
  - unfold revoke_expired. rewrite map_map. apply map_ext. intros r.
    destruct (expired_unrevoked now r); reflexivity.
  - intros r Hr Hrev. unfold revoke_expired. apply in_map_iff. exists r.
    split; [|assumption]. unfold expired_unrevoked. rewrite Hrev.
    rewrite andb_false_r. reflexivity.
Qed.

Lemma cleanup_leaves_only_live_sessions_witness :
  exists m w',
    cleanup 604805500 cleanup_world = (Return m, w')
    /\ (forall s, In s (sessions_of w') ->
          In s (sessions_of cleanup_world)
          /\ Session.is_marked_for_deletion s = false
          /\ forall r, In r (refresh_of w') ->
               RefreshToken.token_id r = Session.token_id s ->
               RefreshToken.is_revoked r = false
               /\ 604805500 <= RefreshToken.expires_at r)
    /\ (forall r, In r (refresh_of w') ->
          RefreshToken.expires_at r < 604805500 -> RefreshToken.is_revoked r = true)
    /\ map RefreshToken.id (refresh_of w')
       = map RefreshToken.id (refresh_of cleanup_world)
    /\ (forall r, In r (refresh_of cleanup_world) ->
          RefreshToken.is_revoked r = true -> In r (refresh_of w')).
Proof.
  apply (cleanup_leaves_only_live_sessions 604805500 cleanup_world). reflexivity.
Defined.

(** The number of failing statements in a fault plan. *)
Definition failures (plan : list bool) : nat :=
  List.length (filter (fun failed : bool => failed) plan).

(** Runs are split by the fate of each statement in turn. *)
Tactic Notation "split_faults" ident(f) integer(n) :=
  do n (try (destruct f as [|[|] f]; simpl; auto)).

(** X5. One pass is all or nothing unless its [ROLLBACK] fails too.
    Whatever the store does, called outside a transaction: a pass that
    returns has done exactly what a pass over a healthy store does and
    has committed; a pass that throws has rolled every table back to
    what it was and left no transaction open, except when a second
    statement, the [ROLLBACK] in the [catch], failed as well: then the
    transaction is still open over the tables as they were. *)
Theorem cleanup_all_or_nothing (now : Timestamp) (w : World) :
  txn w = None ->
  match cleanup now w with
  | (Throw _, w') =>
      (db w' = db w /\ txn w' = None)
      \/ (txn w' = Some (db w) /\ (2 <= failures (faults w))%nat)
  | (Return m, w') =>
      fst (cleanup now (with_faults [] w)) = Return m
      /\ db w' = db (snd (cleanup now (with_faults [] w)))
      /\ txn w' = None
  end.
Proof.
  destruct w as [[U S R L] tx n f l]. simpl. intros ->.
  unfold cleanup, try_catch, bind, BEGIN, COMMIT, ROLLBACK, transaction_command,
    throw, ret, delete_sessions, update_refresh_wa, statement, failures. simpl.
  split_faults f 6; right; (split; [reflexivity|simpl; lia]).
Qed.

(** A store that serves the first two statements of a pass, [BEGIN] and
    the first [DELETE], and fails the third. *)
Definition flaky_cleanup_world : World :=
  Eval vm_compute in with_faults [false; false; true] cleanup_world.

Lemma cleanup_all_or_nothing_witness :
  match cleanup 604805500 flaky_cleanup_world with
  | (Throw _, w') =>
      (db w' = db flaky_cleanup_world /\ txn w' = None)
      \/ (txn w' = Some (db flaky_cleanup_world)
          /\ (2 <= failures (faults flaky_cleanup_world))%nat)
  | (Return m, w') =>
      fst (cleanup 604805500 (with_faults [] flaky_cleanup_world)) = Return m
      /\ db w' = db (snd (cleanup 604805500 (with_faults [] flaky_cleanup_world)))
      /\ txn w' = None
  end.
Proof.
  apply (cleanup_all_or_nothing 604805500 flaky_cleanup_world). reflexivity.
Defined.

Example cleanup_rolls_back_on_fault :
  fst (cleanup 604805500 flaky_cleanup_world)
  = Throw (DatabaseError "statement failed")
  /\ db (exec (cleanup 604805500) flaky_cleanup_world) = db cleanup_world
  /\ txn (exec (cleanup 604805500) flaky_cleanup_world) = None.
Proof. vm_compute. repeat split; reflexivity. Qed.

(** When the [ROLLBACK] fails as well, the marked session deleted by the
    first statement stays deleted inside a transaction left open. *)
Example cleanup_without_rollback :
  let w := with_faults [false; false; true; true] cleanup_world in
  fst (cleanup 604805500 w) = Throw (DatabaseError "statement failed")
  /\ map Session.id (sessions_of cleanup_world) = [101; 104; 107]%N
  /\ map Session.id (sessions_of (exec (cleanup 604805500) w)) = [101; 107]%N
  /\ txn (exec (cleanup 604805500) w) = Some (db cleanup_world).
Proof. vm_compute. repeat split; reflexivity. Qed.

(** X6. Mark, then clean: on a healthy store, after the owner marks a
    session and a cleanup pass runs, no row with that session id and
    owner is stored, and the pass reports at least one marked session
    when such a row existed. *)
Theorem marked_session_is_reaped (now later : Timestamp) (sessionId : Uuid)
  (userId : Z) (w : World) :
  faults w = [] ->
  exists w1 m w2,
    markSessionForDeletion now sessionId userId w = (Return tt, w1)
    /\ cleanup later w1 = (Return m, w2)
    /\ (forall s, In s (sessions_of w2) -> owned_by sessionId userId s = false)
    /\ ((exists s, In s (sessions_of w) /\ owned_by sessionId userId s = true) ->
        1 <= markedSessions m).
Proof.
  intros Hf. rewrite markSessionForDeletion_healthy by assumption.
  set (w1 := with_db _ w).
  assert (Hf1 : faults w1 = []) by (destruct w; assumption).
  exists w1. rewrite (cleanup_healthy later w1 Hf1). cbv zeta.
  eexists _, _. split; [reflexivity|]. split; [reflexivity|]. split.
  - intros s Hs. unfold sessions_of at 1 in Hs. simpl in Hs.
    apply filter_In in Hs. destruct Hs as [Hs _].
    apply filter_In in Hs. destruct Hs as [Hs Hm]. apply negb_true_iff in Hm.
    unfold w1, sessions_of in Hs. simpl in Hs.
    apply in_map_iff in Hs. destruct Hs as (s0 & Hs0 & _).
    destruct (owned_by sessionId userId s0) eqn:E.
    + subst s. simpl in Hm. discriminate.
    + subst s. exact E.
  - intros (s & Hs & Ho). simpl markedSessions.
    assert (Hin : In (Session.mark now s)
                     (filter Session.is_marked_for_deletion (sessions_of w1))).
    { apply filter_In. split; [|reflexivity].
      unfold w1, sessions_of. simpl. apply in_map_iff. exists s.
      rewrite Ho. auto. }
    unfold count. destruct (filter Session.is_marked_for_deletion (sessions_of w1));
      [destruct Hin|]. simpl List.length. lia.
Qed.

Lemma marked_session_is_reaped_witness :
  exists w1 m w2,
    markSessionForDeletion 8000 104 7 world_3 = (Return tt, w1)
    /\ cleanup 9000 w1 = (Return m, w2)
    /\ (forall s, In s (sessions_of w2) -> owned_by 104 7 s = false)
    /\ ((exists s, In s (sessions_of world_3) /\ owned_by 104 7 s = true) ->
        1 <= markedSessions m).
Proof.
  apply (marked_session_is_reaped 8000 9000 104 7 world_3). reflexivity.
Defined.

(** ** TokenService.createSession and its limit check *)

Definition count_user (userId : Z) (rows : list Session.t) : Z :=
  count (filter (fun s => Session.user_id s =? userId) rows).

Lemma least_recently_active_nonempty s rows :
  exists o, least_recently_active (s :: rows) = Some o.
Proof.
  simpl. destruct (least_recently_active rows) as [m|]; [|eauto].
  destruct (Session.last_active s <=? Session.last_active m); eauto.
Qed.

Lemma least_recently_active_minimal rows o :
  least_recently_active rows = Some o ->
  forall s, In s rows -> Session.last_active o <= Session.last_active s.
Proof.
  revert o. induction rows as [|x rows IH]; simpl; intros o H s Hs; [destruct Hs|].
  destruct (least_recently_active rows) as [m|] eqn:E.
  - destruct (Session.last_active x <=? Session.last_active m) eqn:C;
      inversion H; subst; clear H.
    + apply Z.leb_le in C. destruct Hs as [<-|Hs]; [lia|].
      specialize (IH m eq_refl s Hs). lia.
    + apply Z.leb_gt in C. destruct Hs as [<-|Hs]; [lia|].
      apply (IH o eq_refl s Hs).
  - inversion H; subst. destruct Hs as [<-|Hs]; [lia|].
    destruct rows; [destruct Hs|].
    destruct (least_recently_active_nonempty t rows) as [o' Ho']. congruence.
Qed.

Lemma filter_filter_shorter {A} (p q : A -> bool) (l : list A) (x : A) :
  In x l -> p x = true -> q x = false ->
  (List.length (filter p (filter q l)) < List.length (filter p l))%nat.
Proof.
  induction l as [|a l IH]; simpl; intros Hin Hp Hq; [destruct Hin|].
  assert (Hle : (List.length (filter p (filter q l)) <= List.length (filter p l))%nat).
  { clear. induction l as [|b l IH]; simpl; [lia|].
    destruct (q b); simpl; destruct (p b); simpl; lia. }
  destruct Hin as [->|Hin].
  - rewrite Hq, Hp. simpl. lia.
  - specialize (IH Hin Hp Hq).
    destruct (q a); simpl; destruct (p a); simpl; lia.
Qed.

Lemma filter_filter_kept {A} (p q : A -> bool) (l : list A) :
  (forall x, In x l -> p x = true -> q x = true) ->
  filter p (filter q l) = filter p l.
Proof.
  induction l as [|a l IH]; simpl; intros H; [reflexivity|].
  destruct (p a) eqn:Hp.
  - rewrite (H a) by auto. simpl. rewrite Hp. f_equal. apply IH.
    intros x Hx. apply H. auto.
  - destruct (q a); simpl; [rewrite Hp|]; apply IH; intros x Hx; apply H; auto.
Qed.

Lemma NoDup_map_injective {A B} (f : A -> B) (l : list A) (x y : A) :
  NoDup (map f l) -> In x l -> In y l -> f x = f y -> x = y.
Proof.
  induction l as [|a l IH]; simpl; intros Hnd Hx Hy Hf; [destruct Hx|].
  inversion Hnd as [|? ? Hnotin Hnd']; subst.
  destruct Hx as [->|Hx], Hy as [->|Hy]; auto.
  - exfalso. apply Hnotin. rewrite Hf. apply in_map. assumption.
  - exfalso. apply Hnotin. rewrite <- Hf. apply in_map. assumption.
Qed.

Lemma createSession_healthy cfg now userId deviceInfo tokenId w :
  faults w = [] ->
  exists t row w',
    createSession cfg now userId deviceInfo tokenId w = (Return t, w')
    /\ sessions_of w' = after_limit cfg userId (sessions_of w) ++ [row]
    /\ Session.user_id row = userId
    /\ Session.token_id row = t
    /\ Session.is_marked_for_deletion row = false
    /\ refresh_of w' = refresh_of w
    /\ faults w' = [].
Proof.
  intros Hf. unfold createSession, bind at 1.
  rewrite enforceSessionLimit_healthy by assumption.
  destruct w as [[U S R L] tx n f l]. simpl in *. subst f.
  destruct tokenId as [t|]; eexists _, _, _; (split; [reflexivity|]);
    repeat split.
Qed.

Lemma after_limit_count cfg userId rows :
  1 <= MAX_SESSIONS_PER_USER cfg ->
  count_user userId (after_limit cfg userId rows) + 1
  <= Z.max (count_user userId rows) (MAX_SESSIONS_PER_USER cfg).
Proof.
  intros Hmax. unfold after_limit, count_user.
  set (mine := filter (fun s => Session.user_id s =? userId) rows).
  destruct (MAX_SESSIONS_PER_USER cfg <=? count mine) eqn:E.
  - apply Z.leb_le in E.
    destruct mine as [|s0 rest] eqn:Hmine; [unfold count in E; simpl in E; lia|].
    destruct (least_recently_active_nonempty s0 rest) as [o Ho]. rewrite Ho.
    assert (Hin : In o mine).
    { rewrite Hmine. apply least_recently_active_In. assumption. }
    unfold mine in Hin. apply filter_In in Hin. destruct Hin as [Hin Hu].
    pose proof (filter_filter_shorter
                  (fun s => Session.user_id s =? userId)
                  (fun s => negb (eqN (Session.id s) (Session.id o)))
                  rows o Hin Hu) as Hlt.
    assert (Hq : negb (eqN (Session.id o) (Session.id o)) = false).
    { unfold eqN. rewrite N.eqb_refl. reflexivity. }
    specialize (Hlt Hq). fold mine in Hlt. rewrite Hmine in Hlt.
    unfold count. lia.
  - apply Z.leb_gt in E. fold mine. lia.
Qed.

(** X7. The cap is kept by [createSession]: with at least one session
    allowed, a session created on a healthy store leaves the user with
    no more session rows than the larger of the limit and the number the
    user had before. A user at or below the limit stays at or below it. *)
Theorem createSession_keeps_cap cfg (now : Timestamp) (userId : Z)
  (deviceInfo : DeviceInfo.t) (tokenId : option Uuid) (w : World) :
  faults w = [] ->
  1 <= MAX_SESSIONS_PER_USER cfg ->
  exists t w',
    createSession cfg now userId deviceInfo tokenId w = (Return t, w')
    /\ count_user userId (sessions_of w')
       <= Z.max (count_user userId (sessions_of w)) (MAX_SESSIONS_PER_USER cfg).
Proof.
  intros Hf Hmax.
  destruct (createSession_healthy cfg now userId deviceInfo tokenId w Hf)
    as (t & row & w' & Hrun & Hrows & Hu & _).
  exists t, w'. split; [assumption|].
  rewrite Hrows. pose proof (after_limit_count cfg userId (sessions_of w) Hmax) as H.
  unfold count_user in *. rewrite filter_app. simpl. rewrite Hu, Z.eqb_refl.
  unfold count in *. rewrite length_app. simpl. lia.
Qed.

Lemma createSession_keeps_cap_witness :
  exists t w',
    createSession sample_config 8000 7 sample_device None world_3 = (Return t, w')
    /\ count_user 7 (sessions_of w')
       <= Z.max (count_user 7 (sessions_of world_3))
                (MAX_SESSIONS_PER_USER sample_config).
Proof.
  apply (createSession_keeps_cap sample_config 8000 7 sample_device None world_3).
  - reflexivity.
  - vm_compute. discriminate.
Defined.

Lemma after_limit_others cfg userId other rows :
  NoDup (map Session.id rows) ->
  other <> userId ->
  filter (fun s => Session.user_id s =? other) (after_limit cfg userId rows)
  = filter (fun s => Session.user_id s =? other) rows.
Proof.
  intros Hnd Hother. unfold after_limit.
  set (mine := filter (fun s => Session.user_id s =? userId) rows).
  destruct (MAX_SESSIONS_PER_USER cfg <=? count mine); [|reflexivity].
  apply filter_filter_kept. intros x Hx Hxo.
  destruct (least_recently_active mine) as [o|] eqn:Ho; [|reflexivity].
  apply least_recently_active_In in Ho. unfold mine in Ho.
  apply filter_In in Ho. destruct Ho as [Hin Hu].
  apply negb_true_iff. unfold eqN. apply N.eqb_neq. intros Hid.
  assert (x = o) by (eapply NoDup_map_injective; eauto). subst x.
  apply Z.eqb_eq in Hxo, Hu. congruence.
Qed.

(** X8. The limit check of one user never touches another user's
    sessions: with session ids unique (the primary key), a session
    created on a healthy store leaves the session rows of every other
    user exactly as they were, even when it evicts. *)
Theorem createSession_keeps_other_users cfg (now : Timestamp) (userId other : Z)
  (deviceInfo : DeviceInfo.t) (tokenId : option Uuid) (w : World) :
  faults w = [] ->
  NoDup (map Session.id (sessions_of w)) ->
  other <> userId ->
  exists t w',
    createSession cfg now userId deviceInfo tokenId w = (Return t, w')
    /\ filter (fun s => Session.user_id s =? other) (sessions_of w')
       = filter (fun s => Session.user_id s =? other) (sessions_of w).
Proof.
  intros Hf Hnd Hother.
  destruct (createSession_healthy cfg now userId deviceInfo tokenId w Hf)
    as (t & row & w' & Hrun & Hrows & Hu & _).
  exists t, w'. split; [assumption|].
  rewrite Hrows, filter_app. simpl. rewrite Hu.
  destruct (Z.eqb_spec userId other) as [E|E]; [congruence|].
  rewrite app_nil_r. apply after_limit_others; assumption.
Qed.

(** World 3 with one more session, of user 8, the oldest of all. *)
Definition two_user_world : World :=
  Eval vm_compute in
  with_db (with_sessions (new_session 1000 8 sample_device 120 :: sessions_of world_3)
                         (db world_3)) world_3.

Lemma two_user_world_ids_unique : NoDup (map Session.id (sessions_of two_user_world)).
Proof.
  vm_compute.
  repeat (constructor; [simpl; intros H;
                        repeat (destruct H as [H|H]; [discriminate|]); exact H|]).
  constructor.
Defined.

Lemma createSession_keeps_other_users_witness :
  exists t w',
    createSession sample_config 8000 7 sample_device None two_user_world
    = (Return t, w')
    /\ filter (fun s => Session.user_id s =? 8) (sessions_of w')
       = filter (fun s => Session.user_id s =? 8) (sessions_of two_user_world).
Proof.
  apply (createSession_keeps_other_users sample_config 8000 7 8 sample_device
           None two_user_world).
  - reflexivity.
  - exact two_user_world_ids_unique.
  - discriminate.
Defined.

Lemma filter_out_unique {A} (f : A -> N) (l : list A) (o : A) :
  NoDup (map f l) -> In o l ->
  Permutation (o :: filter (fun s => negb (eqN (f s) (f o))) l) l.
Proof.
  induction l as [|a l IH]; simpl; intros Hnd Hin; [destruct Hin|].
  inversion Hnd as [|? ? Hnotin Hnd']; subst.
  destruct Hin as [->|Hin].
  - unfold eqN at 1. rewrite N.eqb_refl. simpl. constructor.
    rewrite filter_all; [reflexivity|].
    intros x Hx. apply negb_true_iff. unfold eqN. apply N.eqb_neq. intros E.
    apply Hnotin. rewrite <- E. apply in_map. assumption.
  - destruct (eqN (f a) (f o)) eqn:E; simpl.
    + exfalso. apply N.eqb_eq in E. apply Hnotin. rewrite E. apply in_map. assumption.
    + rewrite perm_swap. constructor. apply IH; assumption.
Qed.

(** X9. Which row the limit check removes: with session ids unique and
    at least one session allowed, at or above the limit on a healthy
    store [enforceSessionLimit] removes exactly one row, a session of
    that user whose [last_active] is the lowest among the user's
    sessions (marked ones included), and keeps every other row. *)
Theorem enforceSessionLimit_evicts_least_recently_active cfg (userId : Z)
  (w : World) :
  faults w = [] ->
  NoDup (map Session.id (sessions_of w)) ->
  1 <= MAX_SESSIONS_PER_USER cfg ->
  MAX_SESSIONS_PER_USER cfg <= count_user userId (sessions_of w) ->
  exists oldest w',
    enforceSessionLimit cfg userId w = (Return tt, w')
    /\ Session.user_id oldest = userId
    /\ (forall s, In s (sessions_of w) -> Session.user_id s = userId ->
          Session.last_active oldest <= Session.last_active s)
    /\ Permutation (oldest :: sessions_of w') (sessions_of w)
    /\ refresh_of w' = refresh_of w.
Proof.
  intros Hf Hnd Hone Hmax.
  rewrite enforceSessionLimit_healthy by assumption.
  unfold count_user in Hmax.
  set (mine := filter (fun s => Session.user_id s =? userId) (sessions_of w)) in *.
  destruct mine as [|s0 rest] eqn:Hmine; [unfold count in Hmax; simpl in Hmax; lia|].
  destruct (least_recently_active_nonempty s0 rest) as [o Ho].
  assert (Hin : In o mine) by (rewrite Hmine; apply least_recently_active_In; assumption).
  unfold mine in Hin. apply filter_In in Hin. destruct Hin as [Hin Hu].
  exists o. eexists. split; [reflexivity|].
  split; [apply Z.eqb_eq; assumption|]. split; [|split].
  - intros s Hs Hus. apply (least_recently_active_minimal (s0 :: rest) o Ho).
    rewrite <- Hmine. unfold mine. apply filter_In. split; [assumption|].
    apply Z.eqb_eq. assumption.
  - unfold sessions_of at 1. simpl. unfold after_limit. fold mine.
    rewrite Hmine. apply Z.leb_le in Hmax. rewrite Hmax, Ho.
    apply (filter_out_unique Session.id); assumption.
  - destruct w as [[U S R L] tx n f l]. reflexivity.
Qed.

Lemma enforceSessionLimit_evicts_least_recently_active_witness :
  exists oldest w',
    enforceSessionLimit sample_config 7 two_user_world = (Return tt, w')
    /\ Session.user_id oldest = 7
    /\ (forall s, In s (sessions_of two_user_world) -> Session.user_id s = 7 ->
          Session.last_active oldest <= Session.last_active s)
    /\ Permutation (oldest :: sessions_of w') (sessions_of two_user_world)
    /\ refresh_of w' = refresh_of two_user_world.
Proof.
  apply (enforceSessionLimit_evicts_least_recently_active sample_config 7
           two_user_world).
  - reflexivity.
  - exact two_user_world_ids_unique.
  - vm_compute. discriminate.
  - vm_compute. discriminate.
Defined.

(** ** Which errors a call can throw *)

(** [throws_only m P]: whatever the world, an error thrown by [m]
    satisfies [P]. *)
Definition throws_only {A} (m : M A) (P : Error -> Prop) : Prop :=
  forall w e w', m w = (Throw e, w') -> P e.

Definition never_throws {A} (m : M A) : Prop := throws_only m (fun _ => False).


Lemma throws_only_ret {A} (a : A) P : throws_only (ret a) P.
Proof. intros w e w' H. discriminate. Qed.


Lemma throws_only_bind {A B} (m : M A) (k : A -> M B) P :
  throws_only m P -> (forall a, throws_only (k a) P) -> throws_only (bind m k) P.
Proof.
  intros Hm Hk w e w' H. unfold bind in H.
  destruct (m w) as [[a|e0] w1] eqn:E.
  - eapply Hk. eassumption.
  - inversion H; subst. eapply Hm. eassumption.
Qed.

Lemma throws_only_try_catch {A} (m : M A) (h : Error -> M A) (Q P : Error -> Prop) :
  throws_only m Q -> (forall e, Q e -> throws_only (h e) P) ->
  throws_only (try_catch m h) P.
Proof.
  intros Hm Hh w e w' H. unfold try_catch in H.
  destruct (m w) as [[a|e0] w1] eqn:E; [discriminate|].
  eapply Hh; [eapply Hm|]; eassumption.
Qed.

Lemma throws_only_when (b : bool) (m : M unit) P :
  throws_only m P -> throws_only (when b m) P.
Proof. destruct b; simpl; [auto|]. intros _. apply throws_only_ret. Qed.

Lemma throws_only_Logger lvl msg P : throws_only (Logger lvl msg) P.
Proof. intros w e w' H. discriminate. Qed.

Lemma throws_only_uuidv4 P : throws_only uuidv4 P.
Proof. intros w e w' H. discriminate. Qed.

Definition is_DatabaseError (e : Error) : Prop := exists m, e = DatabaseError m.

Lemma throws_only_transaction_command f :
  throws_only (transaction_command f) is_DatabaseError.
Proof.
  intros w e w' H. unfold transaction_command in H.
  destruct (faults w) as [|[|] rest]; inversion H; subst.
  eexists. reflexivity.
Qed.

Lemma throws_only_BEGIN : throws_only BEGIN is_DatabaseError.
Proof. apply throws_only_transaction_command. Qed.

Lemma throws_only_COMMIT : throws_only COMMIT is_DatabaseError.
Proof. apply throws_only_transaction_command. Qed.

Lemma throws_only_ROLLBACK : throws_only ROLLBACK is_DatabaseError.
Proof. apply throws_only_transaction_command. Qed.

Lemma throws_only_rejected_statement {A} message :
  throws_only (@rejected_statement A message) is_DatabaseError.
Proof.
  intros w e w' H. unfold rejected_statement in H.
  destruct (faults w) as [|[|] rest]; inversion H; subst; eexists; reflexivity.
Qed.

(** A statement whose SQL cannot raise anything else throws only
    [DatabaseError]. *)
Lemma throws_only_statement {A} (sql : Db -> Outcome A * Db) :
  (forall d e d', sql d = (Throw e, d') -> is_DatabaseError e) ->
  throws_only (statement sql) is_DatabaseError.
Proof.
  intros Hsql w e w' H. unfold statement in H.
  destruct (faults w) as [|[|] rest].
  - destruct (sql (db w)) as [[a|e0] d'] eqn:E; inversion H; subst.
    eapply Hsql. eassumption.
  - inversion H; subst. eexists. reflexivity.
  - destruct (sql (db w)) as [[a|e0] d'] eqn:E; inversion H; subst.
    eapply Hsql. eassumption.
Qed.

Lemma throws_only_select_sessions p : throws_only (select_sessions p) is_DatabaseError.
Proof. apply throws_only_statement. intros d e d' H. discriminate. Qed.

Lemma throws_only_delete_sessions p : throws_only (delete_sessions p) is_DatabaseError.
Proof. apply throws_only_statement. intros d e d' H. discriminate. Qed.

Lemma throws_only_update_sessions p f :
  throws_only (update_sessions p f) is_DatabaseError.
Proof. apply throws_only_statement. intros d e d' H. discriminate. Qed.

Lemma throws_only_insert_session row :
  throws_only (insert_session row) is_DatabaseError.
Proof. apply throws_only_statement. intros d e d' H. discriminate. Qed.

Lemma throws_only_select_refresh_wa p :
  throws_only (select_refresh_wa p) is_DatabaseError.
Proof. apply throws_only_statement. intros d e d' H. discriminate. Qed.

Lemma throws_only_update_refresh_wa p f :
  throws_only (update_refresh_wa p f) is_DatabaseError.
Proof. apply throws_only_statement. intros d e d' H. discriminate. Qed.

Lemma throws_only_insert_refresh_wa row :
  throws_only (insert_refresh_wa row) is_DatabaseError.
Proof. apply throws_only_statement. intros d e d' H. discriminate. Qed.

Lemma throws_only_delete_refresh_legacy p :
  throws_only (delete_refresh_legacy p) is_DatabaseError.
Proof.
  apply throws_only_statement. intros d e d' H.
  destruct (refresh_tokens d); inversion H; subst. eexists. reflexivity.
Qed.

Ltac throws_step :=
  first
    [ apply throws_only_bind; [|intros ?]
    | apply throws_only_when
    | apply throws_only_ret
    | apply throws_only_Logger
    | apply throws_only_uuidv4
    | apply throws_only_BEGIN
    | apply throws_only_COMMIT
    | apply throws_only_ROLLBACK
    | apply throws_only_select_sessions
    | apply throws_only_delete_sessions
    | apply throws_only_update_sessions
    | apply throws_only_insert_session
    | apply throws_only_select_refresh_wa
    | apply throws_only_update_refresh_wa
    | apply throws_only_insert_refresh_wa
    | apply throws_only_delete_refresh_legacy ].











(** A storage error does reach the caller: a rotation whose first
    statement, [BEGIN], fails. *)
Example rotateTokens_storage_error :
  fst (rotateTokens sample_config 9000 (refreshToken tokens_1)
                    (with_faults [true] world_1))
  = Throw (DatabaseError "statement failed").
Proof. vm_compute. reflexivity. Qed.

Lemma refreshAccessToken_stale_run cfg (now : Timestamp) (t : Token)
  (w : World) :
  usable_rows now t w = [] ->
  exists w',
    refreshAccessToken cfg now t w
    = (Throw (AuthError "Invalid refresh token" 401), w')
    /\ db w' = db w /\ txn w' = txn w.
Proof.
  intros Hnone. unfold refreshAccessToken, try_catch at 1, bind at 1.
  unfold isRefreshTokenValid, try_catch, bind at 1, lift.
  destruct (jwt_verify t (JWT_SECRET cfg) now) as [p|e] eqn:Hjwt.
  - unfold usable_rows in Hnone. rewrite (jwt_verify_decode _ _ _ _ Hjwt) in Hnone.
    destruct w as [[U S R L] tx n f l]. unfold refresh_of in Hnone. simpl in *.
    unfold bind, select_refresh_wa, statement, when, throw, ret. simpl.
    destruct f as [|[|] plan]; simpl; try rewrite Hnone; simpl;
      (eexists; split; [reflexivity|]; simpl; split; reflexivity).
  - unfold bind, when, throw, ret. simpl.
    eexists. split; [reflexivity|]. split; reflexivity.
Qed.

(** X11. The refresh entry point rejects every token without a usable
    refresh row in the same way: whatever the store does,
    [refreshAccessToken] fails with "Invalid refresh token" (401) when
    no row under the token's id is unrevoked and unexpired, also when
    the token is malformed, wrongly signed or past its own expiry, and
    it leaves the tables and the transaction state untouched. *)
Theorem refreshAccessToken_rejects_stale cfg (now : Timestamp) (t : Token)
  (w : World) :
  usable_rows now t w = [] ->
  exists w',
    refreshAccessToken cfg now t w
    = (Throw (AuthError "Invalid refresh token" 401), w')
    /\ db w' = db w /\ txn w' = txn w.
Proof. exact (refreshAccessToken_stale_run cfg now t w). Qed.

Lemma refreshAccessToken_rejects_stale_witness :
  exists w',
    refreshAccessToken sample_config 604805000 (refreshToken tokens_1) world_1
    = (Throw (AuthError "Invalid refresh token" 401), w')
    /\ db w' = db world_1 /\ txn w' = txn world_1.
Proof.
  apply (refreshAccessToken_rejects_stale sample_config 604805000
           (refreshToken tokens_1) world_1).
  vm_compute. reflexivity.
Defined.

(** ** Issue, rotate, verify *)

Lemma rotateTokens_healthy cfg now t w p y others row rest :
  faults w = [] ->
  jwt_verify t (JWT_SECRET cfg) now = Return p ->
  filter (fun r => eqN (RefreshToken.token_id r) (tokenId p) && usable now r)
         (refresh_of w) = y :: others ->
  filter (fun s => eqN (Session.token_id s) (tokenId p)) (sessions_of w)
  = row :: rest ->
  rotateTokens cfg now t w
  = (Return (issued cfg now (userId p) (next_uuid w)),
     mkWorld
       (mkDb (user_of_wa (db w))
             (after_limit cfg (userId p) (sessions_of w)
                ++ [new_session now (userId p) (device_of row) (next_uuid w)])
             (map (revoke_token (tokenId p))
                  (refresh_of w ++ [new_refresh cfg now (userId p) (next_uuid w)]))
             (refresh_tokens (db w)))
       None (N.succ (N.succ (N.succ (next_uuid w)))) [] (log w)).
Proof.
  intros Hf Hjwt Hvalid Hsel.
  destruct w as [[U S R L] tx n f l].
  unfold sessions_of, refresh_of in *. simpl in *. subst f.
  unfold rotateTokens, bind at 1. rewrite BEGIN_run by reflexivity. simpl.
  unfold try_catch, bind at 1, lift. rewrite Hjwt.
  unfold bind at 1.
  rewrite (isRefreshTokenValid_healthy cfg now t _ p) by (reflexivity || exact Hjwt).
  unfold refresh_of. simpl. rewrite Hvalid, count_cons_pos. simpl negb. unfold when at 1.
  unfold bind at 1, ret at 1.
  unfold bind at 1, select_sessions, statement at 1. simpl. rewrite Hsel.
  unfold bind at 1. rewrite generateTokens_healthy by reflexivity.
  unfold bind, update_refresh_wa, statement, COMMIT, transaction_command, ret, sessions_of, refresh_of.
  simpl. reflexivity.
Qed.

Lemma revoke_token_unusable now tokenId rows :
  filter (fun r => eqN (RefreshToken.token_id r) tokenId && usable now r)
         (map (revoke_token tokenId) rows) = [].
Proof.
  apply filter_nil_iff. intros x Hx. unfold usable.
  destruct (eqN (RefreshToken.token_id x) tokenId) eqn:E; [|reflexivity].
  apply N.eqb_eq in E. rewrite (revoke_token_revokes tokenId rows x Hx E).
  reflexivity.
Qed.

Lemma verifyToken_healthy_found cfg now t w p :
  faults w = [] ->
  jwt_verify t (JWT_SECRET cfg) now = Return p ->
  (exists s, In s (sessions_of w)
             /\ Session.token_id s = tokenId p /\ Session.user_id s = userId p) ->
  fst (verifyToken cfg now t w) = Return p.
Proof.
  intros Hf Hjwt (s & Hin & Htok & Husr).
  destruct (filter_found
              (fun x => eqN (Session.token_id x) (tokenId p)
                        && (Session.user_id x =? userId p))
              (sessions_of w) s Hin) as (y & rest & Hfound).
  { rewrite Htok, Husr. unfold eqN. rewrite N.eqb_refl, Z.eqb_refl. reflexivity. }
  unfold verifyToken, try_catch at 1, bind at 1, lift. rewrite Hjwt.
  destruct w as [[U S R L] tx n f l]. unfold sessions_of in *. simpl in *. subst f.
  unfold bind at 1, select_sessions, statement. simpl. rewrite Hfound.
  reflexivity.
Qed.

Lemma isRefreshTokenValid_healthy_found cfg now t w p :
  faults w = [] ->
  jwt_verify t (JWT_SECRET cfg) now = Return p ->
  (exists r, In r (refresh_of w)
             /\ RefreshToken.token_id r = tokenId p /\ usable now r = true) ->
  fst (isRefreshTokenValid cfg now t w) = Return true.
Proof.
  intros Hf Hjwt (r & Hr & Htok & Huse).
  rewrite (isRefreshTokenValid_healthy cfg now t w p Hf Hjwt). simpl.
  destruct (filter_found
              (fun x => eqN (RefreshToken.token_id x) (tokenId p) && usable now x)
              (refresh_of w) r Hr) as (y & others & Hvalid).
  { rewrite Htok, Huse. unfold eqN. rewrite N.eqb_refl. reflexivity. }
  rewrite Hvalid, count_cons_pos. reflexivity.
Qed.

Lemma succ3_neq (n : N) : N.succ (N.succ (N.succ n)) <> n.
Proof.
  apply not_eq_sym, N.lt_neq.
  apply N.lt_trans with (N.succ n); [apply N.lt_succ_diag_r|].
  apply N.lt_trans with (N.succ (N.succ n)); apply N.lt_succ_diag_r.
Qed.

(** X12. Login, refresh, use: on a healthy store, for lifetimes of at
    least one second, a pair issued by [generateTokens] can be rotated
    with its refresh token as long as that token has not expired; the
    rotation returns a pair under a new token id, the new access token
    verifies at once with the same user id, the new refresh token is
    valid and the old one no longer is. *)
Theorem issue_rotate_verify cfg (now later : Timestamp) (userId : Z)
  (deviceInfo : DeviceInfo.t) (w : World) :
  faults w = [] ->
  1000 <= TOKEN_EXPIRATION cfg ->
  1000 <= REFRESH_TOKEN_EXPIRATION cfg ->
  later / 1000 < now / 1000 + REFRESH_TOKEN_EXPIRATION cfg / 1000 ->
  later < now + REFRESH_TOKEN_EXPIRATION cfg ->
  exists first w1 second w2,
    generateTokens cfg now userId deviceInfo w = (Return first, w1)
    /\ rotateTokens cfg later (refreshToken first) w1 = (Return second, w2)
    /\ sessionId second <> sessionId first
    /\ fst (verifyToken cfg later (token second) w2)
       = Return (mkPayload userId (sessionId second))
    /\ fst (isRefreshTokenValid cfg later (refreshToken second) w2) = Return true
    /\ fst (isRefreshTokenValid cfg later (refreshToken first) w2) = Return false.
Proof.
  intros Hf Hacc Hrefr Hjwt Hrow.
  assert (Hacc1 : 1 <= TOKEN_EXPIRATION cfg / 1000)
    by (apply Z.div_le_lower_bound; lia).
  assert (Hrefr1 : 1 <= REFRESH_TOKEN_EXPIRATION cfg / 1000)
    by (apply Z.div_le_lower_bound; lia).
  rewrite generateTokens_healthy by assumption.
  set (n := next_uuid w).
  set (w1 := mkWorld _ (txn w) _ [] (log w)).
  assert (Hold : jwt_verify (refreshToken (issued cfg now userId n))
                            (JWT_SECRET cfg) later = Return (mkPayload userId n)).
  { apply jwt_sign_verifies. assumption. }
  destruct (filter_last_nonempty
              (fun r => eqN (RefreshToken.token_id r) n && usable later r)
              (refresh_of w) (new_refresh cfg now userId n)) as (y & others & Hvalid).
  { unfold usable, eqN. simpl. rewrite N.eqb_refl. simpl.
    apply Z.ltb_lt. assumption. }
  destruct (filter_last_nonempty
              (fun s => eqN (Session.token_id s) n)
              (after_limit cfg userId (sessions_of w))
              (new_session now userId deviceInfo n)) as (row & rest & Hsel).
  { unfold eqN. simpl. apply N.eqb_refl. }
  pose proof (rotateTokens_healthy cfg later _ w1 (mkPayload userId n)
                y others row rest eq_refl Hold Hvalid Hsel) as Hrot.
  eexists _, w1, _, _. split; [reflexivity|]. split; [exact Hrot|].
  simpl sessionId. simpl next_uuid.
  assert (Hne : N.succ (N.succ (N.succ n)) <> n) by apply succ3_neq.
  split; [exact Hne|]. split; [|split].
  - apply verifyToken_healthy_found.
    + reflexivity.
    + simpl token. apply jwt_sign_verifies. lia.
    + exists (new_session later userId (device_of row) (N.succ (N.succ (N.succ n)))).
      split; [|split; reflexivity].
      unfold sessions_of. simpl. apply in_or_app. right. left. reflexivity.
  - apply (isRefreshTokenValid_healthy_found cfg later _ _
             (mkPayload userId (N.succ (N.succ (N.succ n))))).
    + reflexivity.
    + simpl refreshToken. apply jwt_sign_verifies. lia.
    + exists (new_refresh cfg later userId (N.succ (N.succ (N.succ n)))).
      split; [|split].
      * unfold refresh_of. simpl. apply in_map_iff.
        exists (new_refresh cfg later userId (N.succ (N.succ (N.succ n)))).
        split.
        -- unfold revoke_token, eqN. simpl.
           destruct (N.eqb_spec (N.succ (N.succ (N.succ n))) n) as [E|E];
             [contradiction|reflexivity].
        -- apply in_or_app. right. left. reflexivity.
      * reflexivity.
      * unfold usable. simpl. apply Z.ltb_lt. lia.
  - rewrite (isRefreshTokenValid_healthy cfg later _ _ (mkPayload userId n))
      by (reflexivity || exact Hold).
    simpl fst. unfold refresh_of. simpl.
    rewrite revoke_token_unusable. reflexivity.
Qed.

Lemma issue_rotate_verify_witness :
  exists first w1 second w2,
    generateTokens sample_config 8000 7 sample_device world_2 = (Return first, w1)
    /\ rotateTokens sample_config 9000 (refreshToken first) w1 = (Return second, w2)
    /\ sessionId second <> sessionId first
    /\ fst (verifyToken sample_config 9000 (token second) w2)
       = Return (mkPayload 7 (sessionId second))
    /\ fst (isRefreshTokenValid sample_config 9000 (refreshToken second) w2)
       = Return true
    /\ fst (isRefreshTokenValid sample_config 9000 (refreshToken first) w2)
       = Return false.
Proof.
  apply (issue_rotate_verify sample_config 8000 9000 7 sample_device world_2).
  - reflexivity.
  - vm_compute. discriminate.
  - vm_compute. discriminate.
  - vm_compute. reflexivity.
  - vm_compute. reflexivity.
Defined.

(** ** The authentication middleware *)

(** A verify that returns has checked the token and found its session,
    whatever the store did afterwards. *)
Lemma verifyToken_Return_inv cfg now t w p w' :
  verifyToken cfg now t w = (Return p, w') ->
  jwt_verify t (JWT_SECRET cfg) now = Return p
  /\ exists s, In s (sessions_of w)
               /\ Session.token_id s = tokenId p /\ Session.user_id s = userId p.
Proof.
  unfold verifyToken. intros H.
  apply try_catch_rethrow_inv in H.
  2:{ intros e wx. destruct (instanceof_JsonWebTokenError e);
        [|destruct (instanceof_TokenExpiredError e)]; unfold throw; eauto. }
  apply bind_Return_inv in H. destruct H as (decoded & wa & Hjwt & H).
  unfold lift in Hjwt. injection Hjwt as Hj Hwa. subst wa.
  apply bind_Return_inv in H. destruct H as (found & wb & Hsel & H).
  destruct found as [|s others]; [discriminate|].
  apply bind_Return_inv in H. destruct H as ([] & wc & _ & H).
  unfold ret in H. injection H as Hp Hw. subst decoded.
  split; [assumption|].
  apply statement_Return_inv in Hsel. destruct Hsel as (Hsql & _).
  injection Hsql as Hrows _.
  assert (Hin : In s (filter (fun s0 => eqN (Session.token_id s0) (tokenId p)
                                        && (Session.user_id s0 =? userId p))
                             (user_sessions_wa (db w)))).
  { rewrite Hrows. left. reflexivity. }
  apply filter_In in Hin. destruct Hin as [Hin Hp].
  apply andb_true_iff in Hp. destruct Hp as [Ht Hu].
  exists s. split; [exact Hin|]. split; [apply N.eqb_eq; exact Ht|apply Z.eqb_eq; exact Hu].
Qed.

(** X13. The middleware lets a request through only for a token that
    passes [jwt.verify] (signature and expiry) and whose token id and
    user id are those of a stored session row, and it hands on exactly
    the token's payload; this holds whatever the store does. *)
Theorem authenticateToken_sound cfg (now : Timestamp) (bearer : option Token)
  (w : World) (p : TokenPayload) (w' : World) :
  authenticateToken cfg now bearer w = (Return (Next p), w') ->
  exists t,
    bearer = Some t
    /\ jwt_verify t (JWT_SECRET cfg) now = Return p
    /\ exists s, In s (sessions_of w)
                 /\ Session.token_id s = tokenId p
                 /\ Session.user_id s = userId p.
Proof.
  unfold authenticateToken. intros H.
  apply try_catch_inv in H.
  destruct H as [(a & H & Ha)|(e & w1 & _ & H)].
  2:{ unfold bind, Logger, ret in H. discriminate. }
  injection Ha as <-.
  destruct bearer as [t|]; [|discriminate].
  exists t. split; [reflexivity|].
  apply try_catch_rethrow_inv in H.
  2:{ intros e wx. destruct (instanceof_TokenExpiredError e); unfold throw; [|eauto].
      unfold bind. destruct (jwt_decode t) as [q|].
      - destruct (handleExpiredToken now (tokenId q) wx) as [[[]|e1] w2]; eauto.
      - unfold ret. eauto. }
  apply bind_Return_inv in H. destruct H as (decoded & wa & Hv & H).
  unfold ret in H. injection H as Hd _. subst decoded.
  eapply verifyToken_Return_inv. eassumption.
Qed.

Lemma authenticateToken_sound_witness :
  exists t,
    Some (token tokens_1) = Some t
    /\ jwt_verify t (JWT_SECRET sample_config) 6000 = Return (mkPayload 7 100)
    /\ exists s, In s (sessions_of world_3)
                 /\ Session.token_id s = tokenId (mkPayload 7 100)
                 /\ Session.user_id s = userId (mkPayload 7 100).
Proof.
  apply (authenticateToken_sound sample_config 6000 (Some (token tokens_1))
           world_3 (mkPayload 7 100)
           (exec (authenticateToken sample_config 6000 (Some (token tokens_1)))
                 world_3)).
  vm_compute. reflexivity.
Defined.

(** X14. The middleware always answers: whatever the token and whatever
    the store does it never throws; it either lets the request through
    or answers 401, with "No token provided" exactly when there is no
    bearer token and "Invalid token" in every other case (a missing
    session, an expired or forged token and a storage failure are not
    told apart). *)
Theorem authenticateToken_answers cfg (now : Timestamp) (bearer : option Token)
  (w : World) :
  exists w',
    (exists p, authenticateToken cfg now bearer w = (Return (Next p), w'))
    \/ authenticateToken cfg now bearer w
       = (Return (Responded (mkResponse 401 None
                    (Some match bearer with
                          | None => "No token provided"
                          | Some _ => "Invalid token"
                          end) None None)), w').
Proof.
  destruct bearer as [t|].
  - destruct (verifyToken cfg now t w) as [[p|e] w1] eqn:Hv.
    + eexists. left. exists p.
      unfold authenticateToken, try_catch, bind. rewrite Hv. reflexivity.
    + pose proof (verifyToken_never_throws_TokenExpiredError _ _ _ _ _ _ Hv) as He.
      eexists. right.
      unfold authenticateToken, try_catch, bind. rewrite Hv, He. reflexivity.
  - eexists. right. reflexivity.
Qed.

Lemma verifyToken_keeps_users cfg now t w :
  user_of_wa (db (snd (verifyToken cfg now t w))) = user_of_wa (db w).
Proof.
  unfold verifyToken, try_catch at 1, bind at 1, lift.
  destruct (jwt_verify t (JWT_SECRET cfg) now) as [p|e].
  - destruct w as [[U S R L] tx n f l].
    unfold bind, select_sessions, updateSessionActivity, try_catch,
      update_sessions, statement, throw, ret, Logger. simpl.
    destruct f as [|[|] f]; simpl;
      try (destruct (filter _ S); simpl; [reflexivity|]);
      try reflexivity;
      destruct f as [|[|] f]; reflexivity.
  - destruct (instanceof_JsonWebTokenError e);
      [|destruct (instanceof_TokenExpiredError e)]; reflexivity.
Qed.

Lemma findById_Return_inv id w u w' :
  findById id w = (Return (Some u), w') ->
  In u (user_of_wa (db w)) /\ User.id u = id /\ User.is_active u = true.
Proof.
  unfold findById. intros H.
  apply try_catch_rethrow_inv in H.
  2:{ intros e wx. unfold bind, Logger, throw. eauto. }
  apply bind_Return_inv in H. destruct H as (rows & wa & Hsel & H).
  unfold ret in H. injection H as Hhd _.
  apply statement_Return_inv in Hsel. destruct Hsel as (Hsql & _).
  injection Hsql as Hrows _.
  destruct rows as [|x rest]; [discriminate|]. injection Hhd as ->.
  assert (Hin : In u (filter (fun v => (User.id v =? id) && User.is_active v)
                             (user_of_wa (db w))))
    by (rewrite Hrows; left; reflexivity).
  apply filter_In in Hin. destruct Hin as [Hin Hp].
  apply andb_true_iff in Hp. destruct Hp as [Hid Hact].
  split; [assumption|]. split; [apply Z.eqb_eq|]; assumption.
Qed.

(** X15. The optional middleware always lets the request continue: it
    never throws and never answers an error, whatever the token and the
    store.  It attaches a user only for a token that passes
    [jwt.verify], whose session row is stored and whose user id belongs
    to an active account; then it attaches the token's payload. *)
Theorem optionalAuthenticateToken_sound cfg (now : Timestamp)
  (bearer : option Token) (w : World) :
  exists attached w',
    optionalAuthenticateToken cfg now bearer w = (Return attached, w')
    /\ forall p, attached = Some p ->
         exists t,
           bearer = Some t
           /\ jwt_verify t (JWT_SECRET cfg) now = Return p
           /\ (exists s, In s (sessions_of w)
                         /\ Session.token_id s = tokenId p
                         /\ Session.user_id s = userId p)
           /\ (exists u, In u (user_of_wa (db w))
                         /\ User.id u = userId p /\ User.is_active u = true).
Proof.
  unfold optionalAuthenticateToken, try_catch.
  destruct bearer as [t|].
  - unfold bind at 1.
    destruct (verifyToken cfg now t w) as [[q|e] w1] eqn:Hv.
    + unfold bind at 1.
      destruct (findById (userId q) w1) as [[[u|]|e] w2] eqn:Hu.
      * eexists _, _. split; [reflexivity|]. intros p Hp. injection Hp as <-.
        exists t. split; [reflexivity|].
        destruct (verifyToken_Return_inv _ _ _ _ _ _ Hv) as (Hj & Hs).
        split; [assumption|]. split; [assumption|].
        apply findById_Return_inv in Hu. exists u.
        pose proof (verifyToken_keeps_users cfg now t w) as Hk.
        rewrite Hv in Hk. simpl in Hk. rewrite <- Hk. exact Hu.
      * eexists _, _. split; [reflexivity|]. discriminate.
      * eexists _, _. split; [reflexivity|]. discriminate.
    + eexists _, _. split; [reflexivity|]. discriminate.
  - eexists _, _. split; [reflexivity|]. discriminate.
Qed.

(** The access token of session 100 attaches user 7. *)
Example optionalAuthenticateToken_attaches :
  fst (optionalAuthenticateToken sample_config 6000 (Some (token tokens_1)) world_3)
  = Return (Some (mkPayload 7 100)).
Proof. vm_compute. reflexivity. Qed.

(** ** Logout *)



(** World 3 with a store that fails the fourth statement of a logout
    (the revocation, after the session row was deleted). *)
Definition flaky_logout_world : World :=
  Eval vm_compute in with_faults [false; false; false; true] world_3.


Example handleLogout_rolls_back_on_fault :
  fst (handleLogout sample_config 9000 (Some (mkPayload 7 100)) flaky_logout_world)
  = Return (mkResponse 500 None (Some "INTERNAL_ERROR") (Some "Failed to logout") None)
  /\ db (exec (handleLogout sample_config 9000 (Some (mkPayload 7 100)))
              flaky_logout_world) = db world_3
  /\ txn (exec (handleLogout sample_config 9000 (Some (mkPayload 7 100)))
               flaky_logout_world) = None.
Proof. vm_compute. repeat split; reflexivity. Qed.

(** When the [ROLLBACK] fails as well the answer is still 500, the
    session row stays deleted and the transaction stays open. *)
Example handleLogout_without_rollback :
  let w := with_faults [false; false; false; true; true] world_3 in
  let after := exec (handleLogout sample_config 9000 (Some (mkPayload 7 100))) w in
  fst (handleLogout sample_config 9000 (Some (mkPayload 7 100)) w)
  = Return (mkResponse 500 None (Some "INTERNAL_ERROR") (Some "Failed to logout") None)
  /\ map Session.id (sessions_of after) = [104; 107]%N
  /\ txn after = Some (db world_3).
Proof. vm_compute. repeat split; reflexivity. Qed.

Definition logged_out : HttpResponse :=
  mkResponse 200 (Some true) None (Some "Logged out successfully") None.

Lemma handleLogout_healthy cfg now u w :
  faults w = [] ->
  txn w = None ->
  userId u <> 0 ->
  revocation_seen u w = true ->
  exists l',
    handleLogout cfg now (Some u) w
    = (Return logged_out,
       mkWorld (mkDb (user_of_wa (db w)) (sessions_after_logout u w)
                     (refresh_after_logout u w) (refresh_tokens (db w)))
               None (next_uuid w) [] l').
Proof.
  intros Hf Ht Hu Hseen. apply Z.eqb_neq in Hu.
  destruct w as [[U S R L] tx n f l]. simpl in Hf, Ht. subst f tx.
  unfold revocation_seen in Hseen. apply negb_true_iff in Hseen.
  unfold handleLogout, try_catch at 1. rewrite Hu.
  unfold isSessionValid, TokenService_logout, isRefreshTokenValid,
    select_sessions, delete_sessions, update_refresh_wa, select_refresh_wa,
    statement, Logger, BEGIN, transaction_command, COMMIT, transaction_command, ROLLBACK, transaction_command, when, throw, ret, lift,
    try_catch, bind.
  unfold refresh_after_logout, own_refresh, refresh_of in Hseen. simpl in Hseen.
  simpl. rewrite Hseen. simpl.
  unfold sessions_after_logout, refresh_after_logout, own_session, own_refresh,
    sessions_of, refresh_of. simpl.
  destruct (0 <? count _); simpl; eexists; reflexivity.
Qed.

Lemma filter_idempotent {A} (p : A -> bool) (l : list A) :
  filter p (filter p l) = filter p l.
Proof.
  apply filter_all. intros x Hx. apply filter_In in Hx. tauto.
Qed.

Lemma revoke_where_idempotent (p : RefreshToken.t -> bool) (l : list RefreshToken.t) :
  (forall r, p (RefreshToken.revoke r) = p r) ->
  map (fun r => if p r then RefreshToken.revoke r else r)
      (map (fun r => if p r then RefreshToken.revoke r else r) l)
  = map (fun r => if p r then RefreshToken.revoke r else r) l.
Proof.
  intros Hp. rewrite map_map. apply map_ext. intros r.
  destruct (p r) eqn:E; [rewrite Hp, E|rewrite E]; reflexivity.
Qed.

(** X17. Logout is idempotent: on a healthy store, after a logout that
    answered 200, a second logout of the same user and token id answers
    200 again and changes no table. *)
Theorem handleLogout_idempotent cfg (now later : Timestamp) (u : TokenPayload)
  (w : World) :
  faults w = [] ->
  txn w = None ->
  userId u <> 0 ->
  revocation_seen u w = true ->
  exists w1 w2,
    handleLogout cfg now (Some u) w = (Return logged_out, w1)
    /\ handleLogout cfg later (Some u) w1 = (Return logged_out, w2)
    /\ db w2 = db w1.
Proof.
  intros Hf Ht Hu Hseen.
  destruct (handleLogout_healthy cfg now u w Hf Ht Hu Hseen) as (l1 & H1).
  set (w1 := mkWorld _ None (next_uuid w) [] l1) in H1.
  assert (Hs : sessions_after_logout u w1 = sessions_after_logout u w).
  { unfold sessions_after_logout at 1. unfold sessions_of, w1. simpl.
    unfold sessions_after_logout. apply filter_idempotent. }
  assert (Hr : refresh_after_logout u w1 = refresh_after_logout u w).
  { unfold refresh_after_logout at 1. unfold refresh_of, w1. simpl.
    unfold refresh_after_logout. apply revoke_where_idempotent.
    intros r. reflexivity. }
  assert (Hseen1 : revocation_seen u w1 = true).
  { unfold revocation_seen in *. rewrite Hr. exact Hseen. }
  destruct (handleLogout_healthy cfg later u w1 eq_refl eq_refl Hu Hseen1)
    as (l2 & H2).
  exists w1. eexists. split; [exact H1|]. split; [exact H2|].
  simpl. rewrite Hs, Hr. reflexivity.
Qed.

Lemma handleLogout_idempotent_witness :
  exists w1 w2,
    handleLogout sample_config 9000 (Some (mkPayload 7 100)) world_3
    = (Return logged_out, w1)
    /\ handleLogout sample_config 9500 (Some (mkPayload 7 100)) w1
       = (Return logged_out, w2)
    /\ db w2 = db w1.
Proof.
  apply (handleLogout_idempotent sample_config 9000 9500 (mkPayload 7 100) world_3).
  - reflexivity.
  - reflexivity.
  - discriminate.
  - vm_compute. reflexivity.
Defined.

Lemma verifyToken_healthy_missing cfg now t w p :
  faults w = [] ->
  jwt_verify t (JWT_SECRET cfg) now = Return p ->
  (forall s, In s (sessions_of w) ->
     eqN (Session.token_id s) (tokenId p) && (Session.user_id s =? userId p) = false) ->
  verifyToken cfg now t w = (Throw (AuthError "Session not found" 401), w).
Proof.
  intros Hf Hjwt Hnone. apply filter_nil_iff in Hnone.
  unfold verifyToken, try_catch at 1, bind at 1, lift. rewrite Hjwt.
  destruct w as [[U S R L] tx n f l]. unfold sessions_of in *. simpl in *. subst f.
  unfold bind at 1, select_sessions, statement. simpl. rewrite Hnone.
  reflexivity.
Qed.

(** X18. A logged-out session is gone for the access token too: on a
    healthy store, after a logout that answered 200, every token that
    still passes [jwt.verify] and carries that user id and token id is
    rejected by [verifyToken] with "Session not found" (401), and the
    middleware answers 401. *)
Theorem logout_then_verify_fails cfg (now later : Timestamp) (u : TokenPayload)
  (t : Token) (w : World) :
  faults w = [] ->
  txn w = None ->
  userId u <> 0 ->
  revocation_seen u w = true ->
  jwt_verify t (JWT_SECRET cfg) later = Return u ->
  exists w1,
    handleLogout cfg now (Some u) w = (Return logged_out, w1)
    /\ verifyToken cfg later t w1 = (Throw (AuthError "Session not found" 401), w1)
    /\ fst (authenticateToken cfg later (Some t) w1)
       = Return (Responded (mkResponse 401 None (Some "Invalid token") None None)).
Proof.
  intros Hf Ht Hu Hseen Hjwt.
  destruct (handleLogout_healthy cfg now u w Hf Ht Hu Hseen) as (l1 & H1).
  set (w1 := mkWorld _ None (next_uuid w) [] l1) in H1.
  assert (Hv : verifyToken cfg later t w1
               = (Throw (AuthError "Session not found" 401), w1)).
  { apply (verifyToken_healthy_missing cfg later t w1 u); [reflexivity|assumption|].
    intros s Hs. unfold w1, sessions_of, sessions_after_logout in Hs. simpl in Hs.
    apply filter_In in Hs. destruct Hs as [_ Hs]. apply negb_true_iff in Hs.
    unfold own_session in Hs. rewrite andb_comm. exact Hs. }
  exists w1. split; [exact H1|]. split; [exact Hv|].
  unfold authenticateToken, try_catch, bind. rewrite Hv. reflexivity.
Qed.

Lemma logout_then_verify_fails_witness :
  exists w1,
    handleLogout sample_config 9000 (Some (mkPayload 7 100)) world_3
    = (Return logged_out, w1)
    /\ verifyToken sample_config 9500 (token tokens_1) w1
       = (Throw (AuthError "Session not found" 401), w1)
    /\ fst (authenticateToken sample_config 9500 (Some (token tokens_1)) w1)
       = Return (Responded (mkResponse 401 None (Some "Invalid token") None None)).
Proof.
  apply (logout_then_verify_fails sample_config 9000 9500 (mkPayload 7 100)
           (token tokens_1) world_3).
  - reflexivity.
  - reflexivity.
  - discriminate.
  - vm_compute. reflexivity.
  - vm_compute. reflexivity.
Defined.

(** ** AuthService.logout: the soft logout by session id *)

Lemma AuthService_logout_healthy now sessionId userId w row rest :
  faults w = [] ->
  txn w = None ->
  filter (owned_by sessionId userId) (sessions_of w) = row :: rest ->
  AuthService_logout now sessionId userId w
  = (Return true,
     mkWorld
       (mkDb (user_of_wa (db w))
             (map (fun s => if owned_by sessionId userId s
                            then Session.mark now s else s) (sessions_of w))
             (map (revoke_token (Session.token_id row)) (refresh_of w))
             (refresh_tokens (db w)))
       None (next_uuid w) [] (log w)).
Proof.
  destruct w as [[U S R L] tx n f l]. unfold sessions_of, refresh_of. simpl.
  intros -> -> Hsel.
  unfold AuthService_logout, select_sessions, update_sessions, update_refresh_wa,
    statement, BEGIN, transaction_command, COMMIT, transaction_command, ROLLBACK, transaction_command, throw, ret, try_catch, bind. simpl.
  unfold owned_by in Hsel. rewrite Hsel. reflexivity.
Qed.

(** X19. [AuthService.logout] checks ownership and deletes softly.  On a
    healthy store, outside a transaction: if no session row carries both
    the session id and the user id it throws "Session not found" (404)
    and changes nothing; otherwise it returns [true], keeps every
    session row, marks exactly the rows with that id and owner (with
    [marked_at = now]), and revokes every refresh row of the session's
    token id. *)
Theorem AuthService_logout_soft_deletes (now : Timestamp) (sessionId : Uuid)
  (userId : Z) (w : World) :
  faults w = [] ->
  txn w = None ->
  match filter (owned_by sessionId userId) (sessions_of w) with
  | [] =>
      exists w',
        AuthService_logout now sessionId userId w
        = (Throw (AuthError "Session not found" 404), w')
        /\ db w' = db w
  | row :: _ =>
      exists w',
        AuthService_logout now sessionId userId w = (Return true, w')
        /\ map Session.id (sessions_of w') = map Session.id (sessions_of w)
        /\ filter (fun s => negb (owned_by sessionId userId s)) (sessions_of w')
           = filter (fun s => negb (owned_by sessionId userId s)) (sessions_of w)
        /\ (forall s, In s (sessions_of w') -> owned_by sessionId userId s = true ->
              Session.is_marked_for_deletion s = true
              /\ Session.marked_at s = Some now)
        /\ (forall r, In r (refresh_of w') ->
              RefreshToken.token_id r = Session.token_id row ->
              RefreshToken.is_revoked r = true)
        /\ map RefreshToken.id (refresh_of w') = map RefreshToken.id (refresh_of w)
  end.
Proof.
  intros Hf Ht.
  destruct (filter (owned_by sessionId userId) (sessions_of w)) as [|row rest] eqn:Hsel.
  - destruct w as [[U S R L] tx n f l]. unfold sessions_of in Hsel. simpl in *.
    subst f tx.
    unfold AuthService_logout, select_sessions, statement, BEGIN, transaction_command, ROLLBACK, transaction_command, throw,
      try_catch, bind. simpl.
    unfold owned_by in Hsel. rewrite Hsel. simpl.
    eexists. split; [reflexivity|]. reflexivity.
  - rewrite (AuthService_logout_healthy now sessionId userId w row rest Hf Ht Hsel).
    set (S0 := sessions_of w). set (R0 := refresh_of w).
    eexists. split; [reflexivity|]. unfold sessions_of, refresh_of.
    simpl. split; [|split; [|split; [|split]]].
    + rewrite map_map. apply map_ext. intros s.
      destruct (owned_by sessionId userId s); reflexivity.
    + apply filter_map_others. intros s. reflexivity.
    + intros s Hs Ho. apply in_map_iff in Hs. destruct Hs as (s0 & Hs0 & _).
      destruct (owned_by sessionId userId s0) eqn:E.
      * subst s. split; reflexivity.
      * subst s. congruence.
    + intros r Hr Htok.
      apply (revoke_token_revokes (Session.token_id row) R0 r); assumption.
    + rewrite map_map. apply map_ext. intros r. unfold revoke_token.
      destruct (eqN (RefreshToken.token_id r) (Session.token_id row)); reflexivity.
Qed.

Lemma AuthService_logout_soft_deletes_witness :
  match filter (owned_by 104 7) (sessions_of world_3) with
  | [] =>
      exists w',
        AuthService_logout 9000 104 7 world_3
        = (Throw (AuthError "Session not found" 404), w')
        /\ db w' = db world_3
  | row :: _ =>
      exists w',
        AuthService_logout 9000 104 7 world_3 = (Return true, w')
        /\ map Session.id (sessions_of w') = map Session.id (sessions_of world_3)
        /\ filter (fun s => negb (owned_by 104 7 s)) (sessions_of w')
           = filter (fun s => negb (owned_by 104 7 s)) (sessions_of world_3)
        /\ (forall s, In s (sessions_of w') -> owned_by 104 7 s = true ->
              Session.is_marked_for_deletion s = true
              /\ Session.marked_at s = Some 9000)
        /\ (forall r, In r (refresh_of w') ->
              RefreshToken.token_id r = Session.token_id row ->
              RefreshToken.is_revoked r = true)
        /\ map RefreshToken.id (refresh_of w') = map RefreshToken.id (refresh_of world_3)
  end.
Proof.
  apply (AuthService_logout_soft_deletes 9000 104 7 world_3); reflexivity.
Defined.

(** Another user's session id: 404, nothing changes. *)
Example AuthService_logout_not_owner :
  fst (AuthService_logout 9000 104 8 world_3)
  = Throw (AuthError "Session not found" 404)
  /\ db (exec (AuthService_logout 9000 104 8) world_3) = db world_3.
Proof. vm_compute. split; reflexivity. Qed.

(** X20. After the soft logout the refresh token is dead and the access
    token is not: on a healthy store, once [AuthService.logout] has
    returned, a refresh with a token of that session's token id fails
    with "Invalid refresh token", while [verifyToken] still accepts an
    unexpired access token of the session (the lookup does not look at
    [is_marked_for_deletion]); a cleanup pass then removes the row. *)
Theorem soft_logout_kills_refresh_not_access cfg (now later : Timestamp)
  (sessionId : Uuid) (owner : Z) (access refresh : Token) (p q : TokenPayload)
  (w : World) (row : Session.t) (rest : list Session.t) :
  faults w = [] ->
  txn w = None ->
  filter (owned_by sessionId owner) (sessions_of w) = row :: rest ->
  jwt_verify access (JWT_SECRET cfg) later = Return p ->
  tokenId p = Session.token_id row ->
  userId p = owner ->
  jwt_decode refresh = Some q ->
  tokenId q = Session.token_id row ->
  exists w1,
    AuthService_logout now sessionId owner w = (Return true, w1)
    /\ fst (refreshAccessToken cfg later refresh w1)
       = Throw (AuthError "Invalid refresh token" 401)
    /\ fst (verifyToken cfg later access w1) = Return p
    /\ (forall s, In s (sessions_of (exec (cleanup later) w1)) ->
          owned_by sessionId owner s = false).
Proof.
  intros Hf Ht Hsel Hacc Hptok Hpusr Hdec Hqtok.
  rewrite (AuthService_logout_healthy now sessionId owner w row rest Hf Ht Hsel).
  set (w1 := mkWorld _ None (next_uuid w) [] (log w)).
  assert (Hrow : In row (sessions_of w) /\ owned_by sessionId owner row = true).
  { apply filter_In. rewrite Hsel. left. reflexivity. }
  destruct Hrow as [Hin Hown].
  assert (Hmarked : In (Session.mark now row) (sessions_of w1)).
  { unfold w1, sessions_of. simpl. apply in_map_iff. exists row.
    rewrite Hown. auto. }
  exists w1. split; [reflexivity|]. split; [|split].
  - destruct (refreshAccessToken_stale_run cfg later refresh w1) as (w2 & Hrun & _).
    + unfold usable_rows. rewrite Hdec, Hqtok. unfold w1, refresh_of. simpl.
      apply revoke_token_unusable.
    + rewrite Hrun. reflexivity.
  - apply verifyToken_healthy_found; [reflexivity|assumption|].
    exists (Session.mark now row). split; [exact Hmarked|]. simpl.
    unfold owned_by in Hown. apply andb_true_iff in Hown. destruct Hown as [_ Hu].
    apply Z.eqb_eq in Hu. split; congruence.
  - intros s Hs. unfold exec in Hs. rewrite cleanup_healthy in Hs by reflexivity.
    cbv zeta in Hs. unfold sessions_of at 1 in Hs. simpl in Hs.
    apply filter_In in Hs. destruct Hs as [Hs _].
    apply filter_In in Hs. destruct Hs as [Hs Hm]. apply negb_true_iff in Hm.
    unfold w1, sessions_of in Hs. simpl in Hs.
    apply in_map_iff in Hs. destruct Hs as (s0 & Hs0 & _).
    destruct (owned_by sessionId owner s0) eqn:E.
    + subst s. simpl in Hm. discriminate.
    + subst s. exact E.
Qed.

(** The token pair of the second sample login (issued at 6 s, token id 103). *)
Definition tokens_2 : TokenResponse :=
  Eval vm_compute in issued sample_config 6000 7 103.

Lemma soft_logout_kills_refresh_not_access_witness :
  exists w1,
    AuthService_logout 9000 104 7 world_3 = (Return true, w1)
    /\ fst (refreshAccessToken sample_config 9500 (refreshToken tokens_2) w1)
       = Throw (AuthError "Invalid refresh token" 401)
    /\ fst (verifyToken sample_config 9500 (token tokens_2) w1)
       = Return (mkPayload 7 103)
    /\ (forall s, In s (sessions_of (exec (cleanup 9500) w1)) ->
          owned_by 104 7 s = false).
Proof.
  apply (soft_logout_kills_refresh_not_access sample_config 9000 9500 104 7
           (token tokens_2) (refreshToken tokens_2)
           (mkPayload 7 103) (mkPayload 7 103) world_3
           (new_session 6000 7 sample_device 103) []).
  - reflexivity.
  - reflexivity.
  - vm_compute. reflexivity.
  - vm_compute. reflexivity.
  - reflexivity.
  - reflexivity.
  - reflexivity.
  - reflexivity.
Defined.

(** ** Pre-login termination *)

(** X21. Pre-login termination never succeeds.  Whatever the user id,
    the session id and the store, [terminatePreLoginSession] never
    throws and answers 500 [SERVER_ERROR] "Failed to terminate
    session"; no table changes: no session row is deleted and no
    refresh-token row is deleted or revoked.  Its outer [catch] does not
    roll back: called outside a transaction on a store that serves
    [BEGIN], it leaves the transaction it opened open. *)
Theorem terminatePreLoginSession_never_succeeds (userId : Z) (sessionId : Uuid)
  (w : World) :
  exists w',
    terminatePreLoginSession userId sessionId w = (Return termination_failed, w')
    /\ db w' = db w
    /\ (txn w = None -> hd false (faults w) = false -> txn w' = Some (db w)).
Proof.
  destruct w as [d [t|] n f l]; destruct f as [|[|] [|[|] f]];
    unfold terminatePreLoginSession, SET_LOCAL_lock_timeout, rejected_statement,
      BEGIN, transaction_command, Logger, ret, try_catch, bind; simpl;
    (eexists; split; [reflexivity|]; simpl; split; [reflexivity|]);
    intros H1 H2; try discriminate H1; try discriminate H2; reflexivity.
Qed.

(** Also for a session the user owns, on a store that serves every
    statement it can. *)
Example terminatePreLoginSession_owned_session :
  fst (terminatePreLoginSession 7 104 world_3) = Return termination_failed
  /\ db (exec (terminatePreLoginSession 7 104) world_3) = db world_3
  /\ txn (exec (terminatePreLoginSession 7 104) world_3) = Some (db world_3).
Proof. vm_compute. repeat split; reflexivity. Qed.

(** ** TokenService.handleExpiredToken *)

Definition without_token (tokenId : Uuid) (rows : list Session.t) : list Session.t :=
  filter (fun s => negb (eqN (Session.token_id s) tokenId)) rows.

(** X23. [handleExpiredToken] never leaves a session marked, and it
    throws only when two statements fail.  Whatever the store does,
    called outside a transaction: when it returns, no transaction is
    open and it has either changed no table or removed every session
    row of the token id and revoked every refresh row of the token id
    (the refresh rows it has just revoked are never usable, so the
    session is always deleted rather than kept marked); when it throws,
    the error is a storage error, a statement of the body and the
    [ROLLBACK] in the [catch] have both failed, and the tables are as
    they were or the transaction is still open over the tables as they
    were.  On a store that serves every statement it returns and has
    done the removal. *)
Theorem handleExpiredToken_deletes_or_nothing (now : Timestamp) (tokenId : Uuid)
  (w : World) :
  txn w = None ->
  match handleExpiredToken now tokenId w with
  | (Return _, w') =>
      txn w' = None
      /\ (db w' = db w
          \/ (sessions_of w' = without_token tokenId (sessions_of w)
              /\ refresh_of w' = map (revoke_token tokenId) (refresh_of w)))
      /\ (faults w = [] ->
          sessions_of w' = without_token tokenId (sessions_of w)
          /\ refresh_of w' = map (revoke_token tokenId) (refresh_of w))
  | (Throw e, w') =>
      is_DatabaseError e
      /\ (2 <= failures (faults w))%nat
      /\ ((db w' = db w /\ txn w' = None) \/ txn w' = Some (db w))
  end.
Proof.
  destruct w as [[U S R L] tx n f l]. simpl. intros ->.
  assert (Hdead : filter (fun r => eqN (RefreshToken.token_id r) tokenId
                                   && usable now r)
                         (map (fun r => if eqN (RefreshToken.token_id r) tokenId
                                        then RefreshToken.revoke r else r) R) = [])
    by apply revoke_token_unusable.
  assert (Hrows : filter (fun s => negb (eqN (Session.token_id s) tokenId))
                         (map (fun s => if eqN (Session.token_id s) tokenId
                                        then Session.mark now s else s) S)
                  = filter (fun s => negb (eqN (Session.token_id s) tokenId)) S).
  { apply (filter_map_others (fun s => eqN (Session.token_id s) tokenId)).
    intros s. reflexivity. }
  assert (Hdb : forall m, is_DatabaseError (DatabaseError m)) by (intros m; exists m; reflexivity).
  unfold handleExpiredToken, update_sessions, update_refresh_wa, select_refresh_wa,
    delete_sessions, without_token, revoke_token, sessions_of, refresh_of, failures,
    statement, Logger, BEGIN, COMMIT, ROLLBACK, transaction_command,
    when, throw, ret, try_catch, bind.
  do 7 (try (destruct f as [|[|] f]; simpl; try rewrite Hdead; simpl;
             try rewrite Hrows));
    repeat split; auto; try discriminate; try lia.
Qed.

Lemma handleExpiredToken_deletes_or_nothing_witness :
  match handleExpiredToken 3605000 100 world_3 with
  | (Return _, w') =>
      txn w' = None
      /\ (db w' = db world_3
          \/ (sessions_of w' = without_token 100 (sessions_of world_3)
              /\ refresh_of w' = map (revoke_token 100) (refresh_of world_3)))
      /\ (faults world_3 = [] ->
          sessions_of w' = without_token 100 (sessions_of world_3)
          /\ refresh_of w' = map (revoke_token 100) (refresh_of world_3))
  | (Throw e, w') =>
      is_DatabaseError e
      /\ (2 <= failures (faults world_3))%nat
      /\ ((db w' = db world_3 /\ txn w' = None) \/ txn w' = Some (db world_3))
  end.
Proof.
  apply (handleExpiredToken_deletes_or_nothing 3605000 100 world_3). reflexivity.
Defined.

(** The call throws when the update of the session rows fails and the
    [ROLLBACK] after it fails too. *)
Example handleExpiredToken_throws :
  fst (handleExpiredToken 3605000 100 (with_faults [false; true; true] world_3))
  = Throw (DatabaseError "statement failed").
Proof. vm_compute. reflexivity. Qed.

(** ** TokenService.cleanupExpiredSessions *)

Definition has_session (rows : list Session.t) (r : RefreshToken.t) : bool :=
  existsb (fun s => eqN (Session.token_id s) (RefreshToken.token_id r)) rows.

Lemma cleanupExpiredSessions_healthy now w :
  faults w = [] ->
  cleanupExpiredSessions now w
  = (let kept := filter (fun s => negb (marked_long_ago now s)) (sessions_of w) in
     (Return tt,
      mkWorld (mkDb (user_of_wa (db w)) kept
                    (map (fun r => if negb (has_session kept r)
                                   then RefreshToken.revoke r else r)
                         (refresh_of w))
                    (refresh_tokens (db w)))
              None (next_uuid w) [] (log w))).
Proof.
  destruct w as [[U S R L] tx n f l]. simpl. intros ->.
  unfold cleanupExpiredSessions, delete_sessions, statement, BEGIN, transaction_command, COMMIT, transaction_command,
    try_catch, bind. destruct tx; reflexivity.
Qed.

(** X24. The minute job [cleanupExpiredSessions] on a healthy store:
    it removes exactly the sessions marked more than five minutes ago
    (a session marked more recently, or never marked, stays), and
    afterwards every refresh row whose token id has no session left is
    revoked, while the refresh rows of the remaining sessions are as
    they were; no refresh row is removed. *)
Theorem cleanupExpiredSessions_revokes_orphans (now : Timestamp) (w : World) :
  faults w = [] ->
  exists w',
    cleanupExpiredSessions now w = (Return tt, w')
    /\ sessions_of w'
       = filter (fun s => negb (marked_long_ago now s)) (sessions_of w)
    /\ (forall r, In r (refresh_of w') ->
          (forall s, In s (sessions_of w') ->
             Session.token_id s <> RefreshToken.token_id r) ->
          RefreshToken.is_revoked r = true)
    /\ (forall r s, In r (refresh_of w) -> In s (sessions_of w') ->
          Session.token_id s = RefreshToken.token_id r -> In r (refresh_of w'))
    /\ map RefreshToken.id (refresh_of w') = map RefreshToken.id (refresh_of w).
Proof.
  intros Hf. rewrite cleanupExpiredSessions_healthy by assumption. cbv zeta.
  set (S0 := sessions_of w). set (R0 := refresh_of w).
  eexists. split; [reflexivity|]. unfold sessions_of, refresh_of. simpl.
  set (kept := filter (fun s => negb (marked_long_ago now s)) S0).
  split; [reflexivity|]. split; [|split].
  - intros r Hr Hnone. apply in_map_iff in Hr. destruct Hr as (r0 & Hr0 & _).
    destruct (has_session kept r0) eqn:E; simpl in Hr0.
    + exfalso. subst r. unfold has_session in E. apply existsb_exists in E.
      destruct E as (s & Hs & Heq). apply N.eqb_eq in Heq. exact (Hnone s Hs Heq).
    + subst r. reflexivity.
  - intros r s Hr Hs Heq. apply in_map_iff. exists r.
    assert (E : has_session kept r = true).
    { unfold has_session. apply existsb_exists. exists s.
      split; [assumption|]. apply N.eqb_eq. assumption. }
    rewrite E. simpl. auto.
  - rewrite map_map. apply map_ext. intros r.
    destruct (negb (has_session kept r)); reflexivity.
Qed.

Lemma cleanupExpiredSessions_revokes_orphans_witness :
  exists w',
    cleanupExpiredSessions 400000 cleanup_world = (Return tt, w')
    /\ sessions_of w'
       = filter (fun s => negb (marked_long_ago 400000 s)) (sessions_of cleanup_world)
    /\ (forall r, In r (refresh_of w') ->
          (forall s, In s (sessions_of w') ->
             Session.token_id s <> RefreshToken.token_id r) ->
          RefreshToken.is_revoked r = true)
    /\ (forall r s, In r (refresh_of cleanup_world) -> In s (sessions_of w') ->
          Session.token_id s = RefreshToken.token_id r -> In r (refresh_of w'))
    /\ map RefreshToken.id (refresh_of w')
       = map RefreshToken.id (refresh_of cleanup_world).
Proof.
  apply (cleanupExpiredSessions_revokes_orphans 400000 cleanup_world). reflexivity.
Defined.

(** The session marked at 8 s is kept by the job at 100 s and removed,
    with its refresh token revoked, at 400 s. *)
Example cleanupExpiredSessions_waits_five_minutes :
  map Session.id (sessions_of (exec (cleanupExpiredSessions 100000) cleanup_world))
  = [101; 104; 107]%N
  /\ map Session.id (sessions_of (exec (cleanupExpiredSessions 400000) cleanup_world))
     = [101; 107]%N
  /\ map (fun r => (RefreshToken.token_id r, RefreshToken.is_revoked r))
         (refresh_of (exec (cleanupExpiredSessions 400000) cleanup_world))
     = [(100, false); (103, true); (106, false)]%N.
Proof. vm_compute. repeat split; reflexivity. Qed.

(** ** Handlers and jobs that never throw *)

Lemma never_throws_catch_all {A} (m : M A) (h : Error -> M A) :
  (forall e, never_throws (h e)) -> never_throws (try_catch m h).
Proof.
  intros Hh. unfold never_throws.
  apply throws_only_try_catch with (Q := fun _ => True).
  - intros w e w' _. exact I.
  - intros e _. apply Hh.
Qed.

(** X25. None of these lets an error escape, whatever its input and
    whatever the store does: the two authentication middlewares, the
    logout, session-termination and pre-login-termination handlers,
    [authenticateUser], and the helpers [isSessionValid],
    [isRefreshTokenValid] and [updateSessionActivity].  The minute job
    [cleanupExpiredSessions] does let one escape, but only a storage
    error and only when two statements fail, one of its body and the
    [ROLLBACK] in its [catch]. *)
Theorem handlers_never_throw cfg bcrypt_compare sanitizeInput (now : Timestamp) :
  (forall bearer, never_throws (authenticateToken cfg now bearer))
  /\ (forall bearer, never_throws (optionalAuthenticateToken cfg now bearer))
  /\ (forall user, never_throws (handleLogout cfg now user))
  /\ (forall user sessionId, never_throws (terminateSession now user sessionId))
  /\ (forall userId sessionId, never_throws (terminatePreLoginSession userId sessionId))
  /\ (forall username password deviceInfo,
        never_throws (authenticateUser cfg bcrypt_compare sanitizeInput now
                                       username password deviceInfo))
  /\ (forall tokenId, never_throws (isSessionValid tokenId))
  /\ (forall t, never_throws (isRefreshTokenValid cfg now t))
  /\ (forall tokenId, never_throws (updateSessionActivity now tokenId))
  /\ (forall w e w',
        cleanupExpiredSessions now w = (Throw e, w') ->
        is_DatabaseError e /\ (2 <= failures (faults w))%nat).
Proof.
  repeat match goal with |- _ /\ _ => split end;
    try (intros; apply never_throws_catch_all; intros e;
         unfold never_throws; repeat throws_step).
  - destruct (instanceof_AppError e); apply throws_only_ret.
  - destruct e; repeat throws_step.
  - intros [d [t|] n f l] e w';
    unfold cleanupExpiredSessions, delete_sessions, statement, failures,
      BEGIN, COMMIT, ROLLBACK, transaction_command, Logger, try_catch, bind;
    simpl;
    do 6 (try (destruct f as [|[|] f]; simpl));
      intros H; inversion H; subst;
      (split; [eexists; reflexivity|simpl; lia]).
Qed.

(** The job throws when its first [DELETE] fails and the [ROLLBACK]
    after it fails too. *)
Example cleanupExpiredSessions_throws :
  fst (cleanupExpiredSessions 400000 (with_faults [false; true; true] cleanup_world))
  = Throw (DatabaseError "statement failed").
Proof. vm_compute. reflexivity. Qed.

(** ** Login *)

(** X26. [AuthService.login] does not tell its credential failures
    apart: on a healthy store an unknown user name, an inactive account
    and a wrong password all end in the same [AuthError]
    "Invalid credentials" (401), and no table changes (one log line is
    written). *)
Theorem AuthService_login_rejects_uniformly cfg bcrypt_compare sanitizeInput
  (now : Timestamp) (username password : string) (deviceInfo : DeviceInfo.t)
  (w : World) :
  faults w = [] ->
  match stored_user sanitizeInput username w with
  | None => True
  | Some user =>
      User.is_active user = false
      \/ bcrypt_compare password (User.password_hash user) = false
  end ->
  AuthService_login cfg bcrypt_compare sanitizeInput now username password
                    deviceInfo w
  = (Throw (AuthError "Invalid credentials" 401),
     add_log [(L_error, "Login failed")] w).
Proof.
  intros Hf Hbad.
  unfold AuthService_login, try_catch, bind at 1.
  rewrite findByUsername_healthy by assumption.
  destruct (stored_user sanitizeInput username w) as [user|].
  - unfold bind, when, verifyPassword, throw, ret, Logger, add_log.
    destruct (User.is_active user); simpl; [|reflexivity].
    destruct Hbad as [Hbad|Hbad]; [discriminate|]. rewrite Hbad. reflexivity.
  - reflexivity.
Qed.

Lemma AuthService_login_rejects_uniformly_witness :
  AuthService_login sample_config sample_compare sample_sanitize 8000
                    "ann" "guess" sample_device world_1
  = (Throw (AuthError "Invalid credentials" 401),
     add_log [(L_error, "Login failed")] world_1).
Proof.
  apply (AuthService_login_rejects_uniformly sample_config sample_compare
           sample_sanitize 8000 "ann" "guess" sample_device world_1).
  - reflexivity.
  - right. reflexivity.
Defined.

Example AuthService_login_unknown_user :
  fst (AuthService_login sample_config sample_compare sample_sanitize 8000
                         "bob" "pw" sample_device world_1)
  = Throw (AuthError "Invalid credentials" 401).
Proof. vm_compute. reflexivity. Qed.

(** X27. A login below the limit issues a pair.  On a healthy store,
    for a stored user whose password matches and whose non-marked
    sessions are fewer than [MAX_SESSIONS_PER_USER], [authenticateUser]
    returns success with a token pair under a token id from the id
    supply and stores one new session row and one new refresh row for
    it, whether or not the account is active; the session-limit check
    of [createSession] still runs over all the user's rows, marked ones
    included.  [AuthService.login] does the same for an active account
    and throws "Invalid credentials" for an inactive one. *)
Theorem login_below_limit cfg bcrypt_compare sanitizeInput (now : Timestamp)
  (username password : string) (deviceInfo : DeviceInfo.t) (w : World)
  (user : User.t) :
  faults w = [] ->
  stored_user sanitizeInput username w = Some user ->
  bcrypt_compare password (User.password_hash user) = true ->
  count (active_sessions (User.id user) w) < MAX_SESSIONS_PER_USER cfg ->
  let tokens := issued cfg now (User.id user) (next_uuid w) in
  exists w',
    authenticateUser cfg bcrypt_compare sanitizeInput now username password
                     deviceInfo w
    = (Return (mkAuthResult true (Some (token tokens)) (Some (refreshToken tokens))
                 (Some (User.id user, User.username user)) None None), w')
    /\ sessions_of w'
       = after_limit cfg (User.id user) (sessions_of w)
         ++ [new_session now (User.id user) deviceInfo (next_uuid w)]
    /\ refresh_of w'
       = refresh_of w ++ [new_refresh cfg now (User.id user) (next_uuid w)]
    /\ AuthService_login cfg bcrypt_compare sanitizeInput now username password
                         deviceInfo w
       = (if User.is_active user
          then (Return tokens, w')
          else (Throw (AuthError "Invalid credentials" 401),
                add_log [(L_error, "Login failed")] w)).
Proof.
  intros Hf Hu Hpw Hbelow tokens.
  apply Z.ltb_lt in Hbelow. rewrite Z.ltb_antisym in Hbelow.
  apply negb_true_iff in Hbelow.
  eexists. split; [|split; [|split]].
  - unfold authenticateUser, try_catch.
    erewrite bind_run by (apply findByUsername_healthy; assumption).
    rewrite Hu. unfold verifyPassword.
    erewrite bind_run by reflexivity. rewrite Hpw. cbn [negb].
    erewrite bind_run by (apply getActiveSessions_healthy; assumption).
    rewrite Hbelow.
    erewrite bind_run by (apply generateTokens_healthy; assumption).
    reflexivity.
  - reflexivity.
  - reflexivity.
  - unfold AuthService_login, try_catch.
    erewrite bind_run by (apply findByUsername_healthy; assumption).
    rewrite Hu. destruct (User.is_active user); cbn [negb when].
    + erewrite bind_run by reflexivity. unfold verifyPassword.
      erewrite bind_run by reflexivity. rewrite Hpw. cbn [negb when].
      erewrite bind_run by reflexivity.
      erewrite bind_run by (apply getActiveSessions_healthy; assumption).
      rewrite Hbelow. cbn [when].
      erewrite bind_run by reflexivity.
      rewrite generateTokens_healthy by assumption. reflexivity.
    + reflexivity.
Qed.

Lemma login_below_limit_witness :
  exists w',
    authenticateUser sample_config sample_compare sample_sanitize 8000
                     "ann" "pw" sample_device world_1
    = (Return (mkAuthResult true
                 (Some (token (issued sample_config 8000 7 (next_uuid world_1))))
                 (Some (refreshToken (issued sample_config 8000 7 (next_uuid world_1))))
                 (Some (7, "ann")) None None), w')
    /\ List.length (sessions_of w') = 2%nat.
Proof.
  destruct (login_below_limit sample_config sample_compare sample_sanitize 8000
              "ann" "pw" sample_device world_1
              (User.mk 7 "ann" "hash-of-pw" true))
    as (w' & Hrun & Hs & _ & _).
  - reflexivity.
  - reflexivity.
  - reflexivity.
  - reflexivity.
  - exists w'. split; [exact Hrun|]. rewrite Hs. reflexivity.
Defined.

(** The count that lets a login through ignores marked sessions, the
    limit check inside [createSession] does not: with two live sessions
    and one marked one under a limit of three the login succeeds and the
    least recently active session, a live one, is evicted. *)
Example login_below_limit_can_evict :
  map Session.id (active_sessions 7 cleanup_world) = [101; 107]%N
  /\ map Session.id
       (sessions_of (exec (authenticateUser sample_config sample_compare
                             sample_sanitize 9000 "ann" "pw" sample_device)
                          cleanup_world))
     = [104; 107; 110]%N.
Proof. vm_compute. split; reflexivity. Qed.

(** ** Session invalidation *)

Lemma invalidateSession_healthy tokenId w :
  faults w = [] ->
  invalidateSession tokenId w
  = (Return tt,
     with_db (with_sessions
                (filter (fun s => negb (eqN (Session.token_id s) tokenId))
                        (sessions_of w)) (db w)) w).
Proof.
  destruct w as [[U S R L] tx n f l]; simpl; intros ->. reflexivity.
Qed.

Lemma invalidateAllUserSessions_healthy userId w :
  faults w = [] ->
  invalidateAllUserSessions userId w
  = (Return tt,
     with_db (with_sessions
                (filter (fun s => negb (Session.user_id s =? userId))
                        (sessions_of w)) (db w)) w).
Proof.
  destruct w as [[U S R L] tx n f l]; simpl; intros ->. reflexivity.
Qed.

Lemma verifyToken_jwt_rejects cfg now t w e :
  jwt_verify t (JWT_SECRET cfg) now = Throw e ->
  verifyToken cfg now t w
  = ((if instanceof_JsonWebTokenError e
      then Throw (AuthError "Invalid token" 401)
      else if instanceof_TokenExpiredError e
           then Throw (AuthError "Token expired" 401)
           else Throw e), w).
Proof.
  intros Hjwt. unfold verifyToken, try_catch, bind at 1, lift. rewrite Hjwt.
  destruct (instanceof_JsonWebTokenError e); [reflexivity|].
  destruct (instanceof_TokenExpiredError e); reflexivity.
Qed.

(** X28. [invalidateSession] ends the access token and nothing else.
    On a healthy store it deletes exactly the session rows under the
    token id; afterwards [validateSession] answers false for it and
    every token under that id that still passes [jwt.verify] is refused
    with "Session not found", while no refresh row is touched, so
    [isRefreshTokenValid] answers as before. *)
Theorem invalidateSession_ends_access_only cfg (now : Timestamp) (tid : Uuid)
  (w : World) :
  faults w = [] ->
  exists w',
    invalidateSession tid w = (Return tt, w')
    /\ sessions_of w'
       = filter (fun s => negb (eqN (Session.token_id s) tid)) (sessions_of w)
    /\ validateSession tid w' = (Return false, w')
    /\ (forall t p,
          jwt_verify t (JWT_SECRET cfg) now = Return p -> tokenId p = tid ->
          verifyToken cfg now t w' = (Throw (AuthError "Session not found" 401), w'))
    /\ refresh_of w' = refresh_of w
    /\ (forall t, fst (isRefreshTokenValid cfg now t w')
                  = fst (isRefreshTokenValid cfg now t w)).
Proof.
  intros Hf. rewrite invalidateSession_healthy by assumption.
  eexists. split; [reflexivity|].
  set (w' := with_db _ w).
  assert (Hs : sessions_of w'
               = filter (fun s => negb (eqN (Session.token_id s) tid)) (sessions_of w))
    by reflexivity.
  assert (Hf' : faults w' = []) by exact Hf.
  assert (Hgone : forall s, In s (sessions_of w') -> eqN (Session.token_id s) tid = false).
  { intros s Hin. rewrite Hs in Hin. apply filter_In in Hin.
    destruct Hin as [_ Hin]. apply negb_true_iff in Hin. exact Hin. }
  repeat split.
  - apply filter_nil_iff in Hgone.
    destruct w' as [[U S R L] tx n f l]. unfold sessions_of in Hgone.
    simpl in *. subst f.
    unfold validateSession, bind, select_sessions, statement. simpl.
    rewrite Hgone. reflexivity.
  - intros t p Hjwt Htid.
    apply (verifyToken_healthy_missing cfg now t w' p Hf' Hjwt).
    intros s Hin. rewrite Htid, (Hgone s Hin). reflexivity.
  - intros t.
    destruct (jwt_verify t (JWT_SECRET cfg) now) as [p|e] eqn:Hjwt.
    + rewrite (isRefreshTokenValid_healthy cfg now t w' p Hf' Hjwt).
      rewrite (isRefreshTokenValid_healthy cfg now t w p Hf Hjwt). reflexivity.
    + unfold isRefreshTokenValid, try_catch, bind at 1 3, lift. rewrite Hjwt.
      reflexivity.
Qed.

Lemma invalidateSession_ends_access_only_witness :
  exists w',
    invalidateSession 103 world_3 = (Return tt, w')
    /\ map Session.id (sessions_of w') = [101; 107]%N
    /\ fst (verifyToken sample_config 9000 (token tokens_2) w')
       = Throw (AuthError "Session not found" 401)
    /\ fst (isRefreshTokenValid sample_config 9000 (refreshToken tokens_2) w')
       = Return true.
Proof.
  destruct (invalidateSession_ends_access_only sample_config 9000 103 world_3)
    as (w' & Hrun & Hs & _ & Hverify & _ & Hrefresh).
  - reflexivity.
  - exists w'. split; [exact Hrun|]. split; [rewrite Hs; reflexivity|]. split.
    + rewrite (Hverify (token tokens_2) (mkPayload 7 103)); reflexivity.
    + rewrite Hrefresh. vm_compute. reflexivity.
Defined.

(** X29. [invalidateAllUserSessions] signs the user out of every
    device but keeps the refresh tokens.  On a healthy store it deletes
    exactly that user's session rows, marked or not, and keeps every
    other user's; afterwards the user's active-session count is 0 and
    every token of that user that still passes [jwt.verify] is refused
    with "Session not found"; no refresh row is touched. *)
Theorem invalidateAllUserSessions_signs_out cfg (now : Timestamp) (uid : Z)
  (w : World) :
  faults w = [] ->
  exists w',
    invalidateAllUserSessions uid w = (Return tt, w')
    /\ sessions_of w'
       = filter (fun s => negb (Session.user_id s =? uid)) (sessions_of w)
    /\ getActiveSessions uid w' = (Return 0, w')
    /\ (forall t p,
          jwt_verify t (JWT_SECRET cfg) now = Return p -> userId p = uid ->
          verifyToken cfg now t w' = (Throw (AuthError "Session not found" 401), w'))
    /\ refresh_of w' = refresh_of w.
Proof.
  intros Hf. rewrite invalidateAllUserSessions_healthy by assumption.
  eexists. split; [reflexivity|].
  set (w' := with_db _ w).
  assert (Hs : sessions_of w'
               = filter (fun s => negb (Session.user_id s =? uid)) (sessions_of w))
    by reflexivity.
  assert (Hf' : faults w' = []) by exact Hf.
  assert (Hgone : forall s, In s (sessions_of w') -> (Session.user_id s =? uid) = false).
  { intros s Hin. rewrite Hs in Hin. apply filter_In in Hin.
    destruct Hin as [_ Hin]. apply negb_true_iff in Hin. exact Hin. }
  repeat split.
  - rewrite getActiveSessions_healthy by assumption. unfold active_sessions.
    replace (filter _ (sessions_of w')) with (@nil Session.t); [reflexivity|].
    symmetry. apply filter_nil_iff. intros s Hin. rewrite (Hgone s Hin). reflexivity.
  - intros t p Hjwt Huid.
    apply (verifyToken_healthy_missing cfg now t w' p Hf' Hjwt).
    intros s Hin. rewrite Huid, (Hgone s Hin). apply andb_false_r.
Qed.

Lemma invalidateAllUserSessions_signs_out_witness :
  exists w',
    invalidateAllUserSessions 7 two_user_world = (Return tt, w')
    /\ map Session.user_id (sessions_of w') = [8]
    /\ fst (verifyToken sample_config 9000 (token tokens_2) w')
       = Throw (AuthError "Session not found" 401)
    /\ List.length (refresh_of w') = 3%nat.
Proof.
  destruct (invalidateAllUserSessions_signs_out sample_config 9000 7 two_user_world)
    as (w' & Hrun & Hs & _ & Hverify & Hr).
  - reflexivity.
  - exists w'. split; [exact Hrun|]. split; [rewrite Hs; reflexivity|]. split.
    + rewrite (Hverify (token tokens_2) (mkPayload 7 103)); reflexivity.
    + rewrite Hr. reflexivity.
Defined.

(** ** The session-termination controller *)

Lemma filter_map_nil {A} (p : A -> bool) (g : A -> A) (l : list A) :
  (forall x, p (g x) = p x) ->
  (filter p (map g l) = [] <-> filter p l = []).
Proof.
  intros Hp. rewrite !filter_nil_iff. split.
  - intros H x Hin. rewrite <- Hp. apply H. apply in_map. exact Hin.
  - intros H y Hin. apply in_map_iff in Hin. destruct Hin as (x & <- & Hin).
    rewrite Hp. auto.
Qed.

Lemma verifyToken_healthy_fst cfg now t w p :
  faults w = [] ->
  jwt_verify t (JWT_SECRET cfg) now = Return p ->
  fst (verifyToken cfg now t w)
  = match filter (fun s => eqN (Session.token_id s) (tokenId p)
                           && (Session.user_id s =? userId p)) (sessions_of w) with
    | [] => Throw (AuthError "Session not found" 401)
    | _ :: _ => Return p
    end.
Proof.
  intros Hf Hjwt.
  destruct (filter _ (sessions_of w)) as [|s rest] eqn:Hrows.
  - rewrite (verifyToken_healthy_missing cfg now t w p Hf Hjwt); [reflexivity|].
    apply filter_nil_iff. exact Hrows.
  - assert (Hin : In s (filter (fun s => eqN (Session.token_id s) (tokenId p)
                                         && (Session.user_id s =? userId p))
                               (sessions_of w)))
      by (rewrite Hrows; left; reflexivity).
    apply filter_In in Hin. destruct Hin as [Hin Hp].
    apply andb_true_iff in Hp. destruct Hp as [Htok Husr].
    apply N.eqb_eq in Htok. apply Z.eqb_eq in Husr.
    apply (verifyToken_healthy_found cfg now t w p Hf Hjwt).
    exists s. auto.
Qed.

(** X30. The termination controller only marks.  On a healthy store,
    for an authenticated user, [terminateSession] answers 200
    "Session terminated successfully" whether or not a row carries the
    session id and the user id; it marks the rows that do and changes
    nothing else, so no refresh row is revoked, and [verifyToken] and
    [isRefreshTokenValid] answer for every token exactly as they did
    before the termination. *)
Theorem terminateSession_only_marks cfg (now now' : Timestamp)
  (u : TokenPayload) (sid : Uuid) (w : World) :
  faults w = [] ->
  userId u <> 0 ->
  exists w',
    terminateSession now (Some u) sid w
    = (Return (mkResponse 200 None None
                 (Some "Session terminated successfully") None), w')
    /\ sessions_of w'
       = map (fun s => if owned_by sid (userId u) s then Session.mark now s else s)
             (sessions_of w)
    /\ refresh_of w' = refresh_of w
    /\ (forall t, fst (verifyToken cfg now' t w') = fst (verifyToken cfg now' t w))
    /\ (forall t, fst (isRefreshTokenValid cfg now' t w')
                  = fst (isRefreshTokenValid cfg now' t w)).
Proof.
  intros Hf Hu. apply Z.eqb_neq in Hu.
  unfold terminateSession, TokenService_terminateSession, try_catch, bind.
  rewrite Hu. rewrite markSessionForDeletion_healthy by assumption.
  eexists. split; [reflexivity|].
  set (w' := with_db _ w).
  assert (Hs : sessions_of w'
               = map (fun s => if owned_by sid (userId u) s
                               then Session.mark now s else s) (sessions_of w))
    by reflexivity.
  assert (Hf' : faults w' = []) by exact Hf.
  repeat split.
  - intros t. destruct (jwt_verify t (JWT_SECRET cfg) now') as [p|e] eqn:Hjwt.
    + rewrite (verifyToken_healthy_fst cfg now' t w' p Hf' Hjwt).
      rewrite (verifyToken_healthy_fst cfg now' t w p Hf Hjwt). rewrite Hs.
      assert (Hsame : forall x,
                 (fun s => eqN (Session.token_id s) (tokenId p)
                           && (Session.user_id s =? userId p))
                   ((fun s => if owned_by sid (userId u) s
                              then Session.mark now s else s) x)
                 = (fun s => eqN (Session.token_id s) (tokenId p)
                             && (Session.user_id s =? userId p)) x).
      { intros x. simpl. destruct (owned_by sid (userId u) x); reflexivity. }
      pose proof (filter_map_nil _ _ (sessions_of w) Hsame) as Hnil.
      destruct (filter _ (map _ (sessions_of w))) as [|a l];
        destruct (filter _ (sessions_of w)) as [|b m]; try reflexivity.
      * destruct Hnil as [Hnil _]. discriminate (Hnil eq_refl).
      * destruct Hnil as [_ Hnil]. discriminate (Hnil eq_refl).
    + rewrite !(verifyToken_jwt_rejects cfg now' t _ e Hjwt). reflexivity.
  - intros t. destruct (jwt_verify t (JWT_SECRET cfg) now') as [p|e] eqn:Hjwt.
    + rewrite (isRefreshTokenValid_healthy cfg now' t w' p Hf' Hjwt).
      rewrite (isRefreshTokenValid_healthy cfg now' t w p Hf Hjwt). reflexivity.
    + unfold isRefreshTokenValid, try_catch, bind at 1 3, lift. rewrite Hjwt.
      reflexivity.
Qed.

Lemma terminateSession_only_marks_witness :
  exists w',
    terminateSession 9000 (Some (mkPayload 7 100)) 104 world_3
    = (Return (mkResponse 200 None None
                 (Some "Session terminated successfully") None), w')
    /\ map Session.is_marked_for_deletion (sessions_of w') = [false; true; false]
    /\ fst (verifyToken sample_config 9500 (token tokens_2) w')
       = Return (mkPayload 7 103)
    /\ fst (isRefreshTokenValid sample_config 9500 (refreshToken tokens_2) w')
       = Return true.
Proof.
  destruct (terminateSession_only_marks sample_config 9000 9500
              (mkPayload 7 100) 104 world_3)
    as (w' & Hrun & Hs & _ & Hverify & Hrefresh).
  - reflexivity.
  - discriminate.
  - exists w'. split; [exact Hrun|]. split; [rewrite Hs; reflexivity|]. split.
    + rewrite Hverify. vm_compute. reflexivity.
    + rewrite Hrefresh. vm_compute. reflexivity.
Defined.

(** Without [req.user] the controller answers 401 and reads no table;
    a session id that belongs to somebody else still gets the 200. *)
Example terminateSession_unauthenticated :
  terminateSession 9000 None 104 world_3
  = (Return (mkResponse 401 None (Some "AUTH_ERROR")
               (Some "User not authenticated") None),
     add_log [(L_error, "Session termination failed")] world_3).
Proof. vm_compute. reflexivity. Qed.

Example terminateSession_not_owner :
  terminateSession 9000 (Some (mkPayload 8 100)) 104 world_3
  = (Return (mkResponse 200 None None
               (Some "Session terminated successfully") None), world_3).
Proof. vm_compute. reflexivity. Qed.
